(** * Instructor search page

    A shallow embedding of
    [src/web/app/pages-instructor/instructor-search-page/instructor-search-page.component.ts]
    and the properties of its search, grouping and privilege steps. *)

From stdpp Require Import gmap strings list fin_maps.

Open Scope string_scope.
Open Scope list_scope.

(** ** Data model *)

(** Modelled from the spec: the [Student] type of [types/api-output] is not
    among the sources; the component reads [courseId] and [sectionName] and
    passes the rest through. A JavaScript object is represented by its
    reference ([ref]) together with its field values, so that two values are
    equal exactly when they denote the same object: [new Set] compares
    objects by reference. *)
Module Student.
Record t := mk {
  ref : nat;
  courseId : string;
  sectionName : string;
  name : string;
}.
End Student.

#[global] Instance Student_eq_dec : EqDecision Student.t.
Proof. solve_decision. Defined.

(** Modelled from the spec: [InstructorPrivilege] of [types/api-output],
    restricted to the two fields the component reads. *)
Module InstructorPrivilege.
Record t := mk {
  canViewStudentInSections : bool;
  canModifyStudent : bool;
}.
End InstructorPrivilege.

(** [StudentListRowModel] of the student list component. *)
Module StudentListRowModel.
Record t := mk {
  student : Student.t;
  isAllowedToViewStudentInSection : bool;
  isAllowedToModifyStudent : bool;
}.
End StudentListRowModel.

(** [SearchStudentsListRowTable] of the student result table. *)
Module SearchStudentsListRowTable.
Record t := mk {
  courseId : string;
  students : list StudentListRowModel.t;
}.
End SearchStudentsListRowTable.

(** Modelled from the spec: comment search results are opaque payloads; only
    [feedbackSession] and [questions] are selected. *)
Module CommentSearchResult.
Record t := mk {
  feedbackSession : string;
  questions : list string;
  responses : list string;
}.
End CommentSearchResult.

Module SearchCommentsTable.
Record t := mk {
  feedbackSession : string;
  questions : list string;
}.
End SearchCommentsTable.

Module InstructorSearchResult.
Record t := mk {
  students : list Student.t;
  comments : list CommentSearchResult.t;
}.
End InstructorSearchResult.

Module SearchParams.
Record t := mk {
  searchKey : string;
  isSearchForStudents : bool;
  isSearchForComments : bool;
}.
End SearchParams.

(** [ErrorMessageOutput]: [resp.error.message] and the HTTP status. *)
Module ErrorMessageOutput.
Record t := mk {
  message : string;
  status : nat;
}.
End ErrorMessageOutput.

(** [TransformedInstructorSearchResult]. Both fields are absent in the
    placeholder [{}] that a disabled branch emits. *)
Module TransformedInstructorSearchResult.
Record t := mk {
  searchCommentTables : option (list SearchCommentsTable.t);
  searchStudentTables : option (list SearchStudentsListRowTable.t);
}.
Definition empty : t := mk None None.
End TransformedInstructorSearchResult.

(** ** JavaScript arrays and sets *)

(** [Set.prototype.add]: a set keeps its members in insertion order and
    ignores a value it already holds. *)
Definition Set_add `{EqDecision A} (members : list A) (x : A) : list A :=
  if decide (x ∈ members) then members else members ++ [x].

(** [Array.from(new Set(xs))]. *)
Definition Array_from_Set `{EqDecision A} (xs : list A) : list A :=
  fold_left Set_add xs [].

(** [privileges.shift()]: the removed head, [None] for [undefined]. *)
Definition shift {A} (xs : list A) : option A * list A :=
  match xs with
  | [] => (None, [])
  | x :: xs' => (Some x, xs')
  end.

(** Position of the first occurrence of [x] in [xs]. *)
Fixpoint indexOf `{EqDecision A} (xs : list A) (x : A) : option nat :=
  match xs with
  | [] => None
  | y :: ys => if decide (y = x) then Some 0 else S <$> indexOf ys x
  end.

(** ** Pure steps of the component *)

Definition getSearchCommentsTable (searchResults : list CommentSearchResult.t)
  : list SearchCommentsTable.t :=
  (fun res => SearchCommentsTable.mk
                (CommentSearchResult.feedbackSession res)
                (CommentSearchResult.questions res)) <$> searchResults.

Definition getCoursesWithStudents (students : list Student.t)
  : list SearchStudentsListRowTable.t :=
  let distinctCourses := Array_from_Set (Student.courseId <$> students) in
  let coursesWithStudents :=
    (fun courseId =>
       SearchStudentsListRowTable.mk courseId
         ((fun s => StudentListRowModel.mk s false false) <$>
          Array_from_Set
            (filter (fun s => Student.courseId s = courseId) students)))
    <$> distinctCourses in
  coursesWithStudents.

(** [studentModel.isAllowedTo... = sectionPrivileges....] *)
Definition assignPrivilege (sectionPrivileges : InstructorPrivilege.t)
    (studentModel : StudentListRowModel.t) : StudentListRowModel.t :=
  StudentListRowModel.mk (StudentListRowModel.student studentModel)
    (InstructorPrivilege.canViewStudentInSections sectionPrivileges)
    (InstructorPrivilege.canModifyStudent sectionPrivileges).

(** The inner loop of [combinePrivileges] over the rows of one course; the
    remaining privileges are threaded through. The rows are values: this is
    the loop on rows that are distinct objects, as those built by
    [getCoursesWithStudents] are; [combineStudentsInPlace] is the loop on
    row objects. *)
Fixpoint combineStudents (students : list StudentListRowModel.t)
    (privileges : list InstructorPrivilege.t)
  : list StudentListRowModel.t * list InstructorPrivilege.t :=
  match students with
  | [] => ([], privileges)
  | studentModel :: rest =>
      match shift privileges with
      | (None, privileges') =>
          let '(rest', remaining) := combineStudents rest privileges' in
          (studentModel :: rest', remaining)
      | (Some sectionPrivileges, privileges') =>
          let '(rest', remaining) := combineStudents rest privileges' in
          (assignPrivilege sectionPrivileges studentModel :: rest', remaining)
      end
  end.

(** The outer loop of [combinePrivileges]. *)
Fixpoint combineCourses (coursesWithStudents : list SearchStudentsListRowTable.t)
    (privileges : list InstructorPrivilege.t)
  : list SearchStudentsListRowTable.t :=
  match coursesWithStudents with
  | [] => []
  | course :: rest =>
      let '(students', privileges') :=
        combineStudents (SearchStudentsListRowTable.students course) privileges in
      SearchStudentsListRowTable.mk (SearchStudentsListRowTable.courseId course) students'
        :: combineCourses rest privileges'
  end.

Definition combinePrivileges
    (res : list SearchStudentsListRowTable.t * list InstructorPrivilege.t)
  : TransformedInstructorSearchResult.t :=
  let '(coursesWithStudents, privileges) := res in
  TransformedInstructorSearchResult.mk
    (Some [])
    (Some (combineCourses coursesWithStudents privileges)).

(** ** The page and its collaborators *)

(** Invocations of the [SearchService] methods. *)
Inductive Call :=
| searchComment_call (searchKey : string)
| searchInstructor_call (searchKey : string)
| searchInstructorPrivilege_call (courseId sectionName : string).

#[global] Instance Call_eq_dec : EqDecision Call.
Proof. solve_decision. Defined.

(** Notifications handed to the [StatusMessageService]. *)
Inductive Toast :=
| showWarningToast (message : string)
| showErrorToast (message : string).

#[global] Instance Toast_eq_dec : EqDecision Toast.
Proof. solve_decision. Defined.

(** The fields of the component, followed by what its two services have been
    asked to do so far. [commentTables] is [None] once [undefined] has been
    assigned to it. *)
Record State := mkState {
  searchParams : SearchParams.t;
  studentsListRowTables : list SearchStudentsListRowTable.t;
  commentTables : option (list SearchCommentsTable.t);
  isSearching : bool;
  toasts : list Toast;
  requests : list Call;
}.

(** The component as constructed. *)
Definition initial : State :=
  mkState (SearchParams.mk "" true false) [] (Some []) false [] [].

Definition set_studentsListRowTables (v : list SearchStudentsListRowTable.t)
    (st : State) : State :=
  mkState (searchParams st) v (commentTables st) (isSearching st)
          (toasts st) (requests st).

Definition set_commentTables (v : option (list SearchCommentsTable.t))
    (st : State) : State :=
  mkState (searchParams st) (studentsListRowTables st) v (isSearching st)
          (toasts st) (requests st).

Definition set_isSearching (v : bool) (st : State) : State :=
  mkState (searchParams st) (studentsListRowTables st) (commentTables st) v
          (toasts st) (requests st).

Definition toast (t : Toast) (st : State) : State :=
  mkState (searchParams st) (studentsListRowTables st) (commentTables st)
          (isSearching st) (toasts st ++ [t]) (requests st).

Definition invoked (calls : list Call) (st : State) : State :=
  mkState (searchParams st) (studentsListRowTables st) (commentTables st)
          (isSearching st) (toasts st) (requests st ++ calls).

(** Instants of the event loop. *)
Definition Time := nat.

(** What the backend answers to one request, and how long it takes. *)
Inductive Reply (T : Type) :=
| Ok (body : T)
| Failed (e : ErrorMessageOutput.t).
Arguments Ok {T} body.
Arguments Failed {T} e.

Record Response (T : Type) := mkResponse {
  latency : Time;
  reply : Reply T;
}.
Arguments mkResponse {T} latency reply.
Arguments latency {T} r.
Arguments reply {T} r.

(** Modelled from the spec: [SearchService] is not among the sources. Each of
    its three methods starts one remote call; the backend is taken as a
    function from the arguments of a call to its response. *)
Module SearchService.
Record t := mk {
  searchComment : string -> Response InstructorSearchResult.t;
  searchInstructor : string -> Response InstructorSearchResult.t;
  searchInstructorPrivilege : string -> string -> Response InstructorPrivilege.t;
}.
End SearchService.

(** ** Observables

    Every stream of the component delivers at most one value. A stream is
    described by what a subscription made at a given instant leads to: when
    it ends and how, which service methods its callbacks invoke meanwhile,
    and which [finalize] callbacks are due once it is over. *)
Module Rx.

Inductive Notification (T : Type) :=
| Next (value : T)                    (* one value, then completion *)
| Error (e : ErrorMessageOutput.t)
| Complete.                           (* completion without a value *)
Arguments Next {T} value.
Arguments Error {T} e.
Arguments Complete {T}.

Record Outcome (T : Type) := mkOutcome {
  done_at : Time;
  signal : Notification T;
  issued : list (Time * Call);
  teardown : list (State -> State);
}.
Arguments mkOutcome {T} done_at signal issued teardown.
Arguments done_at {T} o.
Arguments signal {T} o.
Arguments issued {T} o.
Arguments teardown {T} o.

Definition Observable (T : Type) := Time -> Outcome T.

(** [of(value)] *)
Definition of_ {T} (value : T) : Observable T :=
  fun now => mkOutcome now (Next value) [] [].

(** The stream of one remote call. *)
Definition http {T} (r : Response T) : Observable T :=
  fun now =>
    mkOutcome (now + latency r)
              (match reply r with Ok body => Next body | Failed e => Error e end)
              [] [].

(** A value that is not a stream: subscribing raises a [TypeError]. *)
Definition notAStream {T} : Observable T :=
  fun now => mkOutcome now (Error (ErrorMessageOutput.mk "TypeError" 0)) [] [].

Definition from {T} (input : option (Observable T)) : Observable T :=
  match input with
  | Some o => o
  | None => notAStream
  end.

(** [map(project)] *)
Definition map {A B} (project : A -> B) (source : Observable A) : Observable B :=
  fun now =>
    let r := source now in
    mkOutcome (done_at r)
              (match signal r with
               | Next value => Next (project value)
               | Error e => Error e
               | Complete => Complete
               end)
              (issued r) (teardown r).

(** [mergeMap(project)]: [project] runs when the source delivers its value,
    invokes service methods and returns the stream subscribed to next. *)
Definition mergeMap {A B} (project : A -> Observable B * list Call)
    (source : Observable A) : Observable B :=
  fun now =>
    let r := source now in
    match signal r with
    | Next value =>
        let '(inner, calls) := project value in
        let r' := inner (done_at r) in
        mkOutcome (done_at r') (signal r')
                  (issued r ++ ((fun c => (done_at r, c)) <$> calls) ++ issued r')
                  (teardown r ++ teardown r')
    | Error e => mkOutcome (done_at r) (Error e) (issued r) (teardown r)
    | Complete => mkOutcome (done_at r) Complete (issued r) (teardown r)
    end.

(** [finalize(callback)] *)
Definition finalize {T} (callback : State -> State) (source : Observable T)
  : Observable T :=
  fun now =>
    let r := source now in
    mkOutcome (done_at r) (signal r) (issued r) (teardown r ++ [callback]).

(** *** [forkJoin] *)

(** A source that ends without a value, and how. *)
Inductive Abort :=
| Errored (e : ErrorMessageOutput.t)
| Emptied.

Definition abort_of {T} (n : Notification T) : option Abort :=
  match n with
  | Next _ => None
  | Error e => Some (Errored e)
  | Complete => Some Emptied
  end.

(** A source outcome without its value. *)
Record Settled := mkSettled {
  at_ : Time;
  abort : option Abort;
  calls : list (Time * Call);
  finals : list (State -> State);
}.

Definition settled {T} (r : Outcome T) : Settled :=
  mkSettled (done_at r) (abort_of (signal r)) (issued r) (teardown r).

(** The source that ends without a value first, from position [i] on: the
    earliest instant wins and, among sources of one instant, the leftmost. *)
Fixpoint firstAbort (i : nat) (sources : list Settled)
  : option (nat * Time * Abort) :=
  match sources with
  | [] => None
  | s :: rest =>
      match abort s, firstAbort (S i) rest with
      | None, later => later
      | Some a, None => Some (i, at_ s, a)
      | Some a, Some (j, u, b) =>
          if (u <? at_ s)%nat then Some (j, u, b) else Some (i, at_ s, a)
      end
  end.

(** Whether source [j] still invokes [c] when source [i] ends the join at
    instant [u]. Sources of one instant are served from left to right. At the
    instant [now] of the subscription itself [forkJoin] is still subscribing
    to its sources, and it subscribes to every one of them, so that what a
    source does while being subscribed to happens in any case. *)
Definition precedes (now u : Time) (i j : nat) (c : Time * Call) : Prop :=
  (c.1 < u \/ (c.1 = u /\ (j <= i \/ u = now)))%nat.

#[global] Instance precedes_dec now u i j c : Decision (precedes now u i j c).
Proof. unfold precedes. apply _. Defined.

Definition issuedUntil (now u : Time) (i : nat) (sources : list Settled)
  : list (Time * Call) :=
  concat (imap (fun j s => filter (precedes now u i j) (calls s)) sources).

Definition latest (now : Time) (sources : list Settled) : Time :=
  fold_left Nat.max (at_ <$> sources) now.

(** What all sources of a [forkJoin] subscribed at [now] lead to, values
    apart: the first source to end without a value ends the join and
    unsubscribes the others; otherwise the join ends with the last one. *)
Definition join (now : Time) (sources : list Settled) : Settled :=
  match firstAbort 0 sources with
  | Some (i, u, a) =>
      mkSettled u (Some a) (issuedUntil now u i sources)
                (concat (finals <$> sources))
  | None =>
      mkSettled (latest now sources) None
                (concat (calls <$> sources)) (concat (finals <$> sources))
  end.

Definition ended {T} (s : Settled) (values : T) : Outcome T :=
  mkOutcome (at_ s)
            (match abort s with
             | None => Next values
             | Some (Errored e) => Error e
             | Some Emptied => Complete
             end)
            (calls s) (finals s).

Definition values {T} (rs : list (Outcome T)) : list T :=
  omap (fun r => match signal r with Next v => Some v | _ => None end) rs.

(** [forkJoin(sources)] of an array of streams of one type. *)
Definition forkJoin {T} (sources : list (Observable T)) : Observable (list T) :=
  fun now =>
    match sources with
    | [] => mkOutcome now Complete [] []
    | _ =>
        let rs := (fun o => o now) <$> sources in
        ended (join now (settled <$> rs)) (values rs)
    end.

(** [forkJoin([a, b])] of two streams, delivering a pair. *)
Definition forkJoin2 {A B} (a : Observable A) (b : Observable B)
  : Observable (A * B) :=
  fun now =>
    let ra := a now in
    let rb := b now in
    let s := join now [settled ra; settled rb] in
    match signal ra, signal rb with
    | Next va, Next vb => ended s (va, vb)
    | _, _ =>
        mkOutcome (at_ s)
                  (match abort s with
                   | Some (Errored e) => Error e
                   | _ => Complete
                   end)
                  (calls s) (finals s)
    end.

(** [source.subscribe(next, error)] at instant [now], followed to its end. *)
Definition subscribe {T} (source : Observable T)
    (next : T -> State -> State)
    (error : ErrorMessageOutput.t -> State -> State)
    (now : Time) (st : State) : State :=
  let r := source now in
  let st := invoked (snd <$> issued r) st in
  let st := match signal r with
            | Next value => next value st
            | Error e => error e st
            | Complete => st
            end in
  fold_left (fun st callback => callback st) (teardown r) st.

End Rx.

(** ** The component *)

Section Component.

Variable searchService : SearchService.t.

(** [this.searchService.searchComment(searchKey)] and its siblings: the
    stream of the call, and the invocation itself. *)
Definition searchComment (searchKey : string)
  : Rx.Observable InstructorSearchResult.t * list Call :=
  (Rx.http (SearchService.searchComment searchService searchKey),
   [searchComment_call searchKey]).

Definition searchInstructor (searchKey : string)
  : Rx.Observable InstructorSearchResult.t * list Call :=
  (Rx.http (SearchService.searchInstructor searchService searchKey),
   [searchInstructor_call searchKey]).

Definition searchInstructorPrivilege (courseId sectionName : string)
  : Rx.Observable InstructorPrivilege.t * list Call :=
  (Rx.http (SearchService.searchInstructorPrivilege searchService courseId sectionName),
   [searchInstructorPrivilege_call courseId sectionName]).

(** The first [forEach] of a course in [getPrivileges]: one stream per
    distinct section, stored under the section name. *)
Definition lookupSections (courseId : string) (sections : list string)
    (calls : list Call)
  : gmap string (Rx.Observable InstructorPrivilege.t) * list Call :=
  fold_left
    (fun '(sectionToPrivileges, calls) section =>
       let '(privilege, call) := searchInstructorPrivilege courseId section in
       (<[section := privilege]> sectionToPrivileges, calls ++ call))
    sections (∅, calls).

(** The second [forEach] of a course: one entry of [privileges] per row. *)
Definition pushPrivileges
    (sectionToPrivileges : gmap string (Rx.Observable InstructorPrivilege.t))
    (students : list StudentListRowModel.t)
    (privileges : list (Rx.Observable InstructorPrivilege.t))
  : list (Rx.Observable InstructorPrivilege.t) :=
  fold_left
    (fun privileges studentModel =>
       privileges ++
       [Rx.from (sectionToPrivileges !!
                   Student.sectionName (StudentListRowModel.student studentModel))])
    students privileges.

Definition getPrivileges (coursesWithStudents : list SearchStudentsListRowTable.t)
  : Rx.Observable (list InstructorPrivilege.t) * list Call :=
  if decide (length coursesWithStudents = 0) then (Rx.of_ [], [])
  else
    let '(privileges, calls) :=
      fold_left
        (fun '(privileges, calls) course =>
           let '(sectionToPrivileges, calls) :=
             lookupSections (SearchStudentsListRowTable.courseId course)
               (Array_from_Set
                  ((fun studentModel =>
                      Student.sectionName (StudentListRowModel.student studentModel))
                   <$> SearchStudentsListRowTable.students course))
               calls in
           (pushPrivileges sectionToPrivileges
              (SearchStudentsListRowTable.students course) privileges,
            calls))
        coursesWithStudents ([], []) in
    (Rx.forkJoin privileges, calls).

(** [!!(table && table.length)] *)
Definition hasRows {A} (table : option (list A)) : bool :=
  match table with
  | Some rows => negb (length rows =? 0)%nat
  | None => false
  end.

(** The first element of the array handed to the outer [forkJoin]. *)
Definition commentBranch (params : SearchParams.t)
  : Rx.Observable TransformedInstructorSearchResult.t * list Call :=
  if SearchParams.isSearchForComments params then
    let '(response, call) := searchComment (SearchParams.searchKey params) in
    (Rx.map (fun resp =>
               TransformedInstructorSearchResult.mk
                 (Some (getSearchCommentsTable (InstructorSearchResult.comments resp)))
                 (Some []))
            response,
     call)
  else (Rx.of_ TransformedInstructorSearchResult.empty, []).

(** The second element. *)
Definition studentBranch (params : SearchParams.t)
  : Rx.Observable TransformedInstructorSearchResult.t * list Call :=
  if SearchParams.isSearchForStudents params then
    let '(response, call) := searchInstructor (SearchParams.searchKey params) in
    (Rx.map combinePrivileges
       (Rx.mergeMap
          (fun coursesWithStudents =>
             let '(privileges, calls) := getPrivileges coursesWithStudents in
             (Rx.forkJoin2 (Rx.of_ coursesWithStudents) privileges, calls))
          (Rx.map (fun res => getCoursesWithStudents (InstructorSearchResult.students res))
                  response)),
     call)
  else (Rx.of_ TransformedInstructorSearchResult.empty, []).

(** The success callback of [search]. *)
Definition onResults
    (resp : TransformedInstructorSearchResult.t * TransformedInstructorSearchResult.t)
    (st : State) : State :=
  let st := set_commentTables
              (TransformedInstructorSearchResult.searchCommentTables resp.1) st in
  let searchStudentsTable :=
    TransformedInstructorSearchResult.searchStudentTables resp.2 in
  let hasStudents := hasRows searchStudentsTable in
  let hasComments := hasRows (commentTables st) in
  let st := match searchStudentsTable with
            | Some tables =>
                if hasStudents then set_studentsListRowTables tables st else st
            | None => st
            end in
  if negb hasStudents && negb hasComments
  then toast (showWarningToast "No results found.") st
  else st.

(** The failure callback of [search]. *)
Definition onFailure (resp : ErrorMessageOutput.t) (st : State) : State :=
  toast (showErrorToast (ErrorMessageOutput.message resp)) st.

(** [search()], followed until its subscription is over. *)
Definition search (st : State) : State :=
  let params := searchParams st in
  if negb (SearchParams.isSearchForComments params
           || SearchParams.isSearchForStudents params)
     || bool_decide (SearchParams.searchKey params = "")
  then st
  else
    let st := set_isSearching true st in
    let '(comments, calls0) := commentBranch params in
    let '(students, calls1) := studentBranch params in
    let st := invoked (calls0 ++ calls1) st in
    Rx.subscribe
      (Rx.finalize (set_isSearching false) (Rx.forkJoin2 comments students))
      onResults onFailure 0 st.

End Component.

(** ** Specification vocabulary *)

(** [a] is met before [b] when reading [xs] from the front. *)
Definition seenBefore `{EqDecision A} (xs : list A) (a b : A) : Prop :=
  exists i j, indexOf xs a = Some i /\ indexOf xs b = Some j /\ (i < j)%nat.

(** All rows of a list of course groups, in the nested order of the loops. *)
Definition allRows (coursesWithStudents : list SearchStudentsListRowTable.t)
  : list StudentListRowModel.t :=
  concat (SearchStudentsListRowTable.students <$> coursesWithStudents).

Definition sectionOf (studentModel : StudentListRowModel.t) : string :=
  Student.sectionName (StudentListRowModel.student studentModel).

Definition membersOf (course : SearchStudentsListRowTable.t) : list Student.t :=
  StudentListRowModel.student <$> SearchStudentsListRowTable.students course.

(** The group that [getCoursesWithStudents] builds for one course. *)
Definition groupOf (students : list Student.t) (courseId : string)
  : SearchStudentsListRowTable.t :=
  SearchStudentsListRowTable.mk courseId
    ((fun s => StudentListRowModel.mk s false false) <$>
     Array_from_Set (filter (fun s => Student.courseId s = courseId) students)).

(** The rows after the privileges have been handed out from the front. *)
Fixpoint assignFront (privileges : list InstructorPrivilege.t)
    (rows : list StudentListRowModel.t) {struct rows}
  : list StudentListRowModel.t :=
  match rows, privileges with
  | [], _ => []
  | row :: rows', [] => row :: rows'
  | row :: rows', p :: ps => assignPrivilege p row :: assignFront ps rows'
  end.

(** [search()] goes past its guard. *)
Definition searches (params : SearchParams.t) : Prop :=
  (SearchParams.isSearchForComments params = true \/
   SearchParams.isSearchForStudents params = true) /\
  SearchParams.searchKey params ≠ "".

(** The stream that [search()] subscribes to, [finalize] apart. *)
Definition searchStream (searchService : SearchService.t) (params : SearchParams.t)
  : Rx.Observable (TransformedInstructorSearchResult.t *
                   TransformedInstructorSearchResult.t) :=
  Rx.forkJoin2 (commentBranch searchService params).1
               (studentBranch searchService params).1.

(** A search succeeds when its stream delivers the results of both branches. *)
Definition succeeds (searchService : SearchService.t) (params : SearchParams.t)
    (resp : TransformedInstructorSearchResult.t * TransformedInstructorSearchResult.t)
  : Prop :=
  Rx.signal (searchStream searchService params 0) = Rx.Next resp.

(** The response to the privilege lookup of a row of a course group. *)
Definition privilegeFor (searchService : SearchService.t)
    (course : SearchStudentsListRowTable.t) (row : StudentListRowModel.t)
  : Response InstructorPrivilege.t :=
  SearchService.searchInstructorPrivilege searchService
    (SearchStudentsListRowTable.courseId course) (sectionOf row).

(** A remote call of the search fails with [e]. *)
Inductive failure (searchService : SearchService.t) (params : SearchParams.t)
    (e : ErrorMessageOutput.t) : Prop :=
| comment_search_fails :
    SearchParams.isSearchForComments params = true ->
    reply (SearchService.searchComment searchService (SearchParams.searchKey params))
      = Failed e ->
    failure searchService params e
| student_search_fails :
    SearchParams.isSearchForStudents params = true ->
    reply (SearchService.searchInstructor searchService (SearchParams.searchKey params))
      = Failed e ->
    failure searchService params e
| privilege_lookup_fails res course row :
    SearchParams.isSearchForStudents params = true ->
    reply (SearchService.searchInstructor searchService (SearchParams.searchKey params))
      = Ok res ->
    course ∈ getCoursesWithStudents (InstructorSearchResult.students res) ->
    row ∈ SearchStudentsListRowTable.students course ->
    reply (privilegeFor searchService course row) = Failed e ->
    failure searchService params e.

(** The body of a response, with no privilege at all for a failed one. *)
Definition bodyOf (r : Response InstructorPrivilege.t) : InstructorPrivilege.t :=
  match reply r with
  | Ok p => p
  | Failed _ => InstructorPrivilege.mk false false
  end.

(** Course groups whose rows carry the privileges the backend answers. *)
Definition annotate (searchService : SearchService.t)
    (coursesWithStudents : list SearchStudentsListRowTable.t)
  : list SearchStudentsListRowTable.t :=
  (fun course =>
     SearchStudentsListRowTable.mk (SearchStudentsListRowTable.courseId course)
       ((fun row => assignPrivilege (bodyOf (privilegeFor searchService course row)) row)
        <$> SearchStudentsListRowTable.students course))
  <$> coursesWithStudents.

(** What the comment branch delivers when nothing fails. *)
Definition commentsFound (searchService : SearchService.t) (params : SearchParams.t)
    (r : TransformedInstructorSearchResult.t) : Prop :=
  if SearchParams.isSearchForComments params then
    exists resp,
      reply (SearchService.searchComment searchService (SearchParams.searchKey params))
        = Ok resp /\
      r = TransformedInstructorSearchResult.mk
            (Some (getSearchCommentsTable (InstructorSearchResult.comments resp)))
            (Some [])
  else r = TransformedInstructorSearchResult.empty.

(** What the student branch delivers when nothing fails. *)
Definition studentsFound (searchService : SearchService.t) (params : SearchParams.t)
    (r : TransformedInstructorSearchResult.t) : Prop :=
  if SearchParams.isSearchForStudents params then
    exists res,
      reply (SearchService.searchInstructor searchService (SearchParams.searchKey params))
        = Ok res /\
      (forall course row,
         course ∈ getCoursesWithStudents (InstructorSearchResult.students res) ->
         row ∈ SearchStudentsListRowTable.students course ->
         exists p, reply (privilegeFor searchService course row) = Ok p) /\
      r = TransformedInstructorSearchResult.mk
            (Some [])
            (Some (annotate searchService
                     (getCoursesWithStudents (InstructorSearchResult.students res))))
  else r = TransformedInstructorSearchResult.empty.

(** The service methods that a search invokes, in order. *)
Definition searchCalls (searchService : SearchService.t) (params : SearchParams.t)
  : list Call :=
  ((commentBranch searchService params).2 ++ (studentBranch searchService params).2)
  ++ (snd <$> Rx.issued (searchStream searchService params 0)).

(** ** Sample data *)

Module Sample.

Definition alice : Student.t := Student.mk 1 "C1" "S1" "Alice".
Definition bob : Student.t := Student.mk 2 "C1" "S1" "Bob".
Definition carol : Student.t := Student.mk 3 "C2" "S2" "Carol".
(** Another object with the field values of [alice]. *)
Definition twin : Student.t := Student.mk 4 "C1" "S1" "Alice".

Definition students : list Student.t := [alice; bob; carol].

Definition row (s : Student.t) : StudentListRowModel.t :=
  StudentListRowModel.mk s false false.

Definition comment : CommentSearchResult.t :=
  CommentSearchResult.mk "Session 1" ["Q1"] ["R1"].


(** A backend that finds one comment and the three students, and grants
    viewing in course C1 and modifying in section S2. *)
Definition backend : SearchService.t :=
  SearchService.mk
    (fun _ => mkResponse 3 (Ok (InstructorSearchResult.mk [] [comment])))
    (fun _ => mkResponse 2 (Ok (InstructorSearchResult.mk students [])))
    (fun courseId sectionName =>
       mkResponse 1 (Ok (InstructorPrivilege.mk (bool_decide (courseId = "C1"))
                                                (bool_decide (sectionName = "S2"))))).


(** A backend that finds nothing. *)
Definition barren : SearchService.t :=
  SearchService.mk
    (fun _ => mkResponse 1 (Ok (InstructorSearchResult.mk [] [])))
    (fun _ => mkResponse 1 (Ok (InstructorSearchResult.mk [] [])))
    (SearchService.searchInstructorPrivilege backend).


(** A page that shows the result of an earlier search. *)
Definition page (params : SearchParams.t) : State :=
  mkState params
    [SearchStudentsListRowTable.mk "C9"
       [StudentListRowModel.mk (Student.mk 9 "C9" "S9" "Dan") true true]]
    (Some [SearchCommentsTable.mk "Session 0" ["Q0"]])
    false [] [].

Definition both : SearchParams.t := SearchParams.mk "a" true true.
Definition studentsOnly : SearchParams.t := SearchParams.mk "a" true false.
Definition commentsOnly : SearchParams.t := SearchParams.mk "a" false true.
Definition blank : SearchParams.t := SearchParams.mk " " true false.

End Sample.

(** ** Page load *)

(** The query parameters of the route, of which the page reads
    [studentSearchkey]; [None] stands for an absent parameter. *)
Module QueryParams.
Record t := mk {
  studentSearchkey : option string;
}.
End QueryParams.

(** Truthiness of a string: every string but the empty one. *)
Definition truthy (s : string) : bool := negb (bool_decide (s = "")).

(** [this.searchParams.searchKey = v] *)
Definition set_searchKey (v : string) (st : State) : State :=
  mkState (SearchParams.mk v
             (SearchParams.isSearchForStudents (searchParams st))
             (SearchParams.isSearchForComments (searchParams st)))
          (studentsListRowTables st) (commentTables st) (isSearching st)
          (toasts st) (requests st).

(** The subscriber that [ngOnInit] registers on [route.queryParams], run for
    one emission and followed until the search it starts is over. *)
Definition onQueryParams (searchService : SearchService.t)
    (queryParams : QueryParams.t) (st : State) : State :=
  let st := match QueryParams.studentSearchkey queryParams with
            | Some studentSearchkey =>
                if truthy studentSearchkey then set_searchKey studentSearchkey st
                else st
            | None => st
            end in
  if truthy (SearchParams.searchKey (searchParams st))
  then search searchService st
  else st.

(** The course and section of a student. *)
Definition pairOf (s : Student.t) : string * string :=
  (Student.courseId s, Student.sectionName s).

(** The lookups that [getPrivileges] invokes for course groups: one per
    distinct section of each group, in loop order. *)
Definition lookupsOf (coursesWithStudents : list SearchStudentsListRowTable.t)
  : list Call :=
  concat ((fun course =>
             searchInstructorPrivilege_call (SearchStudentsListRowTable.courseId course)
             <$> Array_from_Set (sectionOf <$> SearchStudentsListRowTable.students course))
          <$> coursesWithStudents).

(** The students of each block belong to the course of the block. *)
Definition blocked (block : string -> list Student.t) (cs : list string) : Prop :=
  forall c s, c ∈ cs -> s ∈ block c -> Student.courseId s = c.

(** ** Row objects

    [combinePrivileges] assigns to the row objects it is handed and returns
    the array of groups it was handed. Course groups built by
    [getCoursesWithStudents] hold a new object per row, to which
    [combineCourses] above applies; for any other argument the row objects
    are kept in a heap and the groups hold references to them, so that an
    object listed twice is one object. *)

(** A [SearchStudentsListRowTable] whose rows are references. *)
Module RowTable.
Record t := mk {
  courseId : string;
  students : list nat;
}.
End RowTable.

(** All references of a list of groups, in the nested order of the loops. *)
Definition allRefs (coursesWithStudents : list RowTable.t) : list nat :=
  concat (RowTable.students <$> coursesWithStudents).

(** What a call of [combinePrivileges] returns and what it leaves behind:
    the row objects and the privilege array, both assigned to in place. *)
Module Combined.
Record t := mk {
  searchStudentTables : list RowTable.t;
  searchCommentTables : list SearchCommentsTable.t;
  heap : gmap nat StudentListRowModel.t;
  privileges : list InstructorPrivilege.t;
}.
End Combined.

(** The inner loop of [combinePrivileges] over the rows of one course. *)
Fixpoint combineStudentsInPlace (students : list nat)
    (privileges : list InstructorPrivilege.t)
    (heap : gmap nat StudentListRowModel.t)
  : gmap nat StudentListRowModel.t * list InstructorPrivilege.t :=
  match students with
  | [] => (heap, privileges)
  | studentModel :: rest =>
      match shift privileges with
      | (None, privileges') => combineStudentsInPlace rest privileges' heap
      | (Some sectionPrivileges, privileges') =>
          combineStudentsInPlace rest privileges'
            (alter (assignPrivilege sectionPrivileges) studentModel heap)
      end
  end.

(** The outer loop of [combinePrivileges]. *)
Fixpoint combineCoursesInPlace (coursesWithStudents : list RowTable.t)
    (privileges : list InstructorPrivilege.t)
    (heap : gmap nat StudentListRowModel.t)
  : gmap nat StudentListRowModel.t * list InstructorPrivilege.t :=
  match coursesWithStudents with
  | [] => (heap, privileges)
  | course :: rest =>
      let '(heap', privileges') :=
        combineStudentsInPlace (RowTable.students course) privileges heap in
      combineCoursesInPlace rest privileges' heap'
  end.

(** [combinePrivileges] on row objects. *)
Definition combinePrivilegesInPlace
    (res : list RowTable.t * list InstructorPrivilege.t)
    (heap : gmap nat StudentListRowModel.t) : Combined.t :=
  let '(coursesWithStudents, privileges) := res in
  let '(heap', privileges') :=
    combineCoursesInPlace coursesWithStudents privileges heap in
  Combined.mk coursesWithStudents [] heap' privileges'.

(** The group that the program sees through its references. *)
Definition resolve (heap : gmap nat StudentListRowModel.t) (course : RowTable.t)
  : SearchStudentsListRowTable.t :=
  SearchStudentsListRowTable.mk (RowTable.courseId course)
    (omap (fun ref => heap !! ref) (RowTable.students course)).

(** Every reference of the groups points to a row object. *)
Definition allocated (heap : gmap nat StudentListRowModel.t)
    (coursesWithStudents : list RowTable.t) : Prop :=
  forall ref, ref ∈ allRefs coursesWithStudents -> is_Some (heap !! ref).

(** The rows of course groups, each with its group, in loop order. *)
Definition positionsOf (coursesWithStudents : list SearchStudentsListRowTable.t)
  : list (SearchStudentsListRowTable.t * StudentListRowModel.t) :=
  concat ((fun course => (fun row => (course, row))
                         <$> SearchStudentsListRowTable.students course)
          <$> coursesWithStudents).

(** ** Sets in insertion order *)

Section InsertionOrder.
Context `{EqDecision A}.
Implicit Types (x y : A) (xs acc : list A).

Lemma fold_Set_add xs acc :
  fold_left Set_add xs acc =
  acc ++ filter (fun x => x ∉ acc) (Array_from_Set xs).
Proof.
  unfold Array_from_Set. revert acc.
  induction xs as [|y ys IH]; intros acc; simpl.
  { by rewrite app_nil_r. }
  assert (Set_add [] y = [y]) as ->.
  { unfold Set_add. rewrite decide_False; [done|by apply not_elem_of_nil]. }
  rewrite (IH [y]), (IH (Set_add acc y)). simpl. unfold Set_add.
  destruct (decide (y ∈ acc)) as [Hin|Hout].
  - rewrite filter_cons_False; [|tauto].
    f_equal. rewrite list_filter_filter. apply list_filter_iff.
    intros x. split; [|tauto]. intros Hx. split; [done|].
    intros Hm. apply list_elem_of_singleton in Hm. by subst.
  - rewrite filter_cons_True; [|done].
    rewrite <- app_assoc. simpl. do 2 f_equal.
    rewrite list_filter_filter. apply list_filter_iff.
    intros x. rewrite elem_of_app, list_elem_of_singleton. tauto.
Qed.

(** The first value stays in front; its later occurrences are dropped. *)
Lemma Array_from_Set_cons x xs :
  Array_from_Set (x :: xs) = x :: filter (fun y => y ≠ x) (Array_from_Set xs).
Proof.
  unfold Array_from_Set at 1. simpl.
  assert (Set_add [] x = [x]) as ->.
  { unfold Set_add. rewrite decide_False; [done|by apply not_elem_of_nil]. }
  rewrite fold_Set_add. simpl. f_equal. apply list_filter_iff.
  intros y. by rewrite list_elem_of_singleton.
Qed.

Lemma Array_from_Set_nil : Array_from_Set (@nil A) = [].
Proof. reflexivity. Qed.

Lemma elem_of_Array_from_Set x xs : x ∈ Array_from_Set xs <-> x ∈ xs.
Proof.
  induction xs as [|y ys IH]; [done|].
  rewrite Array_from_Set_cons, !elem_of_cons, list_elem_of_filter, IH.
  destruct (decide (x = y)); tauto.
Qed.

Lemma NoDup_Array_from_Set xs : NoDup (Array_from_Set xs).
Proof.
  induction xs as [|y ys IH]; [constructor|].
  rewrite Array_from_Set_cons. constructor.
  - rewrite list_elem_of_filter. tauto.
  - by apply NoDup_filter.
Qed.

Lemma indexOf_Some x xs : is_Some (indexOf xs x) <-> x ∈ xs.
Proof.
  induction xs as [|y ys IH]; simpl.
  - split; [by intros [? ?]|by intros ?%elem_of_nil].
  - rewrite elem_of_cons. destruct (decide (y = x)) as [->|Hne].
    + split; eauto.
    + rewrite fmap_is_Some, IH. split; [tauto|]. intros [->|?]; done.
Qed.

Lemma indexOf_lookup x xs i : indexOf xs x = Some i -> xs !! i = Some x.
Proof.
  revert i. induction xs as [|y ys IH]; intros i; simpl; [done|].
  destruct (decide (y = x)) as [->|Hne].
  - by intros [= <-].
  - destruct (indexOf ys x) as [k|] eqn:Hk; simpl; [|done].
    intros [= <-]. simpl. by apply IH.
Qed.

(** Filtering keeps the relative order of what it keeps. *)
Lemma filter_lookup_order (P : A -> Prop) `{!forall x, Decision (P x)} xs i j a b :
  filter P xs !! i = Some a -> filter P xs !! j = Some b -> (i < j)%nat ->
  exists i' j', xs !! i' = Some a /\ xs !! j' = Some b /\ (i' < j')%nat.
Proof.
  revert i j. induction xs as [|y ys IH]; intros i j Hi Hj Hlt; [done|].
  destruct (decide (P y)) as [Hy|Hy].
  - rewrite filter_cons_True in Hi, Hj by done.
    destruct i as [|i], j as [|j]; try lia; simpl in *.
    + injection Hi as ->.
      apply list_elem_of_lookup_2, list_elem_of_filter in Hj as [_ Hb].
      apply list_elem_of_lookup_1 in Hb as [j' Hj'].
      exists 0%nat, (S j'). split_and!; [done|done|lia].
    + destruct (IH i j Hi Hj) as (i' & j' & ? & ? & ?); [lia|].
      exists (S i'), (S j'). split_and!; [done|done|lia].
  - rewrite filter_cons_False in Hi, Hj by done.
    destruct (IH i j Hi Hj Hlt) as (i' & j' & ? & ? & ?).
    exists (S i'), (S j'). split_and!; [done|done|lia].
Qed.

Lemma seenBefore_cons_ne y xs a b :
  y ≠ a -> y ≠ b -> seenBefore xs a b -> seenBefore (y :: xs) a b.
Proof.
  intros Ha Hb (i & j & Hi & Hj & Hlt). exists (S i), (S j). simpl.
  rewrite !decide_False, Hi, Hj by done. split_and!; [done|done|lia].
Qed.

Lemma seenBefore_head x xs b : x ≠ b -> b ∈ xs -> seenBefore (x :: xs) x b.
Proof.
  intros Hne [j Hj]%indexOf_Some. exists 0%nat, (S j). simpl.
  rewrite decide_True, decide_False, Hj by done. split_and!; [done|done|lia].
Qed.

(** Values leave a set in the order in which they were first met. *)
Lemma Array_from_Set_order xs i j a b :
  Array_from_Set xs !! i = Some a -> Array_from_Set xs !! j = Some b ->
  (i < j)%nat -> seenBefore xs a b.
Proof.
  revert i j. induction xs as [|y ys IH]; intros i j Hi Hj Hlt; [done|].
  rewrite Array_from_Set_cons in Hi, Hj.
  destruct i as [|i], j as [|j]; try lia; simpl in *.
  - injection Hi as ->.
    apply list_elem_of_lookup_2, list_elem_of_filter in Hj as [Hne Hb].
    apply seenBefore_head; [done|]. by apply elem_of_Array_from_Set.
  - pose proof (list_elem_of_lookup_2 _ _ _ Hi) as [Ha _]%list_elem_of_filter.
    pose proof (list_elem_of_lookup_2 _ _ _ Hj) as [Hb _]%list_elem_of_filter.
    destruct (filter_lookup_order _ _ i j a b Hi Hj) as (i' & j' & ? & ? & ?); [lia|].
    apply seenBefore_cons_ne; [done|done|]. by apply (IH i' j').
Qed.

(** The order of first meetings survives a filter. *)
Lemma seenBefore_filter (P : A -> Prop) `{!forall x, Decision (P x)} xs a b :
  seenBefore (filter P xs) a b -> seenBefore xs a b.
Proof.
  induction xs as [|y ys IH]; [done|].
  destruct (decide (P y)) as [Hy|Hy].
  - rewrite filter_cons_True by done.
    intros (i & j & Hi & Hj & Hlt). simpl in Hi, Hj.
    destruct (decide (y = a)) as [->|Ha].
    + injection Hi as <-. destruct (decide (a = b)) as [->|Hb].
      { injection Hj as <-. lia. }
      destruct (indexOf (filter P ys) b) as [k|] eqn:Hk; [|done].
      apply seenBefore_head; [done|].
      assert (b ∈ filter P ys) as Hin by (apply indexOf_Some; eauto).
      by apply list_elem_of_filter in Hin as [_ ?].
    + destruct (decide (y = b)) as [->|Hb].
      { injection Hj as <-. lia. }
      destruct (indexOf (filter P ys) a) as [ka|] eqn:Hka; [|done].
      destruct (indexOf (filter P ys) b) as [kb|] eqn:Hkb; [|done].
      simpl in Hi, Hj. injection Hi as <-. injection Hj as <-.
      apply seenBefore_cons_ne; [done|done|]. apply IH.
      exists ka, kb. split_and!; [done|done|lia].
  - rewrite filter_cons_False by done. intros Hs.
    pose proof Hs as (i & j & Hi & Hj & _).
    assert (a ∈ filter P ys) as [Pa _]%list_elem_of_filter by (apply indexOf_Some; eauto).
    assert (b ∈ filter P ys) as [Pb _]%list_elem_of_filter by (apply indexOf_Some; eauto).
    apply seenBefore_cons_ne; [by intros -> | by intros -> | by apply IH].
Qed.

End InsertionOrder.

(** ** Grouping *)

Lemma getCoursesWithStudents_groups students :
  getCoursesWithStudents students =
  groupOf students <$> Array_from_Set (Student.courseId <$> students).
Proof. reflexivity. Qed.

Lemma getCoursesWithStudents_courses students :
  SearchStudentsListRowTable.courseId <$> getCoursesWithStudents students =
  Array_from_Set (Student.courseId <$> students).
Proof.
  rewrite getCoursesWithStudents_groups, <- list_fmap_compose.
  rewrite <- (list_fmap_id (Array_from_Set _)) at 2. by apply list_fmap_ext.
Qed.

Lemma membersOf_groupOf students c :
  membersOf (groupOf students c) =
  Array_from_Set (filter (fun s => Student.courseId s = c) students).
Proof.
  unfold membersOf, groupOf. simpl. rewrite <- list_fmap_compose.
  rewrite <- (list_fmap_id (Array_from_Set _)) at 2. by apply list_fmap_ext.
Qed.

Lemma elem_of_getCoursesWithStudents students course :
  course ∈ getCoursesWithStudents students <->
  exists s, s ∈ students /\
            course = groupOf students (Student.courseId s).
Proof.
  rewrite getCoursesWithStudents_groups, list_elem_of_fmap. split.
  - intros (c & -> & Hc). apply elem_of_Array_from_Set, list_elem_of_fmap in Hc.
    destruct Hc as (s & -> & Hs). eauto.
  - intros (s & Hs & ->). eexists. split; [done|].
    apply elem_of_Array_from_Set, list_elem_of_fmap. eauto.
Qed.

Lemma elem_of_membersOf students s course :
  course ∈ getCoursesWithStudents students ->
  s ∈ membersOf course <->
  s ∈ students /\ Student.courseId s = SearchStudentsListRowTable.courseId course.
Proof.
  intros (s0 & _ & ->)%elem_of_getCoursesWithStudents.
  rewrite membersOf_groupOf, elem_of_Array_from_Set, list_elem_of_filter. simpl. tauto.
Qed.

(** No group of the grouping step is empty. *)
Lemma getCoursesWithStudents_inhabited students course :
  course ∈ getCoursesWithStudents students ->
  SearchStudentsListRowTable.students course ≠ [].
Proof.
  intros Hc Hnil.
  pose proof Hc as (s & Hs & ->)%elem_of_getCoursesWithStudents.
  assert (s ∈ membersOf (groupOf students (Student.courseId s))) as Hin.
  { apply (elem_of_membersOf students); [done|]. done. }
  unfold membersOf in Hin. rewrite Hnil in Hin. by apply elem_of_nil in Hin.
Qed.

Lemma getCoursesWithStudents_nil students :
  getCoursesWithStudents students = [] <-> students = [].
Proof.
  split; [|by intros ->].
  destruct students as [|s rest]; [done|]. intros Hnil.
  assert (groupOf (s :: rest) (Student.courseId s) ∈ getCoursesWithStudents (s :: rest)) as Hin.
  { apply elem_of_getCoursesWithStudents. exists s. split; [left|done]. }
  rewrite Hnil in Hin. by apply elem_of_nil in Hin.
Qed.

(** A value occurs once in a duplicate-free list that holds it. *)
Lemma occurrences_NoDup `{EqDecision A} {B} (f : A -> B) (g : B -> A) (l : list A) (x : A) :
  (forall y, g (f y) = y) -> NoDup l ->
  length (filter (fun row => g row = x) (f <$> l)) =
  if decide (x ∈ l) then 1%nat else 0%nat.
Proof.
  intros Hgf. induction l as [|y l IH]; intros Hnd.
  { rewrite decide_False; [done|apply not_elem_of_nil]. }
  apply NoDup_cons in Hnd as [Hy Hnd]. specialize (IH Hnd). rewrite fmap_cons.
  destruct (decide (y = x)) as [->|Hne].
  - rewrite filter_cons_True by apply Hgf. simpl.
    rewrite IH, decide_False, decide_True; [done|left|done].
  - rewrite filter_cons_False by (by rewrite Hgf). rewrite IH.
    destruct (decide (x ∈ l)) as [Hl|Hl].
    + rewrite decide_True; [done|by right].
    + rewrite decide_False; [done|]. by intros [->|?]%elem_of_cons.
Qed.

(** How often [s] occurs among the rows of the groups of the courses [cs]. *)
Lemma rows_of_student students s cs :
  NoDup cs ->
  length (filter (fun row => StudentListRowModel.student row = s)
                 (allRows (groupOf students <$> cs))) =
  if decide (s ∈ students /\ Student.courseId s ∈ cs) then 1%nat else 0%nat.
Proof.
  assert (forall c,
    length (filter (fun row => StudentListRowModel.student row = s)
                   (SearchStudentsListRowTable.students (groupOf students c))) =
    if decide (s ∈ students /\ Student.courseId s = c) then 1%nat else 0%nat) as Hone.
  { intros c. unfold groupOf. simpl.
    rewrite (occurrences_NoDup _ StudentListRowModel.student);
      [|done|apply NoDup_Array_from_Set].
    repeat case_decide; try done; exfalso;
      rewrite elem_of_Array_from_Set, list_elem_of_filter in *; tauto. }
  induction cs as [|c cs IH]; intros Hnd.
  - simpl. rewrite decide_False; [done|]. intros [_ ?%elem_of_nil]. done.
  - apply NoDup_cons in Hnd as [Hc Hnd]. unfold allRows in *.
    rewrite !fmap_cons. cbn [concat].
    rewrite filter_app, length_app, Hone, (IH Hnd).
    clear Hone IH.
    assert (Student.courseId s ∈ c :: cs <->
            Student.courseId s = c \/ Student.courseId s ∈ cs) as Hcons
      by apply elem_of_cons.
    assert (Student.courseId s = c -> Student.courseId s ∉ cs) as Hfresh
      by (by intros ->).
    destruct (decide (s ∈ students /\ Student.courseId s = c)),
             (decide (s ∈ students /\ Student.courseId s ∈ cs)),
             (decide (s ∈ students /\ Student.courseId s ∈ c :: cs));
      first [reflexivity | exfalso; tauto].
Qed.

(** ** Combining rows and privileges *)

Lemma assignFront_nil rows : assignFront [] rows = rows.
Proof. by destruct rows. Qed.

Lemma combineStudents_assignFront rows privileges :
  combineStudents rows privileges =
  (assignFront privileges rows, drop (length rows) privileges).
Proof.
  revert privileges. induction rows as [|row rows IH]; intros privileges.
  { reflexivity. }
  destruct privileges as [|p ps]; simpl; rewrite IH.
  - rewrite assignFront_nil. by destruct rows.
  - done.
Qed.

Lemma assignFront_app privileges rows1 rows2 :
  assignFront privileges (rows1 ++ rows2) =
  assignFront privileges rows1 ++ assignFront (drop (length rows1) privileges) rows2.
Proof.
  revert privileges. induction rows1 as [|row rows1 IH]; intros privileges.
  { reflexivity. }
  destruct privileges as [|p ps]; simpl.
  - by rewrite assignFront_nil.
  - by rewrite IH.
Qed.

Lemma assignFront_lookup privileges rows i :
  assignFront privileges rows !! i =
  (fun row => match privileges !! i with
              | Some p => assignPrivilege p row
              | None => row
              end) <$> rows !! i.
Proof.
  revert privileges i. induction rows as [|row rows IH]; intros privileges i.
  { by destruct privileges. }
  destruct privileges as [|p ps].
  - simpl. by destruct (_ !! i).
  - destruct i as [|i]; simpl; [done|apply IH].
Qed.

Lemma combineCourses_rows coursesWithStudents privileges :
  allRows (combineCourses coursesWithStudents privileges) =
  assignFront privileges (allRows coursesWithStudents).
Proof.
  unfold allRows. revert privileges.
  induction coursesWithStudents as [|course rest IH]; intros privileges; [done|].
  simpl. rewrite combineStudents_assignFront, !fmap_cons. cbn [concat].
  by rewrite assignFront_app, IH.
Qed.

Lemma combineCourses_courseId coursesWithStudents privileges :
  SearchStudentsListRowTable.courseId <$> combineCourses coursesWithStudents privileges =
  SearchStudentsListRowTable.courseId <$> coursesWithStudents.
Proof.
  revert privileges.
  induction coursesWithStudents as [|course rest IH]; intros privileges; [done|].
  simpl. rewrite combineStudents_assignFront, !fmap_cons. by rewrite IH.
Qed.

Lemma length_assignFront privileges rows :
  length (assignFront privileges rows) = length rows.
Proof.
  revert privileges. induction rows as [|row rows IH]; intros [|p ps]; simpl; auto.
Qed.

Lemma combineCourses_sizes coursesWithStudents privileges :
  (fun course => length (SearchStudentsListRowTable.students course))
    <$> combineCourses coursesWithStudents privileges =
  (fun course => length (SearchStudentsListRowTable.students course))
    <$> coursesWithStudents.
Proof.
  revert privileges.
  induction coursesWithStudents as [|course rest IH]; intros privileges; [done|].
  simpl. rewrite combineStudents_assignFront, !fmap_cons. simpl.
  by rewrite IH, length_assignFront.
Qed.

(** When the privileges were listed row by row, each row meets its own. *)
Lemma combineStudents_aligned (f : StudentListRowModel.t -> InstructorPrivilege.t)
    rows rest :
  combineStudents rows ((f <$> rows) ++ rest) =
  ((fun row => assignPrivilege (f row) row) <$> rows, rest).
Proof.
  induction rows as [|row rows IH]; [done|].
  rewrite fmap_cons. simpl. by rewrite IH.
Qed.

Lemma combineCourses_aligned
    (f : SearchStudentsListRowTable.t -> StudentListRowModel.t -> InstructorPrivilege.t)
    coursesWithStudents :
  combineCourses coursesWithStudents
    (concat ((fun course => f course <$> SearchStudentsListRowTable.students course)
             <$> coursesWithStudents)) =
  (fun course =>
     SearchStudentsListRowTable.mk (SearchStudentsListRowTable.courseId course)
       ((fun row => assignPrivilege (f course row) row)
        <$> SearchStudentsListRowTable.students course))
  <$> coursesWithStudents.
Proof.
  induction coursesWithStudents as [|course rest IH]; [done|].
  rewrite !fmap_cons. cbn [concat combineCourses].
  by rewrite combineStudents_aligned, IH.
Qed.

(** ** Privilege lookups *)

Section Lookups.

Variable searchService : SearchService.t.

Let privilegeOf (courseId sectionName : string) : Rx.Observable InstructorPrivilege.t :=
  Rx.http (SearchService.searchInstructorPrivilege searchService courseId sectionName).

Lemma lookupSections_fold (courseId : string) (sections : list string)
    (sectionToPrivileges : gmap string (Rx.Observable InstructorPrivilege.t))
    (calls : list Call) :
  let result :=
    fold_left
      (fun '(sectionToPrivileges, calls) section =>
         let '(privilege, call) :=
           searchInstructorPrivilege searchService courseId section in
         (<[section := privilege]> sectionToPrivileges, calls ++ call))
      sections (sectionToPrivileges, calls)
    : gmap string (Rx.Observable InstructorPrivilege.t) * list Call in
  result.2 = calls ++ (searchInstructorPrivilege_call courseId <$> sections) /\
  forall section,
    result.1 !! section =
    if decide (section ∈ sections) then Some (privilegeOf courseId section)
    else sectionToPrivileges !! section.
Proof.
  revert sectionToPrivileges calls.
  induction sections as [|s rest IH]; intros m calls; simpl.
  { split; [by rewrite app_nil_r|done]. }
  destruct (IH (<[s := privilegeOf courseId s]> m)
               (calls ++ [searchInstructorPrivilege_call courseId s])) as [Hcalls Hmap].
  split.
  - etrans; [apply Hcalls|]. by rewrite <- app_assoc.
  - intros section. etrans; [apply Hmap|].
    destruct (decide (section ∈ rest)) as [Hin|Hout].
    + rewrite decide_True; [done|by right].
    + destruct (decide (s = section)) as [->|Hne].
      * rewrite lookup_insert_eq, decide_True; [done|left].
      * rewrite lookup_insert_ne by done.
        rewrite decide_False; [done|]. by intros [->|?]%elem_of_cons.
Qed.

Lemma lookupSections_calls courseId sections calls :
  (lookupSections searchService courseId sections calls).2 =
  calls ++ (searchInstructorPrivilege_call courseId <$> sections).
Proof. apply lookupSections_fold. Qed.

Lemma lookupSections_lookup courseId sections calls section :
  (lookupSections searchService courseId sections calls).1 !! section =
  if decide (section ∈ sections) then Some (privilegeOf courseId section) else None.
Proof.
  destruct (lookupSections_fold courseId sections ∅ calls) as [_ Hmap].
  etrans; [apply Hmap|]. by rewrite lookup_empty.
Qed.

Lemma pushPrivileges_app sectionToPrivileges students privileges :
  pushPrivileges sectionToPrivileges students privileges =
  privileges ++
  ((fun studentModel => Rx.from (sectionToPrivileges !! sectionOf studentModel))
   <$> students).
Proof.
  unfold pushPrivileges. revert privileges.
  induction students as [|studentModel rest IH]; intros privileges; simpl.
  { by rewrite app_nil_r. }
  rewrite IH, <- app_assoc. done.
Qed.

(** The streams pushed for a course are those of its rows' sections. *)
Lemma pushPrivileges_lookupSections course calls privileges :
  pushPrivileges
    (lookupSections searchService (SearchStudentsListRowTable.courseId course)
       (Array_from_Set (sectionOf <$> SearchStudentsListRowTable.students course))
       calls).1
    (SearchStudentsListRowTable.students course) privileges =
  privileges ++
  ((fun studentModel =>
      privilegeOf (SearchStudentsListRowTable.courseId course) (sectionOf studentModel))
   <$> SearchStudentsListRowTable.students course).
Proof.
  rewrite pushPrivileges_app. f_equal. apply list_fmap_ext.
  intros i studentModel Hi. rewrite lookupSections_lookup, decide_True; [done|].
  apply elem_of_Array_from_Set, list_elem_of_fmap. exists studentModel.
  split; [done|]. by eapply list_elem_of_lookup_2.
Qed.

(** The loop of [getPrivileges] over the courses. *)
Lemma getPrivileges_fold coursesWithStudents privileges calls :
  fold_left
    (fun '(privileges, calls) course =>
       let '(sectionToPrivileges, calls) :=
         lookupSections searchService (SearchStudentsListRowTable.courseId course)
           (Array_from_Set (sectionOf <$> SearchStudentsListRowTable.students course))
           calls in
       (pushPrivileges sectionToPrivileges
          (SearchStudentsListRowTable.students course) privileges,
        calls))
    coursesWithStudents (privileges, calls) =
  (privileges ++
   concat ((fun course =>
              (fun studentModel =>
                 privilegeOf (SearchStudentsListRowTable.courseId course)
                             (sectionOf studentModel))
              <$> SearchStudentsListRowTable.students course)
           <$> coursesWithStudents),
   calls ++
   concat ((fun course =>
              searchInstructorPrivilege_call (SearchStudentsListRowTable.courseId course)
              <$> Array_from_Set (sectionOf <$> SearchStudentsListRowTable.students course))
           <$> coursesWithStudents)).
Proof.
  revert privileges calls.
  induction coursesWithStudents as [|course rest IH]; intros privileges calls.
  { simpl. by rewrite !app_nil_r. }
  rewrite !fmap_cons. cbn [fold_left concat].
  destruct (lookupSections _ _ _ calls) as [m calls'] eqn:Hlookup.
  pose proof (pushPrivileges_lookupSections course calls privileges) as Hpush.
  pose proof (lookupSections_calls (SearchStudentsListRowTable.courseId course)
    (Array_from_Set (sectionOf <$> SearchStudentsListRowTable.students course)) calls)
    as Hcalls.
  rewrite Hlookup in Hpush, Hcalls. simpl in Hpush, Hcalls.
  rewrite Hpush, Hcalls, IH, <- !app_assoc. done.
Qed.

End Lookups.

(** ** Joined streams *)

Lemma firstAbort_None i sources :
  Rx.firstAbort i sources = None <-> Forall (fun s => Rx.abort s = None) sources.
Proof.
  revert i. induction sources as [|s rest IH]; intros i; simpl.
  { split; [constructor|done]. }
  rewrite Forall_cons. specialize (IH (S i)).
  destruct (Rx.abort s) as [a|].
  - split; [|by intros [? _]].
    destruct (Rx.firstAbort (S i) rest) as [[[j u] b]|]; [|done].
    by destruct (u <? Rx.at_ s)%nat.
  - rewrite IH. tauto.
Qed.

Lemma firstAbort_Some i sources j u a :
  Rx.firstAbort i sources = Some (j, u, a) ->
  exists s, s ∈ sources /\ Rx.abort s = Some a /\ Rx.at_ s = u.
Proof.
  revert i j u a. induction sources as [|s rest IH]; intros i j u a; simpl; [done|].
  destruct (Rx.abort s) as [b|] eqn:Hs.
  - destruct (Rx.firstAbort (S i) rest) as [[[j' u'] b']|] eqn:Hrest.
    + destruct (u' <? Rx.at_ s)%nat.
      * intros [= -> -> ->]. destruct (IH _ _ _ _ Hrest) as (s' & ? & ? & ?).
        exists s'. split; [by right|done].
      * intros [= <- <- <-]. exists s. split; [left|done].
    + intros [= <- <- <-]. exists s. split; [left|done].
  - intros Hrest. destruct (IH _ _ _ _ Hrest) as (s' & ? & ? & ?).
    exists s'. split; [by right|done].
Qed.

(** A join ends the way one of its sources does, or with all their values. *)
Lemma join_abort now sources :
  match Rx.abort (Rx.join now sources) with
  | None => Forall (fun s => Rx.abort s = None) sources
  | Some a => exists s, s ∈ sources /\ Rx.abort s = Some a
  end.
Proof.
  unfold Rx.join. destruct (Rx.firstAbort 0 sources) as [[[i u] a]|] eqn:Hfirst; simpl.
  - destruct (firstAbort_Some _ _ _ _ _ Hfirst) as (s & ? & ? & _). eauto.
  - by apply (firstAbort_None 0).
Qed.

Lemma join_finals now sources :
  Rx.finals (Rx.join now sources) = concat (Rx.finals <$> sources).
Proof. unfold Rx.join. by destruct (Rx.firstAbort 0 sources) as [[[i u] a]|]. Qed.

Lemma forkJoin_teardown {T} (sources : list (Rx.Observable T)) now :
  Rx.teardown (Rx.forkJoin sources now) =
  concat ((fun o => Rx.teardown (o now)) <$> sources).
Proof.
  destruct sources as [|o rest]; [done|].
  unfold Rx.forkJoin, Rx.ended. cbn [Rx.teardown]. rewrite join_finals.
  rewrite <- !list_fmap_compose. done.
Qed.

Lemma forkJoin2_teardown {A B} (a : Rx.Observable A) (b : Rx.Observable B) now :
  Rx.teardown (Rx.forkJoin2 a b now) = Rx.teardown (a now) ++ Rx.teardown (b now).
Proof.
  unfold Rx.forkJoin2, Rx.ended.
  destruct (Rx.signal (a now)), (Rx.signal (b now)); cbn [Rx.teardown];
    rewrite join_finals; simpl; by rewrite app_nil_r.
Qed.

(** How a [forkJoin] of an array ends. *)
Lemma forkJoin_signal {T} (sources : list (Rx.Observable T)) now :
  sources ≠ [] ->
  match Rx.signal (Rx.forkJoin sources now) with
  | Rx.Next vs =>
      vs = Rx.values ((fun o => o now) <$> sources) /\
      Forall (fun o => exists v, Rx.signal (o now) = Rx.Next v) sources
  | Rx.Error e => exists o, o ∈ sources /\ Rx.signal (o now) = Rx.Error e
  | Rx.Complete => exists o, o ∈ sources /\ Rx.signal (o now) = Rx.Complete
  end.
Proof.
  intros Hne. destruct sources as [|o rest]; [done|].
  unfold Rx.forkJoin, Rx.ended. cbn [Rx.signal].
  pose proof (join_abort now (Rx.settled <$> ((fun o => o now) <$> (o :: rest)))) as Hjoin.
  destruct (Rx.abort _) as [[e|]|].
  - destruct Hjoin as (s & Hs & Hab).
    apply list_elem_of_fmap in Hs as (r & -> & Hr).
    apply list_elem_of_fmap in Hr as (o' & -> & Ho').
    exists o'. split; [done|]. unfold Rx.settled in Hab. simpl in Hab.
    by destruct (Rx.signal (o' now)); simplify_eq/=.
  - destruct Hjoin as (s & Hs & Hab).
    apply list_elem_of_fmap in Hs as (r & -> & Hr).
    apply list_elem_of_fmap in Hr as (o' & -> & Ho').
    exists o'. split; [done|]. unfold Rx.settled in Hab. simpl in Hab.
    by destruct (Rx.signal (o' now)); simplify_eq/=.
  - split; [done|]. rewrite !Forall_fmap in Hjoin.
    eapply Forall_impl; [apply Hjoin|]. intros o' Hab. simpl in Hab.
    destruct (Rx.signal (o' now)); simplify_eq/=. eauto.
Qed.

(** How a [forkJoin] of two streams ends. *)
Lemma forkJoin2_signal {A B} (a : Rx.Observable A) (b : Rx.Observable B) now :
  match Rx.signal (Rx.forkJoin2 a b now) with
  | Rx.Next (va, vb) =>
      Rx.signal (a now) = Rx.Next va /\ Rx.signal (b now) = Rx.Next vb
  | Rx.Error e => Rx.signal (a now) = Rx.Error e \/ Rx.signal (b now) = Rx.Error e
  | Rx.Complete => Rx.signal (a now) = Rx.Complete \/ Rx.signal (b now) = Rx.Complete
  end.
Proof.
  unfold Rx.forkJoin2, Rx.ended.
  pose proof (join_abort now [Rx.settled (a now); Rx.settled (b now)]) as Hjoin.
  assert (forall ab, (exists s, s ∈ [Rx.settled (a now); Rx.settled (b now)] /\
                                Rx.abort s = Some ab) ->
                     Rx.abort_of (Rx.signal (a now)) = Some ab \/
                     Rx.abort_of (Rx.signal (b now)) = Some ab) as Hwho.
  { intros ab (s & Hs & Hab). apply elem_of_cons in Hs as [->|Hs]; [by left|].
    apply list_elem_of_singleton in Hs as ->. by right. }
  destruct (Rx.abort _) as [ab|].
  - apply Hwho in Hjoin.
    destruct (Rx.signal (a now)), (Rx.signal (b now)), ab, Hjoin as [Hab|Hab];
      cbn [Rx.signal]; simpl in Hab; try discriminate Hab;
      try injection Hab as <-; auto.
  - apply Forall_cons in Hjoin as [Ha Hb]. apply Forall_cons in Hb as [Hb _].
    simpl in Ha, Hb.
    destruct (Rx.signal (a now)), (Rx.signal (b now)); simplify_eq/=. done.
Qed.

(** ** The two branches of a search *)

Lemma forkJoin2_Next {A B} (a : Rx.Observable A) (b : Rx.Observable B) now va vb :
  Rx.signal (a now) = Rx.Next va -> Rx.signal (b now) = Rx.Next vb ->
  Rx.signal (Rx.forkJoin2 a b now) = Rx.Next (va, vb).
Proof.
  intros Ha Hb. pose proof (forkJoin2_signal a b now) as Hjoin.
  destruct (Rx.signal (Rx.forkJoin2 a b now)) as [[va' vb']| |].
  - destruct Hjoin. congruence.
  - destruct Hjoin; congruence.
  - destruct Hjoin; congruence.
Qed.

Lemma forkJoin_Next {T} (sources : list (Rx.Observable T)) now :
  sources ≠ [] ->
  Forall (fun o => exists v, Rx.signal (o now) = Rx.Next v) sources ->
  Rx.signal (Rx.forkJoin sources now) = Rx.Next (Rx.values ((fun o => o now) <$> sources)).
Proof.
  intros Hne Hall. pose proof (forkJoin_signal sources now Hne) as Hjoin.
  rewrite Forall_forall in Hall.
  destruct (Rx.signal (Rx.forkJoin sources now)) as [vs|e|].
  - by destruct Hjoin as [-> _].
  - destruct Hjoin as (o & Ho & He). destruct (Hall o Ho). congruence.
  - destruct Hjoin as (o & Ho & He). destruct (Hall o Ho). congruence.
Qed.

Lemma values_app {T} (rs1 rs2 : list (Rx.Outcome T)) :
  Rx.values (rs1 ++ rs2) = Rx.values rs1 ++ Rx.values rs2.
Proof. apply omap_app. Qed.

Lemma elem_of_concat {A} (x : A) (ls : list (list A)) :
  x ∈ concat ls <-> exists l, x ∈ l /\ l ∈ ls.
Proof.
  induction ls as [|l0 ls IH]; cbn [concat].
  - split; [by intros ?%elem_of_nil|by intros (l & _ & ?%elem_of_nil)].
  - rewrite elem_of_app, IH. split.
    + intros [?|(l & ? & ?)]; [exists l0; split; [done|left]|].
      exists l. split; [done|by right].
    + intros (l & ? & [->|?]%elem_of_cons); [by left|right; eauto].
Qed.

Lemma concat_nils {A B} (f : A -> list B) (l : list A) :
  (forall x, x ∈ l -> f x = []) -> concat (f <$> l) = [].
Proof.
  induction l as [|x l IH]; intros Hnil; [done|].
  rewrite fmap_cons. cbn [concat]. rewrite (Hnil x) by left.
  apply IH. intros y Hy. apply Hnil. by right.
Qed.

Section Branches.

Variable searchService : SearchService.t.

(** The streams that [getPrivileges] joins: one per row, in loop order. *)
Let streams (coursesWithStudents : list SearchStudentsListRowTable.t)
  : list (Rx.Observable InstructorPrivilege.t) :=
  concat ((fun course =>
             (fun studentModel =>
                Rx.http (privilegeFor searchService course studentModel))
             <$> SearchStudentsListRowTable.students course)
          <$> coursesWithStudents).

Let lookups (coursesWithStudents : list SearchStudentsListRowTable.t) : list Call :=
  concat ((fun course =>
             searchInstructorPrivilege_call (SearchStudentsListRowTable.courseId course)
             <$> Array_from_Set (sectionOf <$> SearchStudentsListRowTable.students course))
          <$> coursesWithStudents).

Lemma getPrivileges_nil : getPrivileges searchService [] = (Rx.of_ [], []).
Proof. reflexivity. Qed.

Lemma getPrivileges_cons course rest :
  getPrivileges searchService (course :: rest) =
  (Rx.forkJoin (streams (course :: rest)), lookups (course :: rest)).
Proof.
  unfold getPrivileges. rewrite decide_False by done.
  pose proof (getPrivileges_fold searchService (course :: rest) [] []) as Hfold.
  unfold sectionOf in Hfold. unfold streams, lookups, privilegeFor, sectionOf.
  match goal with
  | |- (let '(_, _) := ?loop in _) = _ =>
      replace loop with
        (concat ((fun course =>
                    (fun studentModel =>
                       Rx.http (SearchService.searchInstructorPrivilege searchService
                                  (SearchStudentsListRowTable.courseId course)
                                  (Student.sectionName
                                     (StudentListRowModel.student studentModel))))
                    <$> SearchStudentsListRowTable.students course)
                 <$> course :: rest),
         concat ((fun course =>
                    searchInstructorPrivilege_call
                      (SearchStudentsListRowTable.courseId course)
                    <$> Array_from_Set
                          ((fun studentModel =>
                              Student.sectionName
                                (StudentListRowModel.student studentModel))
                           <$> SearchStudentsListRowTable.students course))
                 <$> course :: rest))
        by (symmetry; exact Hfold)
  end.
  done.
Qed.

Lemma getPrivileges_calls coursesWithStudents :
  (getPrivileges searchService coursesWithStudents).2 = lookups coursesWithStudents.
Proof.
  destruct coursesWithStudents as [|course rest]; [done|].
  by rewrite getPrivileges_cons.
Qed.

Lemma streams_teardown coursesWithStudents now :
  concat ((fun o => Rx.teardown (o now)) <$> streams coursesWithStudents) = [].
Proof.
  apply concat_nils. intros o Ho. unfold streams in Ho.
  apply elem_of_concat in Ho as (l & Ho & Hl).
  apply list_elem_of_fmap in Hl as (course & -> & _).
  apply list_elem_of_fmap in Ho as (row & -> & _). done.
Qed.

Lemma streams_issued coursesWithStudents now :
  Forall (fun o => Rx.issued (o now) = []) (streams coursesWithStudents).
Proof.
  apply Forall_forall. intros o Ho. unfold streams in Ho.
  apply elem_of_concat in Ho as (l & Ho & Hl).
  apply list_elem_of_fmap in Hl as (course & -> & _).
  apply list_elem_of_fmap in Ho as (row & -> & _). done.
Qed.

Lemma getPrivileges_teardown coursesWithStudents now :
  Rx.teardown ((getPrivileges searchService coursesWithStudents).1 now) = [].
Proof.
  destruct coursesWithStudents as [|course rest]; [done|].
  rewrite getPrivileges_cons. cbn [fst].
  rewrite forkJoin_teardown. apply streams_teardown.
Qed.

(** A stream of [streams] ends the way its lookup is answered. *)
Lemma elem_of_streams coursesWithStudents o :
  o ∈ streams coursesWithStudents <->
  exists course row,
    course ∈ coursesWithStudents /\
    row ∈ SearchStudentsListRowTable.students course /\
    o = Rx.http (privilegeFor searchService course row).
Proof.
  unfold streams. rewrite elem_of_concat. split.
  - intros (l & Ho & Hl).
    apply list_elem_of_fmap in Hl as (course & -> & Hcourse).
    apply list_elem_of_fmap in Ho as (row & -> & Hrow). eauto.
  - intros (course & row & Hcourse & Hrow & ->).
    eexists. split; [|apply list_elem_of_fmap; eauto].
    apply list_elem_of_fmap. eauto.
Qed.

Lemma streams_values coursesWithStudents now :
  (forall course row,
     course ∈ coursesWithStudents ->
     row ∈ SearchStudentsListRowTable.students course ->
     exists p, reply (privilegeFor searchService course row) = Ok p) ->
  Rx.values ((fun o => o now) <$> streams coursesWithStudents) =
  concat ((fun course =>
             (fun row => bodyOf (privilegeFor searchService course row))
             <$> SearchStudentsListRowTable.students course)
          <$> coursesWithStudents).
Proof.
  unfold streams.
  induction coursesWithStudents as [|course rest IH]; intros Hok; [done|].
  rewrite !fmap_cons. cbn [concat]. rewrite fmap_app, values_app. f_equal.
  - assert (forall row, row ∈ SearchStudentsListRowTable.students course ->
              exists p, reply (privilegeFor searchService course row) = Ok p) as Hrows.
    { intros row Hrow. apply Hok; [left|done]. }
    clear Hok IH. revert Hrows.
    generalize (SearchStudentsListRowTable.students course). intros rows.
    induction rows as [|row rows IH]; intros Hrows; [done|].
    rewrite !fmap_cons. unfold Rx.values. cbn [omap].
    destruct (Hrows row) as [p Hp]; [left|].
    unfold Rx.http at 1. cbn [Rx.signal]. rewrite Hp. simpl.
    unfold bodyOf at 1. rewrite Hp. f_equal. apply IH.
    intros row' Hrow'. apply Hrows. by right.
  - apply IH. intros c r Hc Hr. apply Hok; [by right|done].
Qed.

End Branches.

Section Search.

Variable searchService : SearchService.t.

(** The privilege streams of course groups none of which is empty. *)
Lemma getPrivileges_signal coursesWithStudents now :
  (forall course, course ∈ coursesWithStudents ->
                  SearchStudentsListRowTable.students course ≠ []) ->
  match Rx.signal ((getPrivileges searchService coursesWithStudents).1 now) with
  | Rx.Next privileges =>
      (forall course row,
         course ∈ coursesWithStudents ->
         row ∈ SearchStudentsListRowTable.students course ->
         exists p, reply (privilegeFor searchService course row) = Ok p) /\
      privileges =
      concat ((fun course =>
                 (fun row => bodyOf (privilegeFor searchService course row))
                 <$> SearchStudentsListRowTable.students course)
              <$> coursesWithStudents)
  | Rx.Error e =>
      exists course row,
        course ∈ coursesWithStudents /\
        row ∈ SearchStudentsListRowTable.students course /\
        reply (privilegeFor searchService course row) = Failed e
  | Rx.Complete => False
  end.
Proof.
  intros Hrows. destruct coursesWithStudents as [|course rest].
  { simpl. split; [|done]. by intros ? ? ?%elem_of_nil. }
  rewrite getPrivileges_cons. cbn [fst].
  set (sources := concat _).
  assert (sources ≠ []) as Hne.
  { subst sources. rewrite fmap_cons. cbn [concat].
    pose proof (Hrows course ltac:(left)) as Hcourse.
    destruct (SearchStudentsListRowTable.students course); done. }
  pose proof (forkJoin_signal sources now Hne) as Hjoin.
  destruct (Rx.signal (Rx.forkJoin sources now)) as [vs|e|].
  - destruct Hjoin as [-> Hall].
    assert (forall c row,
      c ∈ course :: rest -> row ∈ SearchStudentsListRowTable.students c ->
      exists p, reply (privilegeFor searchService c row) = Ok p) as Hok.
    { intros c row Hc Hrow. rewrite Forall_forall in Hall.
      destruct (Hall (Rx.http (privilegeFor searchService c row))) as [v Hv].
      { apply elem_of_streams. eauto. }
      unfold Rx.http in Hv. simpl in Hv.
      destruct (reply (privilegeFor searchService c row)); [eauto|done]. }
    split; [done|]. by apply streams_values.
  - destruct Hjoin as (o & Ho & He).
    apply elem_of_streams in Ho as (c & row & Hc & Hrow & ->).
    exists c, row. split_and!; [done|done|].
    unfold Rx.http in He. simpl in He.
    destruct (reply (privilegeFor searchService c row)); congruence.
  - destruct Hjoin as (o & Ho & He).
    apply elem_of_streams in Ho as (c & row & Hc & Hrow & ->).
    unfold Rx.http in He. simpl in He.
    destruct (reply (privilegeFor searchService c row)); congruence.
Qed.

Lemma commentBranch_signal params now :
  match Rx.signal ((commentBranch searchService params).1 now) with
  | Rx.Next r => commentsFound searchService params r
  | Rx.Error e => failure searchService params e
  | Rx.Complete => False
  end.
Proof.
  unfold commentBranch, commentsFound.
  destruct (SearchParams.isSearchForComments params) eqn:Hon; [|done].
  unfold searchComment, Rx.map, Rx.http. simpl.
  destruct (reply _) as [resp|e] eqn:Hreply.
  - eauto.
  - by apply comment_search_fails.
Qed.

(** The student branch, once its toggle is on. *)
Lemma studentBranch_on params now :
  SearchParams.isSearchForStudents params = true ->
  (studentBranch searchService params).1 now =
  let response :=
    SearchService.searchInstructor searchService (SearchParams.searchKey params) in
  let t := (now + latency response)%nat in
  match reply response with
  | Failed e => Rx.mkOutcome t (Rx.Error e) [] []
  | Ok res =>
      let coursesWithStudents :=
        getCoursesWithStudents (InstructorSearchResult.students res) in
      let lookups := getPrivileges searchService coursesWithStudents in
      let r := Rx.forkJoin2 (Rx.of_ coursesWithStudents) lookups.1 t in
      Rx.mkOutcome (Rx.done_at r)
        (match Rx.signal r with
         | Rx.Next value => Rx.Next (combinePrivileges value)
         | Rx.Error e => Rx.Error e
         | Rx.Complete => Rx.Complete
         end)
        (((fun c => (t, c)) <$> lookups.2) ++ Rx.issued r)
        (Rx.teardown r)
  end.
Proof.
  intros Hon. unfold studentBranch. rewrite Hon.
  unfold searchInstructor, Rx.map, Rx.mergeMap, Rx.http.
  cbn [fst snd Rx.signal Rx.done_at Rx.issued Rx.teardown].
  destruct (reply _) as [res|e]; [|done].
  cbn [fst snd Rx.signal Rx.done_at Rx.issued Rx.teardown].
  by destruct (getPrivileges _ _) as [privileges calls].
Qed.

Lemma studentBranch_signal params now :
  match Rx.signal ((studentBranch searchService params).1 now) with
  | Rx.Next r => studentsFound searchService params r
  | Rx.Error e => failure searchService params e
  | Rx.Complete => False
  end.
Proof.
  unfold studentsFound.
  destruct (SearchParams.isSearchForStudents params) eqn:Hon.
  2:{ unfold studentBranch. by rewrite Hon. }
  rewrite (studentBranch_on _ _ Hon). cbv zeta.
  destruct (reply (SearchService.searchInstructor _ _)) as [res|e] eqn:Hreply;
    [|by apply student_search_fails].
  set (coursesWithStudents := getCoursesWithStudents (InstructorSearchResult.students res)).
  set (t := (now + _)%nat).
  pose proof (getPrivileges_signal coursesWithStudents t
                (getCoursesWithStudents_inhabited _)) as Hprivileges.
  cbn [Rx.signal].
  pose proof (forkJoin2_signal (Rx.of_ coursesWithStudents)
                (getPrivileges searchService coursesWithStudents).1 t) as Hjoin.
  destruct (Rx.signal (Rx.forkJoin2 _ _ t)) as [[cws ps]|e|].
  - destruct Hjoin as [[= <-] Hps]. rewrite Hps in Hprivileges.
    destruct Hprivileges as [Hok ->]. exists res. split_and!; [done|done|].
    unfold combinePrivileges, annotate.
    by rewrite (combineCourses_aligned
                  (fun course row => bodyOf (privilegeFor searchService course row))).
  - destruct Hjoin as [?|He]; [done|]. rewrite He in Hprivileges.
    destruct Hprivileges as (course & row & ? & ? & ?).
    by eapply privilege_lookup_fails.
  - destruct Hjoin as [?|He]; [done|]. by rewrite He in Hprivileges.
Qed.

Lemma searchStream_signal params :
  match Rx.signal (searchStream searchService params 0) with
  | Rx.Next resp =>
      commentsFound searchService params resp.1 /\
      studentsFound searchService params resp.2
  | Rx.Error e => failure searchService params e
  | Rx.Complete => False
  end.
Proof.
  unfold searchStream.
  pose proof (commentBranch_signal params 0) as Hcomments.
  pose proof (studentBranch_signal params 0) as Hstudents.
  pose proof (forkJoin2_signal (commentBranch searchService params).1
                (studentBranch searchService params).1 0) as Hjoin.
  destruct (Rx.signal (Rx.forkJoin2 _ _ 0)) as [[r0 r1]|e|].
  - destruct Hjoin as [H0 H1]. by rewrite H0 in Hcomments; rewrite H1 in Hstudents.
  - destruct Hjoin as [H|H]; [by rewrite H in Hcomments|by rewrite H in Hstudents].
  - destruct Hjoin as [H|H]; [by rewrite H in Hcomments|by rewrite H in Hstudents].
Qed.

(** Nothing is found by a branch one of whose calls fails. *)
Lemma failure_nothing_found params e r0 r1 :
  failure searchService params e ->
  commentsFound searchService params r0 ->
  studentsFound searchService params r1 -> False.
Proof.
  unfold commentsFound, studentsFound.
  intros [Hon Hfail|Hon Hfail|res course row Hon Hres Hcourse Hrow Hfail];
    rewrite Hon; intros Hc Hs.
  - destruct Hc as (resp & Hresp & _). congruence.
  - destruct Hs as (res & Hres & _). congruence.
  - destruct Hs as (res' & Hres' & Hok & _).
    assert (res' = res) as -> by congruence.
    destruct (Hok course row Hcourse Hrow) as [p Hp]. congruence.
Qed.

(** A search ends: it succeeds, or one of its calls fails; never both. *)
Lemma search_succeeds_or_fails params :
  (exists resp, succeeds searchService params resp) \/
  (exists e, failure searchService params e).
Proof.
  pose proof (searchStream_signal params) as Hsignal. unfold succeeds.
  destruct (Rx.signal _) as [resp|e|]; [left|right|done]; eauto.
Qed.

Lemma failure_not_succeeds params e resp :
  failure searchService params e -> ~ succeeds searchService params resp.
Proof.
  intros Hfail Hok. pose proof (searchStream_signal params) as Hsignal.
  unfold succeeds in Hok. rewrite Hok in Hsignal. destruct Hsignal.
  by eapply failure_nothing_found.
Qed.

Lemma commentBranch_teardown params now :
  Rx.teardown ((commentBranch searchService params).1 now) = [].
Proof.
  unfold commentBranch. by destruct (SearchParams.isSearchForComments params).
Qed.

Lemma studentBranch_teardown params now :
  Rx.teardown ((studentBranch searchService params).1 now) = [].
Proof.
  destruct (SearchParams.isSearchForStudents params) eqn:Hon.
  2:{ unfold studentBranch. by rewrite Hon. }
  rewrite (studentBranch_on _ _ Hon). cbv zeta.
  destruct (reply (SearchService.searchInstructor _ _)) as [res|e]; [|done].
  cbn [Rx.teardown].
  by rewrite forkJoin2_teardown, getPrivileges_teardown.
Qed.

Lemma searchStream_teardown params :
  Rx.teardown (searchStream searchService params 0) = [].
Proof.
  unfold searchStream.
  by rewrite forkJoin2_teardown, commentBranch_teardown, studentBranch_teardown.
Qed.

End Search.

(** ** The whole search *)

Lemma invoked_invoked calls1 calls2 st :
  invoked calls2 (invoked calls1 st) = invoked (calls1 ++ calls2) st.
Proof. unfold invoked. simpl. by rewrite app_assoc. Qed.

Lemma searches_guard params :
  negb (SearchParams.isSearchForComments params
        || SearchParams.isSearchForStudents params)
  || bool_decide (SearchParams.searchKey params = "") = false <->
  searches params.
Proof.
  unfold searches.
  destruct (SearchParams.isSearchForComments params),
           (SearchParams.isSearchForStudents params); simpl;
    rewrite ?bool_decide_eq_false; intuition congruence.
Qed.

Section Whole.

Variable searchService : SearchService.t.

Lemma search_ignored st :
  ~ searches (searchParams st) -> search searchService st = st.
Proof.
  intros Hno. unfold search.
  destruct (negb _ || bool_decide _) eqn:Hguard; [done|].
  by apply searches_guard in Hguard.
Qed.

Lemma search_ended st :
  searches (searchParams st) ->
  let st' := invoked (searchCalls searchService (searchParams st))
                     (set_isSearching true st) in
  search searchService st =
  set_isSearching false
    match Rx.signal (searchStream searchService (searchParams st) 0) with
    | Rx.Next resp => onResults resp st'
    | Rx.Error e => onFailure e st'
    | Rx.Complete => st'
    end.
Proof.
  intros Hgo%searches_guard. unfold search. rewrite Hgo.
  pose proof (searchStream_teardown searchService (searchParams st)) as Hnone.
  unfold searchCalls, searchStream in *.
  destruct (commentBranch searchService (searchParams st)) as [comments calls0].
  destruct (studentBranch searchService (searchParams st)) as [students calls1].
  cbn [fst snd] in *. unfold Rx.subscribe, Rx.finalize.
  cbn [Rx.signal Rx.issued Rx.teardown]. rewrite Hnone, invoked_invoked. done.
Qed.

Lemma searchCalls_nonempty params :
  searches params -> searchCalls searchService params ≠ [].
Proof.
  intros [Hon _] Hnil. unfold searchCalls in Hnil.
  apply app_eq_nil in Hnil as [Hnil _]. apply app_eq_nil in Hnil as [H0 H1].
  unfold commentBranch, studentBranch in *.
  destruct Hon as [Hon|Hon]; rewrite Hon in *; done.
Qed.

End Whole.

(** The callbacks leave alone what they do not assign. *)
Lemma onResults_frame resp st :
  searchParams (onResults resp st) = searchParams st /\
  isSearching (onResults resp st) = isSearching st /\
  requests (onResults resp st) = requests st /\
  commentTables (onResults resp st) =
    TransformedInstructorSearchResult.searchCommentTables resp.1.
Proof.
  unfold onResults.
  destruct (TransformedInstructorSearchResult.searchStudentTables resp.2) as [tables|];
    simpl; repeat (case_match; simpl); done.
Qed.

Lemma onResults_students resp st :
  studentsListRowTables (onResults resp st) =
  match TransformedInstructorSearchResult.searchStudentTables resp.2 with
  | Some tables => if hasRows (Some tables) then tables else studentsListRowTables st
  | None => studentsListRowTables st
  end.
Proof.
  unfold onResults.
  destruct (TransformedInstructorSearchResult.searchStudentTables resp.2) as [tables|];
    simpl; repeat (case_match; simpl); done.
Qed.

Lemma onResults_toasts resp st :
  toasts (onResults resp st) =
  toasts st ++
  if negb (hasRows (TransformedInstructorSearchResult.searchStudentTables resp.2))
     && negb (hasRows (TransformedInstructorSearchResult.searchCommentTables resp.1))
  then [showWarningToast "No results found."] else [].
Proof.
  unfold onResults.
  destruct (TransformedInstructorSearchResult.searchStudentTables resp.2) as [tables|];
    simpl; repeat (case_match; simpl); by rewrite ?app_nil_r.
Qed.

(** ** Lookups of distinct courses *)

Lemma elem_of_lookups (coursesWithStudents : list SearchStudentsListRowTable.t) call :
  call ∈ concat ((fun course =>
                    searchInstructorPrivilege_call
                      (SearchStudentsListRowTable.courseId course)
                    <$> Array_from_Set
                          (sectionOf <$> SearchStudentsListRowTable.students course))
                 <$> coursesWithStudents) <->
  exists course row,
    course ∈ coursesWithStudents /\
    row ∈ SearchStudentsListRowTable.students course /\
    call = searchInstructorPrivilege_call
             (SearchStudentsListRowTable.courseId course) (sectionOf row).
Proof.
  rewrite elem_of_concat. split.
  - intros (l & Hcall & Hl).
    apply list_elem_of_fmap in Hl as (course & -> & Hcourse).
    apply list_elem_of_fmap in Hcall as (section & -> & Hsection).
    apply elem_of_Array_from_Set, list_elem_of_fmap in Hsection as (row & -> & Hrow).
    eauto.
  - intros (course & row & Hcourse & Hrow & ->).
    eexists. split; [|apply list_elem_of_fmap; eauto].
    apply list_elem_of_fmap. eexists. split; [done|].
    apply elem_of_Array_from_Set, list_elem_of_fmap. eauto.
Qed.

Lemma NoDup_lookups (coursesWithStudents : list SearchStudentsListRowTable.t) :
  NoDup (SearchStudentsListRowTable.courseId <$> coursesWithStudents) ->
  NoDup (concat ((fun course =>
                    searchInstructorPrivilege_call
                      (SearchStudentsListRowTable.courseId course)
                    <$> Array_from_Set
                          (sectionOf <$> SearchStudentsListRowTable.students course))
                 <$> coursesWithStudents)).
Proof.
  induction coursesWithStudents as [|course rest IH]; intros Hnd; [constructor|].
  rewrite fmap_cons in *. cbn [concat]. apply NoDup_cons in Hnd as [Hfresh Hnd].
  apply NoDup_app. split_and!.
  - apply NoDup_fmap_2; [|apply NoDup_Array_from_Set]. by intros ? ? [= ->].
  - intros call (section & -> & _)%list_elem_of_fmap
           (course' & row & Hcourse' & _ & [= Hc _])%elem_of_lookups.
    apply Hfresh. rewrite Hc. by apply list_elem_of_fmap_2.
  - by apply IH.
Qed.

(** * Properties of the grouping step *)

(** C7. [getCoursesWithStudents] preserves order: the course groups come in
    the order in which their course ids are first met in the input, one group
    per distinct course id; within a group the students are those of the
    course, each once, in the order in which they are first met in the input;
    every row starts with both permission flags false. *)
Theorem getCoursesWithStudents_order_preserving (students : list Student.t) :
  let groups := getCoursesWithStudents students in
  let courses := SearchStudentsListRowTable.courseId <$> groups in
  (NoDup courses /\
   (forall c, c ∈ courses <-> exists s, s ∈ students /\ Student.courseId s = c) /\
   (forall i j c d,
      courses !! i = Some c -> courses !! j = Some d -> (i < j)%nat ->
      seenBefore (Student.courseId <$> students) c d)) /\
  (forall course, course ∈ groups ->
     NoDup (membersOf course) /\
     (forall s, s ∈ membersOf course <->
                s ∈ students /\
                Student.courseId s = SearchStudentsListRowTable.courseId course) /\
     (forall i j a b,
        membersOf course !! i = Some a -> membersOf course !! j = Some b ->
        (i < j)%nat -> seenBefore students a b) /\
     (forall row, row ∈ SearchStudentsListRowTable.students course ->
        StudentListRowModel.isAllowedToViewStudentInSection row = false /\
        StudentListRowModel.isAllowedToModifyStudent row = false)).
Proof.
  intros groups courses. subst groups courses.
  rewrite getCoursesWithStudents_courses. split; [split_and!|].
  - apply NoDup_Array_from_Set.
  - intros c. rewrite elem_of_Array_from_Set, list_elem_of_fmap.
    split; intros (s & ? & ?); exists s; by split.
  - apply Array_from_Set_order.
  - intros course Hcourse.
    pose proof Hcourse as (s0 & _ & Hgroup)%elem_of_getCoursesWithStudents.
    split_and!.
    + rewrite Hgroup, membersOf_groupOf. apply NoDup_Array_from_Set.
    + intros s. by apply elem_of_membersOf.
    + rewrite Hgroup, membersOf_groupOf. intros i j a b Hi Hj Hlt.
      eapply seenBefore_filter, Array_from_Set_order; eauto.
    + rewrite Hgroup. unfold groupOf. simpl.
      by intros row (s & -> & _)%list_elem_of_fmap.
Qed.

(** The groups of the sample students, as a run of C7. *)
Lemma getCoursesWithStudents_order_preserving_witness :
  getCoursesWithStudents [Sample.carol; Sample.alice; Sample.carol; Sample.bob; Sample.alice] =
    [SearchStudentsListRowTable.mk "C2" [Sample.row Sample.carol];
     SearchStudentsListRowTable.mk "C1" [Sample.row Sample.alice; Sample.row Sample.bob]] /\
  seenBefore [Sample.carol; Sample.alice; Sample.carol; Sample.bob; Sample.alice]
             Sample.alice Sample.bob.
Proof.
  split; [reflexivity|].
  pose proof (getCoursesWithStudents_order_preserving
                [Sample.carol; Sample.alice; Sample.carol; Sample.bob; Sample.alice])
    as [_ Hgroups].
  destruct (Hgroups (SearchStudentsListRowTable.mk "C1"
                       [Sample.row Sample.alice; Sample.row Sample.bob]))
    as (_ & _ & Horder & _).
  - right. left.
  - apply (Horder 0%nat 1%nat); [reflexivity|reflexivity|lia].
Defined.

(** C8. Two students collapse into one row only when they are the same value:
    every value of the input has exactly one row however often it occurs, and
    a value that is not in the input has none; so two distinct values, even
    with equal course, section and name, keep two rows. *)
Theorem getCoursesWithStudents_value_dedup (students : list Student.t) :
  (forall s,
     length (filter (fun row => StudentListRowModel.student row = s)
                    (allRows (getCoursesWithStudents students))) =
     if decide (s ∈ students) then 1%nat else 0%nat) /\
  (forall s1 s2,
     s1 ∈ students -> s2 ∈ students -> s1 ≠ s2 ->
     exists i j, i ≠ j /\
       allRows (getCoursesWithStudents students) !! i =
         Some (StudentListRowModel.mk s1 false false) /\
       allRows (getCoursesWithStudents students) !! j =
         Some (StudentListRowModel.mk s2 false false)).
Proof.
  assert (forall s,
     length (filter (fun row => StudentListRowModel.student row = s)
                    (allRows (getCoursesWithStudents students))) =
     if decide (s ∈ students) then 1%nat else 0%nat) as Hcount.
  { intros s. rewrite getCoursesWithStudents_groups.
    rewrite rows_of_student by apply NoDup_Array_from_Set.
    assert (s ∈ students -> Student.courseId s ∈
              Array_from_Set (Student.courseId <$> students)) as Hcourse.
    { intros Hs. by apply elem_of_Array_from_Set, list_elem_of_fmap_2. }
    destruct (decide (s ∈ students)), (decide (_ /\ _));
      first [reflexivity | exfalso; tauto]. }
  split; [done|].
  assert (forall s, s ∈ students ->
            exists i, allRows (getCoursesWithStudents students) !! i =
                      Some (StudentListRowModel.mk s false false)) as Hrow.
  { intros s Hs. specialize (Hcount s). rewrite decide_True in Hcount by done.
    destruct (filter _ _) as [|row rest] eqn:Hfilter; [done|].
    assert (row ∈ filter (fun row => StudentListRowModel.student row = s)
                         (allRows (getCoursesWithStudents students))) as Hin
      by (rewrite Hfilter; left).
    apply list_elem_of_filter in Hin as [Hstudent Hin].
    pose proof Hin as Hflags. unfold allRows in Hflags.
    apply elem_of_concat in Hflags as (l & Hl & (course & -> & Hcourse)%list_elem_of_fmap).
    apply elem_of_getCoursesWithStudents in Hcourse as (s0 & _ & ->).
    unfold groupOf in Hl. simpl in Hl.
    apply list_elem_of_fmap in Hl as (s' & -> & _). simpl in Hstudent. subst s'.
    by apply list_elem_of_lookup_1. }
  intros s1 s2 Hs1 Hs2 Hne.
  destruct (Hrow s1 Hs1) as [i Hi], (Hrow s2 Hs2) as [j Hj].
  exists i, j. split_and!; [|done|done]. intros ->. congruence.
Qed.

(** The same object twice and its twin, as a run of C8. *)
Lemma getCoursesWithStudents_value_dedup_witness :
  (Sample.alice ∈ [Sample.alice; Sample.alice; Sample.twin] /\
   Sample.twin ∈ [Sample.alice; Sample.alice; Sample.twin] /\
   Sample.alice ≠ Sample.twin) /\
  allRows (getCoursesWithStudents [Sample.alice; Sample.alice; Sample.twin]) =
    [Sample.row Sample.alice; Sample.row Sample.twin] /\
  exists i j, i ≠ j /\
    allRows (getCoursesWithStudents [Sample.alice; Sample.alice; Sample.twin]) !! i =
      Some (StudentListRowModel.mk Sample.alice false false) /\
    allRows (getCoursesWithStudents [Sample.alice; Sample.alice; Sample.twin]) !! j =
      Some (StudentListRowModel.mk Sample.twin false false).
Proof.
  assert (Sample.alice ∈ [Sample.alice; Sample.alice; Sample.twin]) as H1 by left.
  assert (Sample.twin ∈ [Sample.alice; Sample.alice; Sample.twin]) as H2
    by (right; right; left).
  assert (Sample.alice ≠ Sample.twin) as H3 by discriminate.
  split; [done|]. split; [reflexivity|].
  exact (proj2 (getCoursesWithStudents_value_dedup
                  [Sample.alice; Sample.alice; Sample.twin]) _ _ H1 H2 H3).
Defined.

(** * Properties of the privilege steps *)

(** C2, as amended. [getPrivileges] invokes the privilege lookup once per
    distinct section of each course group, with the group's course id. When
    the groups carry distinct course ids, as those of the grouping step do,
    no pair of course id and section is looked up twice, and the pairs looked
    up are exactly those of the rows. *)
Theorem getPrivileges_one_lookup_per_pair (searchService : SearchService.t)
    (coursesWithStudents : list SearchStudentsListRowTable.t) :
  let lookups := (getPrivileges searchService coursesWithStudents).2 in
  lookups =
    concat ((fun course =>
               searchInstructorPrivilege_call (SearchStudentsListRowTable.courseId course)
               <$> Array_from_Set (sectionOf <$> SearchStudentsListRowTable.students course))
            <$> coursesWithStudents) /\
  (NoDup (SearchStudentsListRowTable.courseId <$> coursesWithStudents) ->
   NoDup lookups /\
   forall call,
     call ∈ lookups <->
     exists course row,
       course ∈ coursesWithStudents /\
       row ∈ SearchStudentsListRowTable.students course /\
       call = searchInstructorPrivilege_call
                (SearchStudentsListRowTable.courseId course) (sectionOf row)).
Proof.
  intros lookups. subst lookups. rewrite getPrivileges_calls.
  split; [done|]. intros Hnd. split.
  - by apply NoDup_lookups.
  - apply elem_of_lookups.
Qed.

(** Two lookups for the three sample students, as a run of C2. *)
Lemma getPrivileges_one_lookup_per_pair_witness :
  NoDup (SearchStudentsListRowTable.courseId <$> getCoursesWithStudents Sample.students) /\
  (getPrivileges Sample.backend (getCoursesWithStudents Sample.students)).2 =
    [searchInstructorPrivilege_call "C1" "S1"; searchInstructorPrivilege_call "C2" "S2"] /\
  NoDup (getPrivileges Sample.backend (getCoursesWithStudents Sample.students)).2.
Proof.
  assert (NoDup (SearchStudentsListRowTable.courseId
                 <$> getCoursesWithStudents Sample.students)) as Hnd.
  { rewrite getCoursesWithStudents_courses. apply NoDup_Array_from_Set. }
  split; [done|]. split; [reflexivity|].
  exact (proj1 (proj2 (getPrivileges_one_lookup_per_pair Sample.backend
                         (getCoursesWithStudents Sample.students)) Hnd)).
Defined.

(** C2 as stated fails: two groups of one course look its section up twice. *)
Lemma getPrivileges_repeats_lookup :
  let groups := [SearchStudentsListRowTable.mk "C1" [Sample.row Sample.alice];
                 SearchStudentsListRowTable.mk "C1" [Sample.row Sample.bob]] in
  (getPrivileges Sample.backend groups).2 =
    [searchInstructorPrivilege_call "C1" "S1"; searchInstructorPrivilege_call "C1" "S1"] /\
  ~ (length (filter (fun call => call = searchInstructorPrivilege_call "C1" "S1")
                    (getPrivileges Sample.backend groups).2) <= 1)%nat.
Proof. split; [reflexivity|]. vm_compute. lia. Qed.


(** * Properties of the search *)

Lemma forkJoin2_issued {A B} (a : Rx.Observable A) (b : Rx.Observable B) now va vb :
  Rx.signal (a now) = Rx.Next va -> Rx.signal (b now) = Rx.Next vb ->
  Rx.issued (Rx.forkJoin2 a b now) = Rx.issued (a now) ++ Rx.issued (b now).
Proof.
  intros Ha Hb. unfold Rx.forkJoin2, Rx.join, Rx.settled. rewrite Ha, Hb. simpl.
  by rewrite app_nil_r.
Qed.

Section Outcomes.

Variable searchService : SearchService.t.

Lemma search_succeeded st resp :
  searches (searchParams st) ->
  succeeds searchService (searchParams st) resp ->
  search searchService st =
  set_isSearching false
    (onResults resp (invoked (searchCalls searchService (searchParams st))
                             (set_isSearching true st))).
Proof.
  intros Hgo Hok. rewrite search_ended by done. cbv zeta.
  unfold succeeds in Hok. by rewrite Hok.
Qed.

Lemma search_requests st :
  searches (searchParams st) ->
  requests (search searchService st) =
  requests st ++ searchCalls searchService (searchParams st).
Proof.
  intros Hgo. rewrite search_ended by done. cbv zeta.
  destruct (Rx.signal _) as [resp|e|]; simpl; [|done|done].
  by destruct (onResults_frame resp
    (invoked (searchCalls searchService (searchParams st)) (set_isSearching true st)))
    as (_ & _ & -> & _).
Qed.

(** The lookups of a successful student branch are among the calls. *)
Lemma succeeded_lookups params resp res :
  SearchParams.isSearchForStudents params = true ->
  succeeds searchService params resp ->
  reply (SearchService.searchInstructor searchService (SearchParams.searchKey params))
    = Ok res ->
  forall call,
    call ∈ (getPrivileges searchService
              (getCoursesWithStudents (InstructorSearchResult.students res))).2 ->
    call ∈ searchCalls searchService params.
Proof.
  intros Hon Hok Hres call Hcall. unfold searchCalls.
  apply elem_of_app. right. unfold succeeds, searchStream in *.
  pose proof (forkJoin2_signal (commentBranch searchService params).1
                (studentBranch searchService params).1 0) as Hjoin.
  rewrite Hok in Hjoin. destruct resp as [r0 r1]. destruct Hjoin as [H0 H1].
  rewrite (forkJoin2_issued _ _ _ _ _ H0 H1), fmap_app.
  apply elem_of_app. right.
  rewrite (studentBranch_on _ _ _ Hon). cbv zeta. rewrite Hres. cbn [Rx.issued].
  rewrite fmap_app. apply elem_of_app. left.
  rewrite <- list_fmap_compose. simpl.
  apply list_elem_of_fmap. by exists call.
Qed.

End Outcomes.

Lemma elem_of_annotate searchService coursesWithStudents course' row' :
  course' ∈ annotate searchService coursesWithStudents ->
  row' ∈ SearchStudentsListRowTable.students course' ->
  exists course row,
    course ∈ coursesWithStudents /\
    row ∈ SearchStudentsListRowTable.students course /\
    SearchStudentsListRowTable.courseId course' =
      SearchStudentsListRowTable.courseId course /\
    row' = assignPrivilege (bodyOf (privilegeFor searchService course row)) row.
Proof.
  unfold annotate. intros (course & -> & Hcourse)%list_elem_of_fmap. simpl.
  intros (row & -> & Hrow)%list_elem_of_fmap. eauto 10.
Qed.

(** C1. After a successful search for students, every row of the resulting
    course groups belongs to the course of its group, the privilege of its
    course and section has been looked up, and the two permission flags of
    the row are the two fields of the answer; rows of one course and section
    therefore carry equal flags. The page shows these groups when there are
    any. *)
Theorem search_rows_carry_fetched_privileges (searchService : SearchService.t)
    (st : State)
    (resp : TransformedInstructorSearchResult.t * TransformedInstructorSearchResult.t) :
  searches (searchParams st) ->
  SearchParams.isSearchForStudents (searchParams st) = true ->
  succeeds searchService (searchParams st) resp ->
  exists tables,
    TransformedInstructorSearchResult.searchStudentTables resp.2 = Some tables /\
    (tables ≠ [] -> studentsListRowTables (search searchService st) = tables) /\
    (forall course row,
       course ∈ tables -> row ∈ SearchStudentsListRowTable.students course ->
       let s := StudentListRowModel.student row in
       Student.courseId s = SearchStudentsListRowTable.courseId course /\
       searchInstructorPrivilege_call (Student.courseId s) (Student.sectionName s)
         ∈ requests (search searchService st) /\
       exists p,
         reply (SearchService.searchInstructorPrivilege searchService
                  (Student.courseId s) (Student.sectionName s)) = Ok p /\
         StudentListRowModel.isAllowedToViewStudentInSection row =
           InstructorPrivilege.canViewStudentInSections p /\
         StudentListRowModel.isAllowedToModifyStudent row =
           InstructorPrivilege.canModifyStudent p) /\
    (forall course1 row1 course2 row2,
       course1 ∈ tables -> row1 ∈ SearchStudentsListRowTable.students course1 ->
       course2 ∈ tables -> row2 ∈ SearchStudentsListRowTable.students course2 ->
       Student.courseId (StudentListRowModel.student row1) =
         Student.courseId (StudentListRowModel.student row2) ->
       Student.sectionName (StudentListRowModel.student row1) =
         Student.sectionName (StudentListRowModel.student row2) ->
       StudentListRowModel.isAllowedToViewStudentInSection row1 =
         StudentListRowModel.isAllowedToViewStudentInSection row2 /\
       StudentListRowModel.isAllowedToModifyStudent row1 =
         StudentListRowModel.isAllowedToModifyStudent row2).
Proof.
  intros Hgo Hon Hok.
  pose proof (searchStream_signal searchService (searchParams st)) as Hsignal.
  pose proof Hok as Hnext. unfold succeeds in Hnext. rewrite Hnext in Hsignal.
  destruct Hsignal as [_ Hfound]. unfold studentsFound in Hfound. rewrite Hon in Hfound.
  destruct Hfound as (res & Hres & Hlookups & Hresp).
  set (groups := getCoursesWithStudents (InstructorSearchResult.students res)) in *.
  assert (forall course row,
    course ∈ annotate searchService groups ->
    row ∈ SearchStudentsListRowTable.students course ->
    let s := StudentListRowModel.student row in
    Student.courseId s = SearchStudentsListRowTable.courseId course /\
    searchInstructorPrivilege_call (Student.courseId s) (Student.sectionName s)
      ∈ requests (search searchService st) /\
    exists p,
      reply (SearchService.searchInstructorPrivilege searchService
               (Student.courseId s) (Student.sectionName s)) = Ok p /\
      StudentListRowModel.isAllowedToViewStudentInSection row =
        InstructorPrivilege.canViewStudentInSections p /\
      StudentListRowModel.isAllowedToModifyStudent row =
        InstructorPrivilege.canModifyStudent p) as Hrows.
  { intros course' row' Hcourse' Hrow'.
    destruct (elem_of_annotate _ _ _ _ Hcourse' Hrow')
      as (course & row & Hcourse & Hrow & Hid & ->).
    assert (Student.courseId (StudentListRowModel.student row) =
            SearchStudentsListRowTable.courseId course) as Hsame.
    { apply (elem_of_membersOf (InstructorSearchResult.students res)); [done|].
      unfold membersOf. by apply list_elem_of_fmap_2. }
    destruct (Hlookups course row Hcourse Hrow) as [p Hp].
    cbv zeta. cbn [assignPrivilege StudentListRowModel.student
                   StudentListRowModel.isAllowedToViewStudentInSection
                   StudentListRowModel.isAllowedToModifyStudent].
    rewrite Hsame. split_and!.
    - by rewrite Hid.
    - rewrite search_requests by done. apply elem_of_app. right.
      eapply succeeded_lookups; [done|done|done|].
      rewrite getPrivileges_calls. apply elem_of_lookups. eauto.
    - exists p. unfold bodyOf. unfold privilegeFor, sectionOf in *.
      by rewrite Hp. }
  exists (annotate searchService groups). split_and!.
  - by rewrite Hresp.
  - intros Hne. rewrite (search_succeeded _ _ resp) by done. simpl.
    rewrite onResults_students, Hresp. simpl.
    by destruct (annotate searchService groups).
  - done.
  - intros course1 row1 course2 row2 Hc1 Hr1 Hc2 Hr2 Hcourse Hsection.
    destruct (Hrows course1 row1 Hc1 Hr1) as (_ & _ & p1 & Hp1 & -> & ->).
    destruct (Hrows course2 row2 Hc2 Hr2) as (_ & _ & p2 & Hp2 & -> & ->).
    rewrite Hcourse, Hsection in Hp1.
    assert (p1 = p2) as -> by congruence. done.
Qed.

(** The sample search for students and comments, as a run of C1. *)
Lemma search_rows_carry_fetched_privileges_witness :
  exists resp,
    searches Sample.both /\
    SearchParams.isSearchForStudents Sample.both = true /\
    succeeds Sample.backend Sample.both resp /\
    exists tables,
      TransformedInstructorSearchResult.searchStudentTables resp.2 = Some tables /\
      (tables ≠ [] ->
       studentsListRowTables (search Sample.backend (Sample.page Sample.both)) = tables) /\
      tables =
        [SearchStudentsListRowTable.mk "C1"
           [StudentListRowModel.mk Sample.alice true false;
            StudentListRowModel.mk Sample.bob true false];
         SearchStudentsListRowTable.mk "C2"
           [StudentListRowModel.mk Sample.carol false true]].
Proof.
  assert (searches Sample.both) as Hgo.
  { split; [by left|discriminate]. }
  eexists. split; [exact Hgo|]. split; [reflexivity|]. split; [vm_compute; reflexivity|].
  destruct (search_rows_carry_fetched_privileges Sample.backend (Sample.page Sample.both) _
              Hgo eq_refl eq_refl) as (tables & Htables & Hshown & _).
  exists tables. split; [exact Htables|]. split; [exact Hshown|].
  vm_compute in Htables. by injection Htables as <-.
Defined.

(** C3. A successful search whose student branch delivers no course group
    leaves the student table of the page as it was; so does every successful
    search for comments only, and every search that finds no student. The
    table is replaced when, and only when, there are new course groups. *)
Theorem search_retains_student_table (searchService : SearchService.t) (st : State)
    (resp : TransformedInstructorSearchResult.t * TransformedInstructorSearchResult.t) :
  searches (searchParams st) ->
  succeeds searchService (searchParams st) resp ->
  (hasRows (TransformedInstructorSearchResult.searchStudentTables resp.2) = false ->
   studentsListRowTables (search searchService st) = studentsListRowTables st) /\
  (SearchParams.isSearchForStudents (searchParams st) = false ->
   studentsListRowTables (search searchService st) = studentsListRowTables st) /\
  (forall res,
     SearchParams.isSearchForStudents (searchParams st) = true ->
     reply (SearchService.searchInstructor searchService
              (SearchParams.searchKey (searchParams st))) = Ok res ->
     InstructorSearchResult.students res = [] ->
     studentsListRowTables (search searchService st) = studentsListRowTables st) /\
  (forall tables,
     TransformedInstructorSearchResult.searchStudentTables resp.2 = Some tables ->
     tables ≠ [] ->
     studentsListRowTables (search searchService st) = tables).
Proof.
  intros Hgo Hok.
  pose proof (searchStream_signal searchService (searchParams st)) as Hsignal.
  pose proof Hok as Hnext. unfold succeeds in Hnext. rewrite Hnext in Hsignal.
  destruct Hsignal as [_ Hfound]. unfold studentsFound in Hfound.
  rewrite (search_succeeded _ _ resp) by done. simpl. rewrite onResults_students.
  assert (hasRows (TransformedInstructorSearchResult.searchStudentTables resp.2) = false ->
          match TransformedInstructorSearchResult.searchStudentTables resp.2 with
          | Some tables =>
              if hasRows (Some tables) then tables else studentsListRowTables st
          | None => studentsListRowTables st
          end = studentsListRowTables st) as Hkept.
  { destruct (TransformedInstructorSearchResult.searchStudentTables resp.2); [|done].
    by intros ->. }
  split_and!.
  - done.
  - intros Hoff. rewrite Hoff in Hfound. apply Hkept. by rewrite Hfound.
  - intros res Hon Hres Hnone. rewrite Hon in Hfound.
    destruct Hfound as (res' & Hres' & _ & Hresp).
    assert (res' = res) as -> by congruence.
    apply Hkept. by rewrite Hresp, Hnone.
  - intros tables -> Hne. by destruct tables.
Qed.

(** A search for comments only on a page that shows students, as a run of C3. *)
Lemma search_retains_student_table_witness :
  exists resp,
    searches Sample.commentsOnly /\
    succeeds Sample.backend Sample.commentsOnly resp /\
    studentsListRowTables (search Sample.backend (Sample.page Sample.commentsOnly)) =
    studentsListRowTables (Sample.page Sample.commentsOnly).
Proof.
  assert (searches Sample.commentsOnly) as Hgo.
  { split; [by left|discriminate]. }
  eexists. split; [exact Hgo|]. split; [vm_compute; reflexivity|].
  exact (proj1 (proj2 (search_retains_student_table Sample.backend
                         (Sample.page Sample.commentsOnly) _ Hgo eq_refl)) eq_refl).
Defined.

(** C4, as amended. A successful search shows the warning that nothing was
    found exactly once when the comment groups and the course groups that
    this search delivers are both empty or absent, and shows no notification
    otherwise; a student table kept from before plays no part. With both
    toggles on, no comment and no student found, there is one warning. *)
Theorem search_warns_when_nothing_new (searchService : SearchService.t) (st : State)
    (resp : TransformedInstructorSearchResult.t * TransformedInstructorSearchResult.t) :
  searches (searchParams st) ->
  succeeds searchService (searchParams st) resp ->
  toasts (search searchService st) =
    toasts st ++
    (if negb (hasRows (TransformedInstructorSearchResult.searchStudentTables resp.2))
        && negb (hasRows (TransformedInstructorSearchResult.searchCommentTables resp.1))
     then [showWarningToast "No results found."] else []) /\
  (forall rc rs,
     SearchParams.isSearchForComments (searchParams st) = true ->
     SearchParams.isSearchForStudents (searchParams st) = true ->
     reply (SearchService.searchComment searchService
              (SearchParams.searchKey (searchParams st))) = Ok rc ->
     reply (SearchService.searchInstructor searchService
              (SearchParams.searchKey (searchParams st))) = Ok rs ->
     InstructorSearchResult.comments rc = [] ->
     InstructorSearchResult.students rs = [] ->
     toasts (search searchService st) =
       toasts st ++ [showWarningToast "No results found."]).
Proof.
  intros Hgo Hok.
  pose proof (searchStream_signal searchService (searchParams st)) as Hsignal.
  pose proof Hok as Hnext. unfold succeeds in Hnext. rewrite Hnext in Hsignal.
  destruct Hsignal as [Hcomments Hstudents].
  unfold commentsFound in Hcomments. unfold studentsFound in Hstudents.
  rewrite (search_succeeded _ _ resp) by done. simpl. rewrite onResults_toasts. simpl.
  split; [done|].
  intros rc rs Hc Hs Hrc Hrs Hnc Hns. rewrite Hc in Hcomments. rewrite Hs in Hstudents.
  destruct Hcomments as (rc' & Hrc' & ->). destruct Hstudents as (rs' & Hrs' & _ & ->).
  assert (rc' = rc) as -> by congruence. assert (rs' = rs) as -> by congruence.
  by rewrite Hnc, Hns.
Qed.

(** The barren backend asked for both, as a run of C4. *)
Lemma search_warns_when_nothing_new_witness :
  exists resp,
    searches Sample.both /\
    succeeds Sample.barren Sample.both resp /\
    toasts (search Sample.barren (Sample.page Sample.both)) =
    [showWarningToast "No results found."].
Proof.
  assert (searches Sample.both) as Hgo.
  { split; [by left|discriminate]. }
  eexists. split; [exact Hgo|]. split; [vm_compute; reflexivity|].
  exact (proj2 (search_warns_when_nothing_new Sample.barren (Sample.page Sample.both) _
                  Hgo eq_refl)
           _ _ eq_refl eq_refl eq_refl eq_refl eq_refl eq_refl).
Defined.

(** C4 as stated fails: a search for comments only that finds none warns,
    although the student table kept from before is not empty. *)
Lemma search_warns_despite_retained_students :
  let st := Sample.page Sample.commentsOnly in
  succeeds Sample.barren Sample.commentsOnly
    (TransformedInstructorSearchResult.mk (Some []) (Some []),
     TransformedInstructorSearchResult.empty) /\
  toasts (search Sample.barren st) = toasts st ++ [showWarningToast "No results found."] /\
  studentsListRowTables (search Sample.barren st) ≠ [].
Proof. split; [reflexivity|]. split; [reflexivity|]. vm_compute. discriminate. Qed.



(** C6. With both toggles off, or with the empty string as search key,
    [search()] changes nothing: the tables, the busy flag, the notifications
    and the list of remote calls are as before. Any other search, one for a
    blank but non-empty key included, invokes the search service. *)
Theorem search_noop (searchService : SearchService.t) (st : State) :
  ((SearchParams.isSearchForComments (searchParams st) = false /\
    SearchParams.isSearchForStudents (searchParams st) = false) \/
   SearchParams.searchKey (searchParams st) = "" ->
   search searchService st = st) /\
  (searches (searchParams st) ->
   exists calls, calls ≠ [] /\ requests (search searchService st) = requests st ++ calls).
Proof.
  split.
  - intros Hno. apply search_ignored. intros [Hon Hkey].
    destruct Hno as [[Hc Hs]|Hblank]; [|done].
    destruct Hon; congruence.
  - intros Hgo. exists (searchCalls searchService (searchParams st)).
    split; [by apply searchCalls_nonempty|by apply search_requests].
Qed.

(** An empty key and a blank key, as a run of C6. *)
Lemma search_noop_witness :
  search Sample.backend (Sample.page (SearchParams.mk "" true true)) =
    Sample.page (SearchParams.mk "" true true) /\
  search Sample.backend (Sample.page (SearchParams.mk "a" false false)) =
    Sample.page (SearchParams.mk "a" false false) /\
  searches Sample.blank /\
  exists calls, calls ≠ [] /\
    requests (search Sample.backend (Sample.page Sample.blank)) =
    requests (Sample.page Sample.blank) ++ calls.
Proof.
  split.
  { apply (proj1 (search_noop Sample.backend (Sample.page (SearchParams.mk "" true true)))).
    by right. }
  split.
  { apply (proj1 (search_noop Sample.backend (Sample.page (SearchParams.mk "a" false false)))).
    by left. }
  assert (searches Sample.blank) as Hgo.
  { split; [by right|discriminate]. }
  split; [exact Hgo|].
  exact (proj2 (search_noop Sample.backend (Sample.page Sample.blank)) Hgo).
Defined.

(** C10. A successful search always assigns what its comment branch delivers
    to the comment table of the page: the comment groups found when comments
    are searched, and the absent field of the placeholder otherwise, so that
    a search for students only leaves no comment table behind. *)
Theorem search_overwrites_comment_table (searchService : SearchService.t) (st : State)
    (resp : TransformedInstructorSearchResult.t * TransformedInstructorSearchResult.t) :
  searches (searchParams st) ->
  succeeds searchService (searchParams st) resp ->
  commentTables (search searchService st) =
    TransformedInstructorSearchResult.searchCommentTables resp.1 /\
  (SearchParams.isSearchForComments (searchParams st) = false ->
   commentTables (search searchService st) = None) /\
  (forall rc,
     SearchParams.isSearchForComments (searchParams st) = true ->
     reply (SearchService.searchComment searchService
              (SearchParams.searchKey (searchParams st))) = Ok rc ->
     commentTables (search searchService st) =
       Some (getSearchCommentsTable (InstructorSearchResult.comments rc))).
Proof.
  intros Hgo Hok.
  pose proof (searchStream_signal searchService (searchParams st)) as Hsignal.
  pose proof Hok as Hnext. unfold succeeds in Hnext. rewrite Hnext in Hsignal.
  destruct Hsignal as [Hcomments _]. unfold commentsFound in Hcomments.
  rewrite (search_succeeded _ _ resp) by done. simpl.
  destruct (onResults_frame resp
    (invoked (searchCalls searchService (searchParams st)) (set_isSearching true st)))
    as (_ & _ & _ & ->).
  split_and!.
  - done.
  - intros Hoff. rewrite Hoff in Hcomments. by rewrite Hcomments.
  - intros rc Hon Hrc. rewrite Hon in Hcomments.
    destruct Hcomments as (rc' & Hrc' & ->). by assert (rc' = rc) as -> by congruence.
Qed.

(** A search for students only on a page that shows comments, as a run of
    C10. *)
Lemma search_overwrites_comment_table_witness :
  exists resp,
    searches Sample.studentsOnly /\
    succeeds Sample.backend Sample.studentsOnly resp /\
    commentTables (Sample.page Sample.studentsOnly) =
      Some [SearchCommentsTable.mk "Session 0" ["Q0"]] /\
    commentTables (search Sample.backend (Sample.page Sample.studentsOnly)) = None.
Proof.
  assert (searches Sample.studentsOnly) as Hgo.
  { split; [by right|discriminate]. }
  eexists. split; [exact Hgo|]. split; [vm_compute; reflexivity|].
  split; [reflexivity|].
  exact (proj1 (proj2 (search_overwrites_comment_table Sample.backend
                         (Sample.page Sample.studentsOnly) _ Hgo eq_refl)) eq_refl).
Defined.

(** * Further properties of the grouping step *)

Lemma length_Array_from_Set `{EqDecision A} (xs : list A) :
  (length (Array_from_Set xs) <= length xs)%nat.
Proof.
  induction xs as [|x xs IH]; [done|].
  rewrite Array_from_Set_cons. simpl.
  pose proof (length_filter (fun y => y ≠ x) (Array_from_Set xs)). lia.
Qed.

Lemma filter_all {A} (P : A -> Prop) `{!forall x, Decision (P x)} (l : list A) :
  (forall x, x ∈ l -> P x) -> filter P l = l.
Proof.
  induction l as [|x l IH]; intros Hall; [done|].
  rewrite filter_cons_True by (apply Hall; left).
  f_equal. apply IH. intros y Hy. apply Hall. by right.
Qed.

Lemma filter_none {A} (P : A -> Prop) `{!forall x, Decision (P x)} (l : list A) :
  (forall x, x ∈ l -> ~ P x) -> filter P l = [].
Proof.
  induction l as [|x l IH]; intros Hnone; [done|].
  rewrite filter_cons_False by (apply Hnone; left).
  apply IH. intros y Hy. apply Hnone. by right.
Qed.

(** A set built from a duplicate-free list is that list. *)
Lemma Array_from_Set_NoDup `{EqDecision A} (xs : list A) :
  NoDup xs -> Array_from_Set xs = xs.
Proof.
  induction xs as [|x xs IH]; intros Hnd; [done|].
  apply NoDup_cons in Hnd as [Hx Hnd].
  rewrite Array_from_Set_cons, (IH Hnd). f_equal.
  apply filter_all. intros y Hy ->. done.
Qed.

(** The students of the rows of the groups of the courses [cs]. *)
Lemma students_of_groups students cs :
  StudentListRowModel.student <$> allRows (groupOf students <$> cs) =
  concat ((fun c => Array_from_Set (filter (fun s => Student.courseId s = c) students))
          <$> cs).
Proof.
  unfold allRows. induction cs as [|c cs IH]; [done|].
  rewrite !fmap_cons. cbn [concat]. rewrite fmap_app, IH. f_equal.
  apply (membersOf_groupOf students c).
Qed.

Lemma NoDup_students_of_groups students cs :
  NoDup cs ->
  NoDup (concat ((fun c => Array_from_Set
                             (filter (fun s => Student.courseId s = c) students))
                 <$> cs)).
Proof.
  induction cs as [|c cs IH]; intros Hnd; [constructor|].
  apply NoDup_cons in Hnd as [Hc Hnd]. rewrite fmap_cons. cbn [concat].
  apply NoDup_app. split_and!; [apply NoDup_Array_from_Set| |by apply IH].
  intros s [<- _]%elem_of_Array_from_Set%list_elem_of_filter
           (l & Hs & (c' & -> & Hc')%list_elem_of_fmap)%elem_of_concat.
  apply elem_of_Array_from_Set, list_elem_of_filter in Hs as [<- _]. done.
Qed.

(** X1. The grouping step neither loses nor invents a student: the students
    of all rows are the distinct values of the input, so there are as many
    rows as distinct student values, and never more than students. *)
Theorem getCoursesWithStudents_rows_permutation (students : list Student.t) :
  StudentListRowModel.student <$> allRows (getCoursesWithStudents students)
    ≡ₚ Array_from_Set students /\
  length (allRows (getCoursesWithStudents students)) =
    length (Array_from_Set students) /\
  (length (allRows (getCoursesWithStudents students)) <= length students)%nat.
Proof.
  assert (StudentListRowModel.student <$> allRows (getCoursesWithStudents students)
            ≡ₚ Array_from_Set students) as Hperm.
  { rewrite getCoursesWithStudents_groups, students_of_groups.
    apply NoDup_Permutation.
    - apply NoDup_students_of_groups, NoDup_Array_from_Set.
    - apply NoDup_Array_from_Set.
    - intros s. rewrite elem_of_concat, elem_of_Array_from_Set. split.
      + intros (l & Hs & (c & -> & _)%list_elem_of_fmap).
        by apply elem_of_Array_from_Set, list_elem_of_filter in Hs as [_ ?].
      + intros Hs.
        exists (Array_from_Set
                  (filter (fun s' => Student.courseId s' = Student.courseId s) students)).
        split.
        * by apply elem_of_Array_from_Set, list_elem_of_filter.
        * apply list_elem_of_fmap. exists (Student.courseId s). split; [reflexivity|].
          by apply elem_of_Array_from_Set, list_elem_of_fmap_2. }
  split; [done|].
  apply Permutation_length in Hperm. rewrite length_fmap in Hperm.
  split; [done|]. rewrite Hperm. apply length_Array_from_Set.
Qed.

(** X2. The grouping step yields no group exactly when there is no student,
    and none of its groups is empty: every group holds a row, and each of its
    rows is a student of the group's course. *)
Theorem getCoursesWithStudents_no_empty_group (students : list Student.t) :
  (getCoursesWithStudents students = [] <-> students = []) /\
  (forall course,
     course ∈ getCoursesWithStudents students ->
     SearchStudentsListRowTable.students course ≠ [] /\
     forall row,
       row ∈ SearchStudentsListRowTable.students course ->
       Student.courseId (StudentListRowModel.student row) =
         SearchStudentsListRowTable.courseId course).
Proof.
  split; [apply getCoursesWithStudents_nil|].
  intros course Hcourse. split; [by eapply getCoursesWithStudents_inhabited|].
  intros row Hrow.
  apply (elem_of_membersOf students); [done|].
  unfold membersOf. by apply list_elem_of_fmap_2.
Qed.

(** The three sample students, as a run of X2. *)
Lemma getCoursesWithStudents_no_empty_group_witness :
  SearchStudentsListRowTable.mk "C2" [Sample.row Sample.carol]
    ∈ getCoursesWithStudents Sample.students /\
  SearchStudentsListRowTable.students
    (SearchStudentsListRowTable.mk "C2" [Sample.row Sample.carol]) ≠ [].
Proof.
  assert (SearchStudentsListRowTable.mk "C2" [Sample.row Sample.carol]
            ∈ getCoursesWithStudents Sample.students) as Hin by (right; left).
  split; [exact Hin|].
  exact (proj1 (proj2 (getCoursesWithStudents_no_empty_group Sample.students) _ Hin)).
Defined.

(** A run of one value in front of a list enters the set once. *)
Lemma Array_from_Set_run `{EqDecision A} (c : A) (run tail : list A) :
  run ≠ [] -> (forall y, y ∈ run -> y = c) ->
  Array_from_Set (run ++ tail) = c :: filter (fun y => y ≠ c) (Array_from_Set tail).
Proof.
  induction run as [|y run IH]; intros Hne Hall; [done|].
  assert (y = c) as -> by (apply Hall; left).
  rewrite <- app_comm_cons, Array_from_Set_cons. f_equal.
  destruct run as [|y' run]; [done|].
  rewrite IH; [|done|intros z Hz; apply Hall; by right].
  rewrite filter_cons_False by tauto.
  rewrite list_filter_filter. apply list_filter_iff. tauto.
Qed.

Section Blocks.

Variable block : string -> list Student.t.

Lemma blocked_cons c cs : blocked block (c :: cs) -> blocked block cs.
Proof. intros Hblocked c' s Hc'. apply Hblocked. by right. Qed.

Lemma courses_of_blocks cs :
  NoDup cs -> blocked block cs -> (forall c, c ∈ cs -> block c ≠ []) ->
  Array_from_Set (Student.courseId <$> concat (block <$> cs)) = cs.
Proof.
  induction cs as [|c cs IH]; intros Hnd Hblocked Hne; [done|].
  apply NoDup_cons in Hnd as [Hc Hnd].
  rewrite fmap_cons. cbn [concat]. rewrite fmap_app.
  rewrite (Array_from_Set_run c).
  - rewrite IH; [|done|by eapply blocked_cons|intros c' Hc'; apply Hne; by right].
    f_equal. apply filter_all. by intros y Hy ->.
  - intros Hnil%fmap_nil_inv. by apply (Hne c); [left|].
  - intros y (s & -> & Hs)%list_elem_of_fmap. apply Hblocked; [left|done].
Qed.

Lemma filter_blocks cs c :
  NoDup cs -> blocked block cs -> c ∈ cs ->
  filter (fun s => Student.courseId s = c) (concat (block <$> cs)) = block c.
Proof.
  induction cs as [|c0 cs IH]; intros Hnd Hblocked Hc; [by apply elem_of_nil in Hc|].
  apply NoDup_cons in Hnd as [Hc0 Hnd].
  rewrite fmap_cons. cbn [concat]. rewrite filter_app.
  destruct (decide (c = c0)) as [->|Hother].
  - rewrite filter_all by (intros s Hs; apply Hblocked; [left|done]).
    rewrite filter_none; [by rewrite app_nil_r|].
    intros s (l & Hs & (c' & -> & Hc')%list_elem_of_fmap)%elem_of_concat Hsame.
    rewrite (Hblocked c' s) in Hsame; [by subst|by right|done].
  - apply elem_of_cons in Hc as [?|Hc]; [done|].
    rewrite filter_none.
    + simpl. apply IH; [done|by eapply blocked_cons|done].
    + intros s Hs Hsame. rewrite (Hblocked c0 s) in Hsame; [done|left|done].
Qed.

End Blocks.

(** X3. Grouping the students of an already grouped result gives the same
    course groups again. *)
Theorem getCoursesWithStudents_regroup (students : list Student.t) :
  getCoursesWithStudents
    (StudentListRowModel.student <$> allRows (getCoursesWithStudents students)) =
  getCoursesWithStudents students.
Proof.
  rewrite (getCoursesWithStudents_groups students), students_of_groups.
  set (cs := Array_from_Set (Student.courseId <$> students)).
  set (block := fun c => Array_from_Set
                           (filter (fun s => Student.courseId s = c) students)).
  assert (NoDup cs) as Hnd by apply NoDup_Array_from_Set.
  assert (blocked block cs) as Hblocked.
  { intros c s _ Hs. by apply elem_of_Array_from_Set, list_elem_of_filter in Hs as [? _]. }
  assert (forall c, c ∈ cs -> block c ≠ []) as Hne.
  { intros c Hc Hnil.
    apply elem_of_Array_from_Set, list_elem_of_fmap in Hc as (s & -> & Hs).
    assert (s ∈ block (Student.courseId s)) as Hin
      by by apply elem_of_Array_from_Set, list_elem_of_filter.
    rewrite Hnil in Hin. by apply elem_of_nil in Hin. }
  rewrite getCoursesWithStudents_groups, (courses_of_blocks block) by done.
  apply list_fmap_ext. intros i c Hc%list_elem_of_lookup_2.
  unfold groupOf. do 2 f_equal.
  rewrite (filter_blocks block) by done.
  apply Array_from_Set_NoDup, NoDup_Array_from_Set.
Qed.

(** * Further properties of the privilege steps *)

Lemma length_concat_rows {B} (f : SearchStudentsListRowTable.t -> StudentListRowModel.t -> B)
    (coursesWithStudents : list SearchStudentsListRowTable.t) :
  length (concat ((fun course => f course <$> SearchStudentsListRowTable.students course)
                  <$> coursesWithStudents)) =
  length (allRows coursesWithStudents).
Proof.
  unfold allRows. induction coursesWithStudents as [|course rest IH]; [done|].
  rewrite !fmap_cons. cbn [concat]. by rewrite !length_app, length_fmap, IH.
Qed.

Lemma allRows_nil coursesWithStudents :
  allRows coursesWithStudents = [] <->
  forall course, course ∈ coursesWithStudents ->
                 SearchStudentsListRowTable.students course = [].
Proof.
  unfold allRows. induction coursesWithStudents as [|course rest IH].
  { split; [by intros _ ? ?%elem_of_nil|done]. }
  rewrite fmap_cons. cbn [concat]. split.
  - intros [Hhere Hrest]%app_eq_nil course' [->|Hin]%elem_of_cons; [done|].
    by apply IH.
  - intros Hall. rewrite (Hall course) by left. simpl. apply IH.
    intros course' Hin. apply Hall. by right.
Qed.

Section PrivilegeStreams.

Variable searchService : SearchService.t.

(** How the stream of [getPrivileges] ends when there is a row. *)
Lemma getPrivileges_outcome coursesWithStudents now :
  allRows coursesWithStudents ≠ [] ->
  match Rx.signal ((getPrivileges searchService coursesWithStudents).1 now) with
  | Rx.Next privileges =>
      (forall course row,
         course ∈ coursesWithStudents ->
         row ∈ SearchStudentsListRowTable.students course ->
         exists p, reply (privilegeFor searchService course row) = Ok p) /\
      privileges =
      concat ((fun course =>
                 (fun row => bodyOf (privilegeFor searchService course row))
                 <$> SearchStudentsListRowTable.students course)
              <$> coursesWithStudents)
  | Rx.Error e =>
      exists course row,
        course ∈ coursesWithStudents /\
        row ∈ SearchStudentsListRowTable.students course /\
        reply (privilegeFor searchService course row) = Failed e
  | Rx.Complete => False
  end.
Proof.
  intros Hrows. destruct coursesWithStudents as [|course rest]; [done|].
  rewrite getPrivileges_cons. cbn [fst].
  set (sources := concat _).
  assert (sources ≠ []) as Hne.
  { intros Hnil. apply Hrows, length_zero_iff_nil.
    rewrite <- (length_concat_rows
                  (fun course row => Rx.http (privilegeFor searchService course row))).
    fold sources. by rewrite Hnil. }
  pose proof (forkJoin_signal sources now Hne) as Hjoin.
  destruct (Rx.signal (Rx.forkJoin sources now)) as [vs|e|].
  - destruct Hjoin as [-> Hall].
    assert (forall c row,
      c ∈ course :: rest -> row ∈ SearchStudentsListRowTable.students c ->
      exists p, reply (privilegeFor searchService c row) = Ok p) as Hok.
    { intros c row Hc Hrow. rewrite Forall_forall in Hall.
      destruct (Hall (Rx.http (privilegeFor searchService c row))) as [v Hv].
      { apply elem_of_streams. eauto. }
      unfold Rx.http in Hv. simpl in Hv.
      destruct (reply (privilegeFor searchService c row)); [eauto|done]. }
    split; [done|]. by apply streams_values.
  - destruct Hjoin as (o & Ho & He).
    apply elem_of_streams in Ho as (c & row & Hc & Hrow & ->).
    exists c, row. split_and!; [done|done|].
    unfold Rx.http in He. simpl in He.
    destruct (reply (privilegeFor searchService c row)); congruence.
  - destruct Hjoin as (o & Ho & He).
    apply elem_of_streams in Ho as (c & row & Hc & Hrow & ->).
    unfold Rx.http in He. simpl in He.
    destruct (reply (privilegeFor searchService c row)); congruence.
Qed.

End PrivilegeStreams.

(** X4. Without any course group [getPrivileges] invokes nothing and delivers
    the empty list at once. With course groups that hold no row at all it
    invokes nothing either, and its stream ends without delivering a value. *)
Theorem getPrivileges_without_rows (searchService : SearchService.t)
    (coursesWithStudents : list SearchStudentsListRowTable.t) :
  allRows coursesWithStudents = [] ->
  (getPrivileges searchService coursesWithStudents).2 = [] /\
  forall now,
    Rx.done_at ((getPrivileges searchService coursesWithStudents).1 now) = now /\
    Rx.signal ((getPrivileges searchService coursesWithStudents).1 now) =
      match coursesWithStudents with
      | [] => Rx.Next []
      | _ :: _ => Rx.Complete
      end.
Proof.
  intros Hnone. destruct coursesWithStudents as [|course rest]; [done|].
  rewrite getPrivileges_cons. cbn [fst snd].
  rewrite allRows_nil in Hnone.
  rewrite !concat_nils; [done| |].
  - intros c Hc. by rewrite (Hnone c Hc).
  - intros c Hc. by rewrite (Hnone c Hc).
Qed.

(** A course group without rows, as a run of X4. *)
Lemma getPrivileges_without_rows_witness :
  allRows [SearchStudentsListRowTable.mk "C1" []] = [] /\
  (getPrivileges Sample.backend [SearchStudentsListRowTable.mk "C1" []]).2 = [] /\
  Rx.signal ((getPrivileges Sample.backend [SearchStudentsListRowTable.mk "C1" []]).1 0)
    = Rx.Complete.
Proof.
  split; [reflexivity|].
  destruct (getPrivileges_without_rows Sample.backend
              [SearchStudentsListRowTable.mk "C1" []] eq_refl) as [Hcalls Hends].
  split; [exact Hcalls|exact (proj2 (Hends 0%nat))].
Defined.


(** X6. [getPrivileges] never invokes more lookups than there are rows, and
    it invokes at least one as soon as there is a row. *)
Theorem getPrivileges_lookups_bounded (searchService : SearchService.t)
    (coursesWithStudents : list SearchStudentsListRowTable.t) :
  (length (getPrivileges searchService coursesWithStudents).2
   <= length (allRows coursesWithStudents))%nat /\
  (allRows coursesWithStudents ≠ [] ->
   (getPrivileges searchService coursesWithStudents).2 ≠ []).
Proof.
  rewrite getPrivileges_calls. split.
  - unfold allRows. induction coursesWithStudents as [|course rest IH]; [done|].
    rewrite !fmap_cons. cbn [concat]. rewrite !length_app, length_fmap.
    pose proof (length_Array_from_Set
                  (sectionOf <$> SearchStudentsListRowTable.students course)) as Hle.
    rewrite length_fmap in Hle. lia.
  - intros Hrows Hnil.
    destruct (allRows coursesWithStudents) as [|row rows] eqn:Hall; [done|].
    assert (row ∈ allRows coursesWithStudents) as Hrow by (rewrite Hall; left).
    unfold allRows in Hrow.
    apply elem_of_concat in Hrow as (l & Hrow & (course & -> & Hcourse)%list_elem_of_fmap).
    assert (searchInstructorPrivilege_call
              (SearchStudentsListRowTable.courseId course) (sectionOf row) ∈ @nil Call)
      as Hin; [|by apply elem_of_nil in Hin].
    rewrite <- Hnil. apply elem_of_lookups. eauto.
Qed.

(** Two lookups for three rows, as a run of X6. *)
Lemma getPrivileges_lookups_bounded_witness :
  allRows (getCoursesWithStudents Sample.students) ≠ [] /\
  (length (getPrivileges Sample.backend (getCoursesWithStudents Sample.students)).2
   <= 3)%nat /\
  (getPrivileges Sample.backend (getCoursesWithStudents Sample.students)).2 ≠ [].
Proof.
  assert (allRows (getCoursesWithStudents Sample.students) ≠ []) as Hrows by discriminate.
  split; [exact Hrows|].
  destruct (getPrivileges_lookups_bounded Sample.backend
              (getCoursesWithStudents Sample.students)) as [Hle Hsome].
  split; [exact Hle|exact (Hsome Hrows)].
Defined.

Lemma combineCourses_cons course rest privileges :
  combineCourses (course :: rest) privileges =
  SearchStudentsListRowTable.mk (SearchStudentsListRowTable.courseId course)
    (assignFront privileges (SearchStudentsListRowTable.students course))
  :: combineCourses rest
       (drop (length (SearchStudentsListRowTable.students course)) privileges).
Proof. simpl. by rewrite combineStudents_assignFront. Qed.

Lemma student_assignFront privileges rows :
  StudentListRowModel.student <$> assignFront privileges rows =
  StudentListRowModel.student <$> rows.
Proof.
  revert privileges. induction rows as [|row rows IH]; intros [|p ps]; [done..|].
  cbn [assignFront]. by rewrite !fmap_cons, IH.
Qed.

Lemma combineCourses_members coursesWithStudents privileges :
  membersOf <$> combineCourses coursesWithStudents privileges =
  membersOf <$> coursesWithStudents.
Proof.
  revert privileges.
  induction coursesWithStudents as [|course rest IH]; intros privileges; [done|].
  rewrite combineCourses_cons, !fmap_cons, IH. f_equal.
  apply student_assignFront.
Qed.

Lemma combineCourses_nil coursesWithStudents :
  combineCourses coursesWithStudents [] = coursesWithStudents.
Proof.
  induction coursesWithStudents as [|course rest IH]; [done|].
  rewrite combineCourses_cons, assignFront_nil, drop_nil, IH. by destruct course.
Qed.

Lemma assignFront_take privileges rows n :
  (length rows <= n)%nat ->
  assignFront (take n privileges) rows = assignFront privileges rows.
Proof.
  revert privileges n. induction rows as [|row rows IH]; intros privileges n Hle; [done|].
  destruct n as [|n]; [simpl in Hle; lia|].
  destruct privileges as [|p ps]; [done|].
  simpl. f_equal. apply IH. simpl in Hle. lia.
Qed.

Lemma combineCourses_take coursesWithStudents privileges n :
  (length (allRows coursesWithStudents) <= n)%nat ->
  combineCourses coursesWithStudents (take n privileges) =
  combineCourses coursesWithStudents privileges.
Proof.
  unfold allRows. revert privileges n.
  induction coursesWithStudents as [|course rest IH]; intros privileges n Hle; [done|].
  rewrite fmap_cons in Hle. cbn [concat] in Hle. rewrite length_app in Hle.
  rewrite !combineCourses_cons, assignFront_take by lia. f_equal.
  set (k := length (SearchStudentsListRowTable.students course)) in *.
  replace n with (k + (n - k))%nat by lia.
  rewrite <- take_drop_commute. apply IH. lia.
Qed.



(** X7. [combinePrivileges] changes permission flags only: the groups keep
    their course ids and, row by row, their students; its comment field is
    the empty list; and without any privilege the groups are returned as they
    were. *)
Theorem combinePrivileges_keeps_students
    (coursesWithStudents : list SearchStudentsListRowTable.t)
    (privileges : list InstructorPrivilege.t) :
  (exists tables,
     combinePrivileges (coursesWithStudents, privileges) =
       TransformedInstructorSearchResult.mk (Some []) (Some tables) /\
     SearchStudentsListRowTable.courseId <$> tables =
       SearchStudentsListRowTable.courseId <$> coursesWithStudents /\
     membersOf <$> tables = membersOf <$> coursesWithStudents) /\
  combinePrivileges (coursesWithStudents, []) =
    TransformedInstructorSearchResult.mk (Some []) (Some coursesWithStudents).
Proof.
  split.
  - exists (combineCourses coursesWithStudents privileges). split_and!.
    + reflexivity.
    + apply combineCourses_courseId.
    + apply combineCourses_members.
  - unfold combinePrivileges. by rewrite combineCourses_nil.
Qed.



(** * Further properties of the search *)

Lemma concat_imap_nils {A B} (f : nat -> A -> list B) (l : list A) :
  (forall j x, x ∈ l -> f j x = []) -> concat (imap f l) = [].
Proof.
  revert f. induction l as [|x l IH]; intros f Hnil; [done|].
  rewrite imap_cons. cbn [concat]. rewrite (Hnil 0%nat x) by left.
  apply IH. intros j y Hy. apply Hnil. by right.
Qed.

(** A join of sources whose callbacks invoke nothing invokes nothing. *)
Lemma join_calls_nil now sources :
  (forall s, s ∈ sources -> Rx.calls s = []) -> Rx.calls (Rx.join now sources) = [].
Proof.
  intros Hnil. unfold Rx.join.
  destruct (Rx.firstAbort 0 sources) as [[[i u] a]|]; cbn [Rx.calls].
  - apply concat_imap_nils. intros j s Hs. by rewrite (Hnil s Hs).
  - by apply concat_nils.
Qed.

Lemma forkJoin_issued_nil {T} (sources : list (Rx.Observable T)) now :
  (forall o, o ∈ sources -> Rx.issued (o now) = []) ->
  Rx.issued (Rx.forkJoin sources now) = [].
Proof.
  intros Hnil. destruct sources as [|o rest]; [done|].
  unfold Rx.forkJoin, Rx.ended. cbn [Rx.issued]. apply join_calls_nil.
  intros s (r & -> & (o' & -> & Ho')%list_elem_of_fmap)%list_elem_of_fmap.
  by apply Hnil.
Qed.

Lemma forkJoin2_calls {A B} (a : Rx.Observable A) (b : Rx.Observable B) now :
  Rx.issued (Rx.forkJoin2 a b now) =
  Rx.calls (Rx.join now [Rx.settled (a now); Rx.settled (b now)]).
Proof.
  unfold Rx.forkJoin2, Rx.ended.
  by destruct (Rx.signal (a now)), (Rx.signal (b now)).
Qed.

Lemma forkJoin2_issued_nil {A B} (a : Rx.Observable A) (b : Rx.Observable B) now :
  Rx.issued (a now) = [] -> Rx.issued (b now) = [] ->
  Rx.issued (Rx.forkJoin2 a b now) = [].
Proof.
  intros Ha Hb. rewrite forkJoin2_calls. apply join_calls_nil.
  intros s [->|Hs]%elem_of_cons; [done|].
  by apply list_elem_of_singleton in Hs as ->.
Qed.

(** Calls of one instant pass a join together or not at all. *)
Lemma filter_stamped now u i j (t : Time) (l : list Call) :
  filter (Rx.precedes now u i j) ((fun c => (t, c)) <$> l) =
  if decide (t < u \/ (t = u /\ (j <= i \/ u = now)))%nat
  then (fun c => (t, c)) <$> l else [].
Proof.
  destruct (decide _) as [Hyes|Hno].
  - apply filter_all. by intros x (c & -> & _)%list_elem_of_fmap.
  - apply filter_none. by intros x (c & -> & _)%list_elem_of_fmap.
Qed.

Lemma join_calls_two now (sa sb : Rx.Settled) :
  Rx.calls (Rx.join now [sa; sb]) =
  match Rx.firstAbort 0 [sa; sb] with
  | Some (i, u, _) =>
      filter (Rx.precedes now u i 0) (Rx.calls sa)
      ++ filter (Rx.precedes now u i 1) (Rx.calls sb)
  | None => Rx.calls sa ++ Rx.calls sb
  end.
Proof.
  unfold Rx.join. destruct (Rx.firstAbort 0 [sa; sb]) as [[[i u] a]|]; cbn [Rx.calls].
  - unfold Rx.issuedUntil. rewrite !imap_cons. cbn [imap concat].
    by rewrite app_nil_r.
  - rewrite !fmap_cons. cbn [concat fmap list_fmap]. by rewrite app_nil_r.
Qed.

Section Requests.

Variable searchService : SearchService.t.

Lemma getPrivileges_issued coursesWithStudents now :
  Rx.issued ((getPrivileges searchService coursesWithStudents).1 now) = [].
Proof.
  destruct coursesWithStudents as [|course rest]; [done|].
  rewrite getPrivileges_cons. cbn [fst]. apply forkJoin_issued_nil.
  by intros o (c & row & _ & _ & ->)%elem_of_streams.
Qed.

Lemma commentBranch_issued params now :
  Rx.issued ((commentBranch searchService params).1 now) = [].
Proof. unfold commentBranch. by destruct (SearchParams.isSearchForComments params). Qed.

Lemma commentBranch_calls params :
  (commentBranch searchService params).2 =
  if SearchParams.isSearchForComments params
  then [searchComment_call (SearchParams.searchKey params)] else [].
Proof. unfold commentBranch. by destruct (SearchParams.isSearchForComments params). Qed.

Lemma studentBranch_calls params :
  (studentBranch searchService params).2 =
  if SearchParams.isSearchForStudents params
  then [searchInstructor_call (SearchParams.searchKey params)] else [].
Proof. unfold studentBranch. by destruct (SearchParams.isSearchForStudents params). Qed.

(** The student branch invokes the lookups when the students arrive. *)
Lemma studentBranch_issued params now :
  Rx.issued ((studentBranch searchService params).1 now) =
  if SearchParams.isSearchForStudents params then
    let response :=
      SearchService.searchInstructor searchService (SearchParams.searchKey params) in
    match reply response with
    | Ok res =>
        (fun c => ((now + latency response)%nat, c))
        <$> lookupsOf (getCoursesWithStudents (InstructorSearchResult.students res))
    | Failed _ => []
    end
  else [].
Proof.
  destruct (SearchParams.isSearchForStudents params) eqn:Hon.
  2:{ unfold studentBranch. by rewrite Hon. }
  rewrite (studentBranch_on _ _ _ Hon). cbv zeta.
  destruct (reply _) as [res|e]; [|done]. cbn [Rx.issued].
  rewrite forkJoin2_issued_nil, app_nil_r; [|done|apply getPrivileges_issued].
  by rewrite getPrivileges_calls.
Qed.

(** The calls made while a search is under way are the lookups of the found
    students, or none. *)
Lemma searchStream_lookups params :
  let lookups := snd <$> Rx.issued (searchStream searchService params 0) in
  lookups = [] \/
  SearchParams.isSearchForStudents params = true /\
  exists res,
    reply (SearchService.searchInstructor searchService (SearchParams.searchKey params))
      = Ok res /\
    lookups = lookupsOf (getCoursesWithStudents (InstructorSearchResult.students res)).
Proof.
  cbv zeta. unfold searchStream. rewrite forkJoin2_calls, join_calls_two.
  pose proof (commentBranch_issued params 0) as Hc.
  pose proof (studentBranch_issued params 0) as Hs. cbv zeta in Hs.
  cbn [Rx.calls Rx.settled]. rewrite Hc, Hs.
  assert (forall (t : Time) (l : list Call), snd <$> ((fun c => (t, c)) <$> l) = l) as Hsnd.
  { intros t l. rewrite <- list_fmap_compose. apply list_fmap_id. }
  destruct (Rx.firstAbort _ _) as [[[i u] a]|];
    destruct (SearchParams.isSearchForStudents params); try (by left);
    destruct (reply _) as [res|e]; try (by left).
  - rewrite filter_stamped. destruct (decide _); [|by left].
    right. split; [done|]. exists res. split; [done|]. apply Hsnd.
  - right. split; [done|]. exists res. split; [done|]. apply Hsnd.
Qed.

(** On success the lookups of the found students have all been invoked. *)
Lemma searchStream_lookups_succeeded params resp res :
  succeeds searchService params resp ->
  SearchParams.isSearchForStudents params = true ->
  reply (SearchService.searchInstructor searchService (SearchParams.searchKey params))
    = Ok res ->
  snd <$> Rx.issued (searchStream searchService params 0) =
  lookupsOf (getCoursesWithStudents (InstructorSearchResult.students res)).
Proof.
  intros Hok Hon Hres. unfold succeeds, searchStream in *.
  pose proof (forkJoin2_signal (commentBranch searchService params).1
                (studentBranch searchService params).1 0) as Hjoin.
  rewrite Hok in Hjoin. destruct resp as [r0 r1]. destruct Hjoin as [H0 H1].
  rewrite (forkJoin2_issued _ _ _ _ _ H0 H1), commentBranch_issued, studentBranch_issued.
  rewrite Hon. cbv zeta. rewrite Hres. simpl.
  rewrite <- list_fmap_compose. apply list_fmap_id.
Qed.

End Requests.

Lemma NoDup_lookupsOf students :
  NoDup (lookupsOf (getCoursesWithStudents students)).
Proof.
  apply NoDup_lookups. rewrite getCoursesWithStudents_courses.
  apply NoDup_Array_from_Set.
Qed.

(** X10. A search past its guard invokes the comment search for the key when
    comments are searched, then the student search for the key when students
    are searched, then at most the privilege lookups of the groups of the
    found students, none of them twice, and nothing else. No lookup is
    invoked when the student search fails; all of them are when the search
    succeeds. *)
Theorem search_requests_in_order (searchService : SearchService.t) (st : State) :
  searches (searchParams st) ->
  let params := searchParams st in
  let key := SearchParams.searchKey params in
  exists lookups,
    requests (search searchService st) =
      requests st ++
      (if SearchParams.isSearchForComments params then [searchComment_call key] else []) ++
      (if SearchParams.isSearchForStudents params then [searchInstructor_call key] else []) ++
      lookups /\
    NoDup lookups /\
    (lookups = [] \/
     SearchParams.isSearchForStudents params = true /\
     exists res,
       reply (SearchService.searchInstructor searchService key) = Ok res /\
       lookups = lookupsOf (getCoursesWithStudents (InstructorSearchResult.students res))) /\
    (forall e,
       reply (SearchService.searchInstructor searchService key) = Failed e ->
       lookups = []) /\
    (forall resp res,
       succeeds searchService params resp ->
       SearchParams.isSearchForStudents params = true ->
       reply (SearchService.searchInstructor searchService key) = Ok res ->
       lookups = lookupsOf (getCoursesWithStudents (InstructorSearchResult.students res))).
Proof.
  intros Hgo params key.
  exists (snd <$> Rx.issued (searchStream searchService params 0)).
  pose proof (searchStream_lookups searchService params) as Hshape. cbv zeta in Hshape.
  split_and!.
  - rewrite search_requests by done. unfold searchCalls.
    rewrite commentBranch_calls, studentBranch_calls. fold params key.
    by rewrite <- !app_assoc.
  - destruct Hshape as [->|(_ & res & _ & ->)]; [constructor|apply NoDup_lookupsOf].
  - done.
  - intros e Hfail. destruct Hshape as [?|(_ & res & Hres & _)]; [done|].
    subst key params. congruence.
  - intros resp res Hok Hon Hres. by eapply searchStream_lookups_succeeded.
Qed.

(** The sample search for both, as a run of X10. *)
Lemma search_requests_in_order_witness :
  searches Sample.both /\
  requests (search Sample.backend (Sample.page Sample.both)) =
    [searchComment_call "a"; searchInstructor_call "a";
     searchInstructorPrivilege_call "C1" "S1"; searchInstructorPrivilege_call "C2" "S2"] /\
  exists lookups,
    requests (search Sample.backend (Sample.page Sample.both)) =
      [] ++ [searchComment_call "a"] ++ [searchInstructor_call "a"] ++ lookups /\
    NoDup lookups.
Proof.
  assert (searches Sample.both) as Hgo.
  { split; [by left|discriminate]. }
  split; [exact Hgo|]. split; [reflexivity|].
  destruct (search_requests_in_order Sample.backend (Sample.page Sample.both) Hgo)
    as (lookups & Hrequests & Hnd & _).
  exists lookups. split; [exact Hrequests|exact Hnd].
Defined.

(** X11. For the groups of the grouping step, [getPrivileges] invokes as many
    lookups as there are distinct pairs of course and section among the
    students. *)
Theorem getPrivileges_lookups_count (searchService : SearchService.t)
    (students : list Student.t) :
  length (getPrivileges searchService (getCoursesWithStudents students)).2 =
  length (Array_from_Set (pairOf <$> students)).
Proof.
  rewrite getPrivileges_calls. fold (lookupsOf (getCoursesWithStudents students)).
  rewrite <- (length_fmap (fun pair => searchInstructorPrivilege_call pair.1 pair.2)
                (Array_from_Set (pairOf <$> students))).
  apply Permutation_length, NoDup_Permutation.
  - apply NoDup_lookupsOf.
  - apply NoDup_fmap_2; [|apply NoDup_Array_from_Set].
    intros [c1 s1] [c2 s2] [= -> ->]. done.
  - intros call. unfold lookupsOf. rewrite elem_of_lookups, list_elem_of_fmap. split.
    + intros (course & row & Hcourse & Hrow & ->).
      exists (pairOf (StudentListRowModel.student row)). split.
      * unfold pairOf, sectionOf. simpl. f_equal. symmetry.
        apply (elem_of_membersOf students); [done|].
        unfold membersOf. by apply list_elem_of_fmap_2.
      * apply elem_of_Array_from_Set, list_elem_of_fmap_2.
        apply (elem_of_membersOf students _ course Hcourse).
        unfold membersOf. by apply list_elem_of_fmap_2.
    + intros (pair & -> & Hpair).
      apply elem_of_Array_from_Set, list_elem_of_fmap in Hpair as (s & -> & Hs).
      exists (groupOf students (Student.courseId s)), (StudentListRowModel.mk s false false).
      split_and!.
      * apply elem_of_getCoursesWithStudents. eauto.
      * unfold groupOf. simpl. apply list_elem_of_fmap. exists s. split; [done|].
        by apply elem_of_Array_from_Set, list_elem_of_filter.
      * done.
Qed.

Section Settled.

Variable searchService : SearchService.t.

Lemma search_params st :
  searchParams (search searchService st) = searchParams st.
Proof.
  destruct (decide (searches (searchParams st))) as [Hgo|Hno];
    [|by rewrite search_ignored].
  rewrite search_ended by done. cbv zeta.
  destruct (Rx.signal _) as [resp|e|]; simpl; [|done|done].
  by destruct (onResults_frame resp
    (invoked (searchCalls searchService (searchParams st)) (set_isSearching true st)))
    as (-> & _).
Qed.

End Settled.

(** X12. Every search past its guard ends with the busy flag cleared and the
    search parameters untouched, and adds at most one notification: none, the
    warning that nothing was found, or the message of a call that failed. *)
Theorem search_always_settles (searchService : SearchService.t) (st : State) :
  searches (searchParams st) ->
  isSearching (search searchService st) = false /\
  searchParams (search searchService st) = searchParams st /\
  (toasts (search searchService st) = toasts st \/
   toasts (search searchService st) = toasts st ++ [showWarningToast "No results found."] \/
   exists e,
     failure searchService (searchParams st) e /\
     toasts (search searchService st) =
       toasts st ++ [showErrorToast (ErrorMessageOutput.message e)]).
Proof.
  intros Hgo. split_and!.
  - rewrite search_ended by done. done.
  - apply search_params.
  - rewrite search_ended by done. cbv zeta.
    pose proof (searchStream_signal searchService (searchParams st)) as Hsignal.
    destruct (Rx.signal _) as [resp|e|]; [|right; right; by exists e|done].
    simpl. rewrite onResults_toasts. simpl.
    destruct (negb _ && negb _); [right; by left|left; by rewrite app_nil_r].
Qed.

(** The sample search for both, as a run of X12. *)
Lemma search_always_settles_witness :
  searches Sample.both /\
  isSearching (search Sample.backend (Sample.page Sample.both)) = false /\
  searchParams (search Sample.backend (Sample.page Sample.both)) = Sample.both.
Proof.
  assert (searches Sample.both) as Hgo.
  { split; [by left|discriminate]. }
  split; [exact Hgo|].
  destruct (search_always_settles Sample.backend (Sample.page Sample.both) Hgo)
    as (Hbusy & Hparams & _).
  split; [exact Hbusy|exact Hparams].
Defined.

(** X13. A search delivers its results exactly when none of the remote calls
    it makes fails. *)
Theorem search_succeeds_iff_no_failure (searchService : SearchService.t)
    (params : SearchParams.t) :
  (exists resp, succeeds searchService params resp) <->
  ~ exists e, failure searchService params e.
Proof.
  split.
  - intros [resp Hok] [e Hfail]. by eapply failure_not_succeeds.
  - intros Hnone.
    destruct (search_succeeds_or_fails searchService params) as [?|?]; done.
Qed.

Lemma commentsFound_none searchService params r :
  commentsFound searchService params r ->
  hasRows (TransformedInstructorSearchResult.searchCommentTables r) = false <->
  SearchParams.isSearchForComments params = false \/
  exists rc,
    reply (SearchService.searchComment searchService (SearchParams.searchKey params))
      = Ok rc /\
    InstructorSearchResult.comments rc = [].
Proof.
  unfold commentsFound.
  destruct (SearchParams.isSearchForComments params).
  - intros (rc & Hrc & ->). simpl. unfold getSearchCommentsTable.
    rewrite length_fmap. split.
    + intros Hnone. right. exists rc. split; [done|].
      by destruct (InstructorSearchResult.comments rc).
    + intros [?|(rc' & Hrc' & Hnone)]; [done|].
      assert (rc' = rc) as -> by congruence. by rewrite Hnone.
  - intros ->. simpl. split; [by left|done].
Qed.

Lemma studentsFound_none searchService params r :
  studentsFound searchService params r ->
  hasRows (TransformedInstructorSearchResult.searchStudentTables r) = false <->
  SearchParams.isSearchForStudents params = false \/
  exists rs,
    reply (SearchService.searchInstructor searchService (SearchParams.searchKey params))
      = Ok rs /\
    InstructorSearchResult.students rs = [].
Proof.
  unfold studentsFound.
  destruct (SearchParams.isSearchForStudents params).
  - intros (rs & Hrs & _ & ->). simpl. unfold annotate. rewrite length_fmap. split.
    + intros Hnone. right. exists rs. split; [done|].
      apply getCoursesWithStudents_nil.
      by destruct (getCoursesWithStudents (InstructorSearchResult.students rs)).
    + intros [?|(rs' & Hrs' & Hnone)]; [done|].
      assert (rs' = rs) as -> by congruence. by rewrite Hnone.
  - intros ->. simpl. split; [by left|done].
Qed.

(** X14. A successful search warns that nothing was found exactly when the
    comment search was off or answered with no comment, and the student
    search was off or answered with no student; otherwise it shows no
    notification. *)
Theorem search_warning_by_answers (searchService : SearchService.t) (st : State)
    (resp : TransformedInstructorSearchResult.t * TransformedInstructorSearchResult.t) :
  searches (searchParams st) ->
  succeeds searchService (searchParams st) resp ->
  let params := searchParams st in
  let key := SearchParams.searchKey params in
  let noComment :=
    SearchParams.isSearchForComments params = false \/
    exists rc, reply (SearchService.searchComment searchService key) = Ok rc /\
               InstructorSearchResult.comments rc = [] in
  let noStudent :=
    SearchParams.isSearchForStudents params = false \/
    exists rs, reply (SearchService.searchInstructor searchService key) = Ok rs /\
               InstructorSearchResult.students rs = [] in
  (noComment /\ noStudent ->
   toasts (search searchService st) = toasts st ++ [showWarningToast "No results found."]) /\
  (~ (noComment /\ noStudent) -> toasts (search searchService st) = toasts st).
Proof.
  intros Hgo Hok params key noComment noStudent.
  pose proof (searchStream_signal searchService (searchParams st)) as Hsignal.
  pose proof Hok as Hnext. unfold succeeds in Hnext. rewrite Hnext in Hsignal.
  destruct Hsignal as [Hcomments Hstudents].
  apply commentsFound_none in Hcomments. apply studentsFound_none in Hstudents.
  fold params key noComment in Hcomments. fold params key noStudent in Hstudents.
  rewrite (search_succeeded _ _ resp) by done. simpl. rewrite onResults_toasts. simpl.
  destruct (hasRows (TransformedInstructorSearchResult.searchStudentTables resp.2)),
           (hasRows (TransformedInstructorSearchResult.searchCommentTables resp.1));
    simpl; rewrite ?app_nil_r; split; intros Hcase; try done.
  - destruct Hcase as [Hc Hs]. apply Hstudents in Hs. done.
  - destruct Hcase as [Hc Hs]. apply Hstudents in Hs. done.
  - destruct Hcase as [Hc Hs]. apply Hcomments in Hc. done.
  - exfalso. apply Hcase. split; [by apply Hcomments|by apply Hstudents].
Qed.

(** The barren backend searched for students only, as a run of X14. *)
Lemma search_warning_by_answers_witness :
  exists resp,
    searches Sample.studentsOnly /\
    succeeds Sample.barren Sample.studentsOnly resp /\
    toasts (search Sample.barren (Sample.page Sample.studentsOnly)) =
      [showWarningToast "No results found."].
Proof.
  assert (searches Sample.studentsOnly) as Hgo.
  { split; [by right|discriminate]. }
  eexists. split; [exact Hgo|]. split; [vm_compute; reflexivity|].
  apply (proj1 (search_warning_by_answers Sample.barren (Sample.page Sample.studentsOnly) _
                  Hgo eq_refl)).
  split; [by left|].
  right. exists (InstructorSearchResult.mk [] []). by split.
Defined.

Section Again.

Variable searchService : SearchService.t.

(** The tables after a search, by the way its stream ends. *)
Lemma search_tables st :
  searches (searchParams st) ->
  match Rx.signal (searchStream searchService (searchParams st) 0) with
  | Rx.Next resp =>
      studentsListRowTables (search searchService st) =
        match TransformedInstructorSearchResult.searchStudentTables resp.2 with
        | Some tables =>
            if hasRows (Some tables) then tables else studentsListRowTables st
        | None => studentsListRowTables st
        end /\
      commentTables (search searchService st) =
        TransformedInstructorSearchResult.searchCommentTables resp.1
  | _ =>
      studentsListRowTables (search searchService st) = studentsListRowTables st /\
      commentTables (search searchService st) = commentTables st
  end.
Proof.
  intros Hgo. rewrite search_ended by done. cbv zeta.
  destruct (Rx.signal _) as [resp|e|]; simpl; [|done|done].
  rewrite onResults_students. split; [done|].
  by destruct (onResults_frame resp
    (invoked (searchCalls searchService (searchParams st)) (set_isSearching true st)))
    as (_ & _ & _ & ->).
Qed.

End Again.

(** X15. Searching once more with the same parameters and the same answers
    leaves the two tables, the parameters and the busy flag as the first
    search left them. *)
Theorem search_again (searchService : SearchService.t) (st : State) :
  let once := search searchService st in
  let twice := search searchService once in
  studentsListRowTables twice = studentsListRowTables once /\
  commentTables twice = commentTables once /\
  searchParams twice = searchParams once /\
  isSearching twice = isSearching once.
Proof.
  intros once twice. subst twice.
  destruct (decide (searches (searchParams st))) as [Hgo|Hno].
  2:{ subst once. by rewrite !search_ignored by (by rewrite ?search_ignored). }
  assert (searchParams once = searchParams st) as Hparams by apply search_params.
  assert (searches (searchParams once)) as Hgo' by by rewrite Hparams.
  pose proof (search_tables searchService st Hgo) as Hfirst.
  pose proof (search_tables searchService once Hgo') as Hsecond.
  rewrite Hparams in Hsecond. fold once in Hfirst.
  split_and!.
  - destruct (Rx.signal _) as [resp|e|]; [|by destruct Hsecond..].
    destruct Hfirst as [Hfirst _], Hsecond as [-> _].
    destruct (TransformedInstructorSearchResult.searchStudentTables resp.2)
      as [tables|]; [|done].
    by destruct (hasRows (Some tables)).
  - destruct (Rx.signal _) as [resp|e|]; [|by destruct Hsecond..].
    destruct Hfirst as [_ ->], Hsecond as [_ ->]. done.
  - apply search_params.
  - rewrite (search_ended searchService once) by done.
    subst once. by rewrite (search_ended searchService st) by done.
Qed.

(** * Properties of the page load *)

Lemma truthy_true s : truthy s = true <-> s ≠ "".
Proof. unfold truthy. by rewrite negb_true_iff, bool_decide_eq_false. Qed.

Lemma set_searchKey_same st :
  set_searchKey (SearchParams.searchKey (searchParams st)) st = st.
Proof. destruct st as [[key s c] ? ? ? ? ?]. reflexivity. Qed.

(** X16. Handling the query parameters of the route never changes the two
    toggles; the search key becomes the [studentSearchkey] of the route when
    that is a non-empty string and stays as it was otherwise. With the
    resulting key empty nothing else happens; with any other key the page is
    what [search()] makes of it with that key. *)
Theorem onQueryParams_key (searchService : SearchService.t)
    (queryParams : QueryParams.t) (st : State) :
  let key :=
    match QueryParams.studentSearchkey queryParams with
    | Some studentSearchkey =>
        if bool_decide (studentSearchkey = "")
        then SearchParams.searchKey (searchParams st) else studentSearchkey
    | None => SearchParams.searchKey (searchParams st)
    end in
  searchParams (onQueryParams searchService queryParams st) =
    SearchParams.mk key
      (SearchParams.isSearchForStudents (searchParams st))
      (SearchParams.isSearchForComments (searchParams st)) /\
  (key = "" -> onQueryParams searchService queryParams st = st) /\
  (key ≠ "" ->
   onQueryParams searchService queryParams st =
   search searchService (set_searchKey key st)).
Proof.
  intros key.
  assert (onQueryParams searchService queryParams st =
          if truthy key then search searchService (set_searchKey key st)
          else set_searchKey key st) as Hrun.
  { subst key. unfold onQueryParams.
    destruct (QueryParams.studentSearchkey queryParams) as [k|].
    - unfold truthy. destruct (bool_decide (k = "")); simpl.
      + by rewrite set_searchKey_same.
      + done.
    - by rewrite set_searchKey_same. }
  rewrite Hrun. split_and!.
  - destruct (truthy key); [rewrite search_params|]; done.
  - intros Hempty. rewrite Hempty. simpl. subst key.
    destruct (QueryParams.studentSearchkey queryParams) as [k|].
    + destruct (bool_decide (k = "")) eqn:Hk.
      * rewrite <- Hempty. apply set_searchKey_same.
      * by apply bool_decide_eq_false in Hk.
    + rewrite <- Hempty. apply set_searchKey_same.
  - intros Hkey. by rewrite (proj2 (truthy_true key) Hkey).
Qed.

(** A route with a key on the sample page, as a run of X16. *)
Lemma onQueryParams_key_witness :
  "b" ≠ "" /\
  onQueryParams Sample.backend (QueryParams.mk (Some "b")) (Sample.page Sample.both) =
  search Sample.backend (set_searchKey "b" (Sample.page Sample.both)).
Proof.
  split; [discriminate|].
  apply (proj2 (proj2 (onQueryParams_key Sample.backend (QueryParams.mk (Some "b"))
                         (Sample.page Sample.both)))).
  discriminate.
Defined.

(** X17. On a newly constructed page a route with a non-empty
    [studentSearchkey] starts the search for students with that key: the key
    is kept as search key, the student search is the first call, only
    privilege lookups follow, the comment search is never invoked, and the
    busy flag is cleared in the end. A route without such a key leaves the
    new page as it is. *)
Theorem onQueryParams_initial (searchService : SearchService.t) (key : string) :
  (key ≠ "" ->
   let loaded := onQueryParams searchService (QueryParams.mk (Some key)) initial in
   searchParams loaded = SearchParams.mk key true false /\
   isSearching loaded = false /\
   exists lookups,
     requests loaded = searchInstructor_call key :: lookups /\
     forall call, call ∈ lookups ->
       exists courseId sectionName,
         call = searchInstructorPrivilege_call courseId sectionName) /\
  onQueryParams searchService (QueryParams.mk None) initial = initial /\
  onQueryParams searchService (QueryParams.mk (Some "")) initial = initial.
Proof.
  split; [|done]. intros Hkey loaded.
  assert (loaded = search searchService (set_searchKey key initial)) as ->.
  { assert (truthy key = true) as Htruthy by by apply truthy_true.
    subst loaded. unfold onQueryParams. simpl. rewrite Htruthy. simpl.
    by rewrite Htruthy. }
  assert (searches (searchParams (set_searchKey key initial))) as Hgo.
  { split; [by right|done]. }
  split_and!.
  - by rewrite search_params.
  - rewrite search_ended by done. done.
  - rewrite search_requests by done. unfold searchCalls.
    rewrite commentBranch_calls, studentBranch_calls. simpl.
    eexists. split; [reflexivity|]. intros call Hcall.
    pose proof (searchStream_lookups searchService
                  (searchParams (set_searchKey key initial))) as Hshape.
    cbv zeta in Hshape. simpl in Hshape.
    destruct Hshape as [Hnone|(_ & res & _ & Hsome)].
    + rewrite Hnone in Hcall. by apply elem_of_nil in Hcall.
    + rewrite Hsome in Hcall. unfold lookupsOf in Hcall.
      apply elem_of_lookups in Hcall as (course & row & _ & _ & ->). eauto.
Qed.

(** A page load with a key against the sample backend, as a run of X17. *)
Lemma onQueryParams_initial_witness :
  "a" ≠ "" /\
  requests (onQueryParams Sample.backend (QueryParams.mk (Some "a")) initial) =
    [searchInstructor_call "a";
     searchInstructorPrivilege_call "C1" "S1"; searchInstructorPrivilege_call "C2" "S2"] /\
  searchParams (onQueryParams Sample.backend (QueryParams.mk (Some "a")) initial) =
    SearchParams.mk "a" true false.
Proof.
  assert ("a" ≠ "") as Hkey by discriminate.
  split; [exact Hkey|]. split; [reflexivity|].
  exact (proj1 (proj1 (onQueryParams_initial Sample.backend "a") Hkey)).
Defined.

(** * The students shown after a search *)

Lemma annotate_members searchService coursesWithStudents :
  membersOf <$> annotate searchService coursesWithStudents =
  membersOf <$> coursesWithStudents.
Proof.
  unfold annotate. rewrite <- list_fmap_compose. apply list_fmap_ext.
  intros i course _. unfold membersOf. simpl.
  rewrite <- list_fmap_compose. by apply list_fmap_ext.
Qed.

Lemma annotate_courseId searchService coursesWithStudents :
  SearchStudentsListRowTable.courseId <$> annotate searchService coursesWithStudents =
  SearchStudentsListRowTable.courseId <$> coursesWithStudents.
Proof. unfold annotate. rewrite <- list_fmap_compose. by apply list_fmap_ext. Qed.

(** X18. After a successful search that finds students, the student table of
    the page holds the course groups of the found students: the same courses
    in the same order and, group by group, the same students in the same
    order as the grouping step yields, so every distinct student found has
    one row. *)
Theorem search_shows_found_students (searchService : SearchService.t) (st : State)
    (resp : TransformedInstructorSearchResult.t * TransformedInstructorSearchResult.t)
    (res : InstructorSearchResult.t) :
  searches (searchParams st) ->
  succeeds searchService (searchParams st) resp ->
  SearchParams.isSearchForStudents (searchParams st) = true ->
  reply (SearchService.searchInstructor searchService
           (SearchParams.searchKey (searchParams st))) = Ok res ->
  InstructorSearchResult.students res ≠ [] ->
  let shown := studentsListRowTables (search searchService st) in
  let groups := getCoursesWithStudents (InstructorSearchResult.students res) in
  SearchStudentsListRowTable.courseId <$> shown =
    SearchStudentsListRowTable.courseId <$> groups /\
  membersOf <$> shown = membersOf <$> groups /\
  StudentListRowModel.student <$> allRows shown
    ≡ₚ Array_from_Set (InstructorSearchResult.students res).
Proof.
  intros Hgo Hok Hon Hres Hsome shown groups.
  pose proof (searchStream_signal searchService (searchParams st)) as Hsignal.
  pose proof Hok as Hnext. unfold succeeds in Hnext. rewrite Hnext in Hsignal.
  destruct Hsignal as [_ Hfound]. unfold studentsFound in Hfound. rewrite Hon in Hfound.
  destruct Hfound as (res' & Hres' & _ & Hresp).
  assert (res' = res) as -> by congruence. fold groups in Hresp.
  assert (shown = annotate searchService groups) as ->.
  { subst shown. rewrite (search_succeeded _ _ resp) by done. simpl.
    rewrite onResults_students, Hresp. simpl.
    assert (groups ≠ []) as Hgroups by (by intros ?%getCoursesWithStudents_nil).
    unfold annotate. by destruct groups. }
  assert (membersOf <$> annotate searchService groups = membersOf <$> groups) as Hmembers
    by apply annotate_members.
  split_and!; [apply annotate_courseId|done|].
  assert (forall tables,
            StudentListRowModel.student <$> allRows tables = concat (membersOf <$> tables))
    as Hflat.
  { intros tables. unfold allRows. induction tables as [|t tables IH]; [done|].
    rewrite !fmap_cons. cbn [concat]. by rewrite fmap_app, IH. }
  rewrite Hflat, Hmembers, <- Hflat. subst groups.
  rewrite getCoursesWithStudents_groups, students_of_groups.
  apply NoDup_Permutation.
  - apply NoDup_students_of_groups, NoDup_Array_from_Set.
  - apply NoDup_Array_from_Set.
  - intros s. rewrite elem_of_concat, elem_of_Array_from_Set. split.
    + intros (l & Hs & (c & -> & _)%list_elem_of_fmap).
      by apply elem_of_Array_from_Set, list_elem_of_filter in Hs as [_ ?].
    + intros Hs.
      exists (Array_from_Set
                (filter (fun s' => Student.courseId s' = Student.courseId s)
                        (InstructorSearchResult.students res))).
      split.
      * by apply elem_of_Array_from_Set, list_elem_of_filter.
      * apply list_elem_of_fmap. exists (Student.courseId s). split; [reflexivity|].
        by apply elem_of_Array_from_Set, list_elem_of_fmap_2.
Qed.

(** The sample search for students only, as a run of X18. *)
Lemma search_shows_found_students_witness :
  exists resp,
    searches Sample.studentsOnly /\
    succeeds Sample.backend Sample.studentsOnly resp /\
    membersOf <$> studentsListRowTables
                    (search Sample.backend (Sample.page Sample.studentsOnly)) =
    membersOf <$> getCoursesWithStudents Sample.students.
Proof.
  assert (searches Sample.studentsOnly) as Hgo.
  { split; [by right|discriminate]. }
  eexists. split; [exact Hgo|]. split; [vm_compute; reflexivity|].
  refine (proj1 (proj2 (search_shows_found_students Sample.backend
                          (Sample.page Sample.studentsOnly) _
                          (InstructorSearchResult.mk Sample.students [])
                          Hgo eq_refl eq_refl eq_refl _))).
  discriminate.
Defined.

(** * Row objects assigned in place *)

Lemma combineStudentsInPlace_remaining students privileges heap :
  (combineStudentsInPlace students privileges heap).2 =
  drop (length students) privileges.
Proof.
  revert privileges heap.
  induction students as [|ref rest IH]; intros privileges heap; [done|].
  destruct privileges as [|p ps]; simpl; rewrite IH; [|done].
  by rewrite drop_nil.
Qed.

(** A row object that is not listed at a position with a privilege is left
    alone. *)
Lemma combineStudentsInPlace_untouched students privileges heap ref :
  ref ∉ take (length privileges) students ->
  (combineStudentsInPlace students privileges heap).1 !! ref = heap !! ref.
Proof.
  revert privileges heap.
  induction students as [|r rest IH]; intros privileges heap Hout; [done|].
  destruct privileges as [|p ps]; simpl.
  - apply IH. simpl. apply not_elem_of_nil.
  - simpl in Hout. apply not_elem_of_cons in Hout as [Hne Hout].
    rewrite IH by done. by apply lookup_alter_ne.
Qed.

(** A row object ends with the privilege of the last position that lists it
    and has a privilege. *)
Lemma combineStudentsInPlace_last students privileges heap i ref p :
  students !! i = Some ref -> privileges !! i = Some p ->
  (forall j, (i < j)%nat -> (j < length privileges)%nat -> students !! j ≠ Some ref) ->
  (combineStudentsInPlace students privileges heap).1 !! ref =
  assignPrivilege p <$> heap !! ref.
Proof.
  revert privileges heap i.
  induction students as [|r rest IH]; intros privileges heap i Href Hp Hlast; [done|].
  destruct privileges as [|q qs]; [done|]. simpl.
  destruct i as [|i]; simpl in Href, Hp.
  - injection Href as ->. injection Hp as ->.
    rewrite combineStudentsInPlace_untouched, lookup_alter_eq; [done|].
    intros (j & Hj & Hlt)%elem_of_take.
    apply (Hlast (S j)); [lia|simpl; lia|done].
  - rewrite (IH qs _ i); [|done|done|].
    2:{ intros j Hij Hj. apply (Hlast (S j)); [lia|simpl; lia]. }
    destruct (decide (r = ref)) as [->|Hne].
    + rewrite lookup_alter_eq. by destruct (heap !! ref).
    + by rewrite lookup_alter_ne.
Qed.

Lemma combineStudentsInPlace_app students1 students2 privileges heap :
  combineStudentsInPlace (students1 ++ students2) privileges heap =
  combineStudentsInPlace students2
    (combineStudentsInPlace students1 privileges heap).2
    (combineStudentsInPlace students1 privileges heap).1.
Proof.
  revert privileges heap.
  induction students1 as [|r rest IH]; intros privileges heap; [done|].
  destruct privileges as [|p ps]; simpl; apply IH.
Qed.

(** The two loops walk the references of all groups in one sweep. *)
Lemma combineCoursesInPlace_flat coursesWithStudents privileges heap :
  combineCoursesInPlace coursesWithStudents privileges heap =
  combineStudentsInPlace (allRefs coursesWithStudents) privileges heap.
Proof.
  unfold allRefs. revert privileges heap.
  induction coursesWithStudents as [|course rest IH]; intros privileges heap; [done|].
  rewrite fmap_cons. cbn [concat combineCoursesInPlace].
  rewrite combineStudentsInPlace_app.
  destruct (combineStudentsInPlace (RowTable.students course) privileges heap)
    as [heap' privileges']. apply IH.
Qed.

(** Spare privileges stay in the array. *)
Lemma combineStudentsInPlace_spare students privileges extra heap :
  (length students <= length privileges)%nat ->
  combineStudentsInPlace students (privileges ++ extra) heap =
  ((combineStudentsInPlace students privileges heap).1,
   (combineStudentsInPlace students privileges heap).2 ++ extra).
Proof.
  revert privileges heap.
  induction students as [|r rest IH]; intros privileges heap Hle; [done|].
  destruct privileges as [|p ps]; [simpl in Hle; lia|].
  simpl. apply IH. simpl in Hle. lia.
Qed.

Lemma combinePrivilegesInPlace_flat coursesWithStudents privileges heap :
  combinePrivilegesInPlace (coursesWithStudents, privileges) heap =
  Combined.mk coursesWithStudents []
    (combineStudentsInPlace (allRefs coursesWithStudents) privileges heap).1
    (drop (length (allRefs coursesWithStudents)) privileges).
Proof.
  unfold combinePrivilegesInPlace. rewrite combineCoursesInPlace_flat.
  pose proof (combineStudentsInPlace_remaining
                (allRefs coursesWithStudents) privileges heap) as Hrest.
  destruct (combineStudentsInPlace _ privileges heap) as [heap' privileges'].
  cbn [fst snd] in *. by rewrite Hrest.
Qed.

(** The flags of a row object that carries the privilege [p]. *)
Lemma assigned_row p (row : StudentListRowModel.t) (found : option StudentListRowModel.t) :
  found = assignPrivilege p <$> Some row ->
  exists row',
    found = Some row' /\
    StudentListRowModel.student row' = StudentListRowModel.student row /\
    StudentListRowModel.isAllowedToViewStudentInSection row' =
      InstructorPrivilege.canViewStudentInSections p /\
    StudentListRowModel.isAllowedToModifyStudent row' =
      InstructorPrivilege.canModifyStudent p.
Proof. intros ->. by eexists. Qed.

(** C9, as amended. [combinePrivileges] with fewer privileges than rows still
    returns, with the array of groups it was handed, an empty comment field
    and the privilege array used up. The privileges go to the first
    positions in loop order: a row object ends with the two fields of the
    privilege of the last such position that lists it, and a row object that
    none of these positions lists keeps its flags. When no row object is
    listed twice, every row past the last privilege therefore keeps its
    flags. *)
Theorem combinePrivilegesInPlace_under_run
    (coursesWithStudents : list RowTable.t)
    (privileges : list InstructorPrivilege.t)
    (heap : gmap nat StudentListRowModel.t) :
  (length privileges < length (allRefs coursesWithStudents))%nat ->
  let out := combinePrivilegesInPlace (coursesWithStudents, privileges) heap in
  Combined.searchStudentTables out = coursesWithStudents /\
  Combined.searchCommentTables out = [] /\
  Combined.privileges out = [] /\
  (forall i ref p row,
     allRefs coursesWithStudents !! i = Some ref ->
     privileges !! i = Some p ->
     heap !! ref = Some row ->
     (forall j, (i < j)%nat -> (j < length privileges)%nat ->
                allRefs coursesWithStudents !! j ≠ Some ref) ->
     exists row',
       Combined.heap out !! ref = Some row' /\
       StudentListRowModel.student row' = StudentListRowModel.student row /\
       StudentListRowModel.isAllowedToViewStudentInSection row' =
         InstructorPrivilege.canViewStudentInSections p /\
       StudentListRowModel.isAllowedToModifyStudent row' =
         InstructorPrivilege.canModifyStudent p) /\
  (forall ref,
     ref ∉ take (length privileges) (allRefs coursesWithStudents) ->
     Combined.heap out !! ref = heap !! ref) /\
  (NoDup (allRefs coursesWithStudents) ->
   forall i ref,
     (length privileges <= i)%nat ->
     allRefs coursesWithStudents !! i = Some ref ->
     Combined.heap out !! ref = heap !! ref).
Proof.
  intros Hshort out. subst out. rewrite combinePrivilegesInPlace_flat.
  cbn [Combined.searchStudentTables Combined.searchCommentTables
       Combined.privileges Combined.heap].
  split_and!; [done|done|apply drop_ge; lia| | |].
  - intros i ref p row Href Hp Hrow Hlast. apply (assigned_row p row).
    rewrite <- Hrow. by apply (combineStudentsInPlace_last _ _ _ i ref p Href Hp).
  - intros ref Hout. by apply combineStudentsInPlace_untouched.
  - intros Hnd i ref Hi Href. apply combineStudentsInPlace_untouched.
    intros (j & Hj & Hlt)%elem_of_take.
    pose proof (NoDup_lookup _ _ _ _ Hnd Href Hj). lia.
Qed.

(** One privilege for three distinct row objects, as a run of C9. *)
Lemma combinePrivilegesInPlace_under_run_witness :
  let groups := [RowTable.mk "C1" [1; 2]; RowTable.mk "C2" [3]]%nat in
  let heap : gmap nat StudentListRowModel.t :=
    <[1%nat := Sample.row Sample.alice]>
      (<[2%nat := Sample.row Sample.bob]> {[3%nat := Sample.row Sample.carol]}) in
  let out := combinePrivilegesInPlace (groups, [InstructorPrivilege.mk true true]) heap in
  (1 < length (allRefs groups))%nat /\
  NoDup (allRefs groups) /\
  Combined.heap out !! 1%nat = Some (StudentListRowModel.mk Sample.alice true true) /\
  Combined.heap out !! 2%nat = Some (Sample.row Sample.bob) /\
  Combined.heap out !! 3%nat = Some (Sample.row Sample.carol).
Proof.
  intros groups heap out.
  assert (1 < length (allRefs groups))%nat as Hshort by (simpl; lia).
  assert (NoDup (allRefs groups)) as Hnd
    by exact (bool_decide_unpack (NoDup [1; 2; 3]%nat) I).
  destruct (combinePrivilegesInPlace_under_run groups [InstructorPrivilege.mk true true]
              heap Hshort) as (_ & _ & _ & _ & _ & Hkept).
  split; [exact Hshort|]. split; [exact Hnd|]. split; [reflexivity|]. split.
  - exact (Hkept Hnd 1%nat 2%nat ltac:(simpl; lia) eq_refl).
  - exact (Hkept Hnd 2%nat 3%nat ltac:(simpl; lia) eq_refl).
Defined.

(** C9 as stated fails: a row object listed twice carries, at the position
    past the last privilege, the privilege of its first position. *)
Lemma combinePrivilegesInPlace_changes_listed_twice :
  let groups := [RowTable.mk "C1" [7; 7]]%nat in
  let heap : gmap nat StudentListRowModel.t := {[7%nat := Sample.row Sample.alice]} in
  let privileges := [InstructorPrivilege.mk true true] in
  let out := combinePrivilegesInPlace (groups, privileges) heap in
  (length privileges < length (allRefs groups))%nat /\
  (length privileges <= 1)%nat /\
  allRefs groups !! 1%nat = Some 7%nat /\
  heap !! 7%nat = Some (StudentListRowModel.mk Sample.alice false false) /\
  Combined.heap out !! 7%nat = Some (StudentListRowModel.mk Sample.alice true true).
Proof. cbv zeta. split_and!; [simpl; lia|simpl; lia|reflexivity..]. Qed.

(** X8. With at least as many privileges as rows, [combinePrivileges] leaves
    every row object with the two fields of the privilege found at the last
    position in loop order that lists it, which is its own position when no
    object is listed twice; the privileges beyond the last row stay in the
    array and change nothing. *)
Theorem combinePrivilegesInPlace_surplus
    (coursesWithStudents : list RowTable.t)
    (privileges : list InstructorPrivilege.t)
    (heap : gmap nat StudentListRowModel.t) :
  (length (allRefs coursesWithStudents) <= length privileges)%nat ->
  let out := combinePrivilegesInPlace (coursesWithStudents, privileges) heap in
  (forall i ref p row,
     allRefs coursesWithStudents !! i = Some ref ->
     privileges !! i = Some p ->
     heap !! ref = Some row ->
     (forall j, (i < j)%nat -> allRefs coursesWithStudents !! j ≠ Some ref) ->
     exists row',
       Combined.heap out !! ref = Some row' /\
       StudentListRowModel.student row' = StudentListRowModel.student row /\
       StudentListRowModel.isAllowedToViewStudentInSection row' =
         InstructorPrivilege.canViewStudentInSections p /\
       StudentListRowModel.isAllowedToModifyStudent row' =
         InstructorPrivilege.canModifyStudent p) /\
  Combined.privileges out =
    drop (length (allRefs coursesWithStudents)) privileges /\
  (forall extra,
     let more :=
       combinePrivilegesInPlace (coursesWithStudents, privileges ++ extra) heap in
     Combined.heap more = Combined.heap out /\
     Combined.searchStudentTables more = Combined.searchStudentTables out /\
     Combined.privileges more = Combined.privileges out ++ extra).
Proof.
  intros Hle out. subst out. rewrite combinePrivilegesInPlace_flat.
  cbn [Combined.searchStudentTables Combined.privileges Combined.heap].
  split_and!; [|done|].
  - intros i ref p row Href Hp Hrow Hlast. apply (assigned_row p row).
    rewrite <- Hrow. apply (combineStudentsInPlace_last _ _ _ i ref p Href Hp).
    intros j Hij _. by apply Hlast.
  - intros extra. rewrite combinePrivilegesInPlace_flat.
    cbn [Combined.searchStudentTables Combined.privileges Combined.heap].
    rewrite combineStudentsInPlace_spare by done. cbn [fst].
    split_and!; [done|done|]. by rewrite drop_app_le.
Qed.

(** Two privileges for a row object listed twice, as a run of X8. *)
Lemma combinePrivilegesInPlace_surplus_witness :
  let groups := [RowTable.mk "C1" [7]; RowTable.mk "C2" [7]]%nat in
  let heap : gmap nat StudentListRowModel.t := {[7%nat := Sample.row Sample.alice]} in
  let privileges := [InstructorPrivilege.mk true false; InstructorPrivilege.mk false true] in
  (length (allRefs groups) <= length privileges)%nat /\
  exists row',
    Combined.heap (combinePrivilegesInPlace (groups, privileges) heap) !! 7%nat =
      Some row' /\
    StudentListRowModel.isAllowedToViewStudentInSection row' = false /\
    StudentListRowModel.isAllowedToModifyStudent row' = true.
Proof.
  intros groups heap privileges.
  assert (length (allRefs groups) <= length privileges)%nat as Hle by (simpl; lia).
  split; [exact Hle|].
  destruct (proj1 (combinePrivilegesInPlace_surplus groups privileges heap Hle)
              1%nat 7%nat (InstructorPrivilege.mk false true) (Sample.row Sample.alice)
              eq_refl eq_refl eq_refl)
    as (row' & Hrow' & _ & Hview & Hmodify).
  - intros [|[|j]] Hj; [lia|lia|done].
  - exists row'. split; [exact Hrow'|]. split; [exact Hview|exact Hmodify].
Defined.

Lemma answers_of_positions searchService
    (coursesWithStudents : list SearchStudentsListRowTable.t) :
  (forall course row,
     course ∈ coursesWithStudents ->
     row ∈ SearchStudentsListRowTable.students course ->
     exists p, reply (privilegeFor searchService course row) = Ok p) ->
  Forall2
    (fun position p =>
       reply (SearchService.searchInstructorPrivilege searchService
                (SearchStudentsListRowTable.courseId position.1)
                (Student.sectionName (StudentListRowModel.student position.2))) = Ok p)
    (positionsOf coursesWithStudents)
    (concat ((fun course =>
                (fun row => bodyOf (privilegeFor searchService course row))
                <$> SearchStudentsListRowTable.students course)
             <$> coursesWithStudents)).
Proof.
  unfold positionsOf.
  induction coursesWithStudents as [|course rest IH]; intros Hok; [constructor|].
  rewrite !fmap_cons. cbn [concat]. apply Forall2_app.
  - apply Forall2_fmap, Forall_Forall2_diag, Forall_forall. intros row Hrow.
    destruct (Hok course row) as [p Hp]; [left|done|].
    simpl. unfold bodyOf. rewrite Hp. exact Hp.
  - apply IH. intros c row Hc Hrow. apply Hok; [by right|done].
Qed.

(** X5. When there is a row and every lookup is answered, [getPrivileges]
    delivers one privilege per row, in the order of the loops over groups and
    rows, and each is the answer to the lookup for the course id of the
    row's group and the section of the row. When a lookup fails, the stream
    ends with the error of a failed lookup instead. *)
Theorem getPrivileges_one_answer_per_row (searchService : SearchService.t)
    (coursesWithStudents : list SearchStudentsListRowTable.t) (now : Time) :
  allRows coursesWithStudents ≠ [] ->
  ((forall course row,
      course ∈ coursesWithStudents ->
      row ∈ SearchStudentsListRowTable.students course ->
      exists p,
        reply (SearchService.searchInstructorPrivilege searchService
                 (SearchStudentsListRowTable.courseId course)
                 (Student.sectionName (StudentListRowModel.student row))) = Ok p) ->
   exists privileges,
     Rx.signal ((getPrivileges searchService coursesWithStudents).1 now) =
       Rx.Next privileges /\
     length privileges = length (allRows coursesWithStudents) /\
     Forall2
       (fun position p =>
          reply (SearchService.searchInstructorPrivilege searchService
                   (SearchStudentsListRowTable.courseId position.1)
                   (Student.sectionName (StudentListRowModel.student position.2)))
            = Ok p)
       (positionsOf coursesWithStudents) privileges) /\
  (forall course row e,
     course ∈ coursesWithStudents ->
     row ∈ SearchStudentsListRowTable.students course ->
     reply (SearchService.searchInstructorPrivilege searchService
              (SearchStudentsListRowTable.courseId course)
              (Student.sectionName (StudentListRowModel.student row))) = Failed e ->
     exists e' course' row',
       Rx.signal ((getPrivileges searchService coursesWithStudents).1 now) =
         Rx.Error e' /\
       course' ∈ coursesWithStudents /\
       row' ∈ SearchStudentsListRowTable.students course' /\
       reply (SearchService.searchInstructorPrivilege searchService
                (SearchStudentsListRowTable.courseId course')
                (Student.sectionName (StudentListRowModel.student row'))) = Failed e').
Proof.
  intros Hrows.
  pose proof (getPrivileges_outcome searchService coursesWithStudents now Hrows) as Hends.
  destruct (Rx.signal _) as [privileges|e'|]; [| |done].
  - destruct Hends as [Hok ->]. split.
    + intros _. eexists. split_and!; [done|apply length_concat_rows|].
      by apply answers_of_positions.
    + intros course row e Hcourse Hrow Hfail.
      destruct (Hok course row Hcourse Hrow) as [p Hp].
      unfold privilegeFor, sectionOf in Hp. congruence.
  - destruct Hends as (course' & row' & Hcourse' & Hrow' & Hfail'). split.
    + intros Hok. destruct (Hok course' row' Hcourse' Hrow') as [p Hp].
      unfold privilegeFor, sectionOf in Hfail'. congruence.
    + intros _ _ _ _ _ _. exists e', course', row'. by split_and!.
Qed.

(** The groups of the sample students, as a run of X5. *)
Lemma getPrivileges_one_answer_per_row_witness :
  allRows (getCoursesWithStudents Sample.students) ≠ [] /\
  Rx.signal ((getPrivileges Sample.backend (getCoursesWithStudents Sample.students)).1 0) =
    Rx.Next [InstructorPrivilege.mk true false; InstructorPrivilege.mk true false;
             InstructorPrivilege.mk false true].
Proof.
  assert (allRows (getCoursesWithStudents Sample.students) ≠ []) as Hrows by discriminate.
  split; [exact Hrows|].
  destruct (proj1 (getPrivileges_one_answer_per_row Sample.backend
                     (getCoursesWithStudents Sample.students) 0%nat Hrows))
    as (privileges & Hsignal & _).
  - intros course row _ _. eexists. reflexivity.
  - reflexivity.
Defined.


(** * Distinct row objects *)

Lemma omap_step {A B} (f : A -> option B) (x : A) (l : list A) :
  omap f (x :: l) =
  match f x with Some y => y :: omap f l | None => omap f l end.
Proof. reflexivity. Qed.

Lemma omap_agree {A B} (f g : A -> option B) (l : list A) :
  (forall x, x ∈ l -> f x = g x) -> omap f l = omap g l.
Proof.
  induction l as [|x l IH]; intros Hagree; [done|].
  rewrite !omap_step, (Hagree x) by left.
  rewrite IH; [done|]. intros y Hy. apply Hagree. by right.
Qed.

Lemma resolve_agree heap1 heap2 (coursesWithStudents : list RowTable.t) :
  (forall ref, ref ∈ allRefs coursesWithStudents -> heap1 !! ref = heap2 !! ref) ->
  resolve heap1 <$> coursesWithStudents = resolve heap2 <$> coursesWithStudents.
Proof.
  unfold allRefs. intros Hagree. apply list_fmap_ext. intros i course Hcourse.
  unfold resolve. f_equal. apply omap_agree. intros ref Href. apply Hagree.
  apply elem_of_concat. eexists. split; [done|].
  apply list_elem_of_fmap. exists course. split; [done|].
  by eapply list_elem_of_lookup_2.
Qed.

(** On row objects listed once, the loop over a course does what
    [combineStudents] does to the rows. *)
Lemma combineStudentsInPlace_distinct students privileges
    (heap : gmap nat StudentListRowModel.t) :
  NoDup students ->
  (forall ref, ref ∈ students -> is_Some (heap !! ref)) ->
  omap (fun ref => (combineStudentsInPlace students privileges heap).1 !! ref) students =
  assignFront privileges (omap (fun ref => heap !! ref) students).
Proof.
  revert privileges heap.
  induction students as [|r rest IH]; intros privileges heap Hnd Hall; [done|].
  apply NoDup_cons in Hnd as [Hr Hnd].
  destruct (Hall r) as [row Hrow]; [left|].
  assert (forall ref, ref ∈ rest -> is_Some (heap !! ref)) as Hrest
    by (intros ref Href; apply Hall; by right).
  rewrite !omap_step, Hrow.
  destruct privileges as [|p ps]; cbn [combineStudentsInPlace shift].
  - rewrite combineStudentsInPlace_untouched by (simpl; apply not_elem_of_nil).
    rewrite Hrow. cbn [assignFront]. f_equal.
    rewrite (IH [] heap Hnd Hrest). apply assignFront_nil.
  - rewrite combineStudentsInPlace_untouched.
    2:{ intros (j & Hj & _)%elem_of_take. apply Hr. by eapply list_elem_of_lookup_2. }
    rewrite lookup_alter_eq, Hrow. cbn [fmap option_fmap option_map assignFront].
    f_equal.
    rewrite IH; [|done|].
    + f_equal. apply omap_agree. intros ref Href.
      apply lookup_alter_ne. by intros ->.
    + intros ref Href. apply lookup_alter_is_Some. by apply Hrest.
Qed.

Lemma combineStudentsInPlace_allocated students privileges
    (heap : gmap nat StudentListRowModel.t) ref :
  is_Some (heap !! ref) ->
  is_Some ((combineStudentsInPlace students privileges heap).1 !! ref).
Proof.
  revert privileges heap.
  induction students as [|r rest IH]; intros privileges heap Hsome; [done|].
  destruct privileges as [|p ps]; simpl; apply IH; [done|].
  by apply lookup_alter_is_Some.
Qed.

Lemma length_resolved (heap : gmap nat StudentListRowModel.t) students :
  (forall ref, ref ∈ students -> is_Some (heap !! ref)) ->
  length (omap (fun ref => heap !! ref) students) = length students.
Proof.
  induction students as [|r rest IH]; intros Hall; [done|].
  destruct (Hall r) as [row Hrow]; [left|]. rewrite omap_step, Hrow.
  cbn [length]. f_equal. apply IH. intros ref Href. apply Hall. by right.
Qed.

(** On row objects none of which is listed twice, [combinePrivileges] in
    place shows the groups that [combineCourses] computes from the groups
    seen before the call: this is how the course groups of
    [getCoursesWithStudents], whose rows are new objects, are combined in
    [search]. *)
Lemma combineCoursesInPlace_distinct coursesWithStudents privileges
    (heap : gmap nat StudentListRowModel.t) :
  NoDup (allRefs coursesWithStudents) ->
  allocated heap coursesWithStudents ->
  resolve (combineCoursesInPlace coursesWithStudents privileges heap).1
    <$> coursesWithStudents =
  combineCourses (resolve heap <$> coursesWithStudents) privileges.
Proof.
  unfold allocated, allRefs. revert privileges heap.
  induction coursesWithStudents as [|course rest IH];
    intros privileges heap Hnd Hall; [done|].
  rewrite fmap_cons in Hnd, Hall. cbn [concat] in Hnd, Hall.
  apply NoDup_app in Hnd as (Hhere & Hapart & Hthere).
  assert (forall ref, ref ∈ RowTable.students course -> is_Some (heap !! ref)) as Hrows
    by (intros ref Href; apply Hall, elem_of_app; by left).
  rewrite !fmap_cons, combineCourses_cons. cbn [combineCoursesInPlace].
  pose proof (combineStudentsInPlace_remaining (RowTable.students course) privileges heap)
    as Hremaining.
  pose proof (combineStudentsInPlace_distinct (RowTable.students course) privileges heap
                Hhere Hrows) as Hrow.
  assert (forall ref, ref ∈ concat (RowTable.students <$> rest) ->
            (combineStudentsInPlace (RowTable.students course) privileges heap).1 !! ref =
            heap !! ref) as Hother.
  { intros ref Href. apply combineStudentsInPlace_untouched.
    intros Hin%elem_of_take. destruct Hin as (j & Hj & _).
    apply (Hapart ref); [by eapply list_elem_of_lookup_2|done]. }
  destruct (combineStudentsInPlace (RowTable.students course) privileges heap)
    as [heap1 privileges1]. cbn [fst snd] in *. subst privileges1.
  f_equal.
  - unfold resolve. cbn [SearchStudentsListRowTable.courseId
                         SearchStudentsListRowTable.students].
    f_equal. rewrite <- Hrow. apply omap_agree. intros ref Href.
    rewrite combineCoursesInPlace_flat. apply combineStudentsInPlace_untouched.
    intros (j & Hj & _)%elem_of_take.
    apply (Hapart ref); [done|by eapply list_elem_of_lookup_2].
  - replace (length (SearchStudentsListRowTable.students (resolve heap course)))
      with (length (RowTable.students course))
      by (symmetry; by apply length_resolved).
    rewrite IH; [|done|].
    + f_equal. by apply resolve_agree.
    + intros ref Href. rewrite Hother by done. apply Hall, elem_of_app. by right.
Qed.
